(** * Metrics-aggregation pipeline of the flower-shop services

    A shallow embedding of
      - services/analytics-service/app/kafka_consumer.py  (handlers, dispatch)
      - services/analytics-service/app/models.py          (tables)
      - services/analytics-service/app/routers/analytics.py (dashboard queries)
      - services/catalog-service/app/kafka_producer.py    (emitter, class)
      - services/order-service/app/kafka_producer.py      (emitter, module)
    followed by the properties of the pipeline proved about it. *)

From Stdlib Require Import ZArith List String Bool Lia Permutation Sorted.
From Stdlib Require Import PrimFloat FloatOps SpecFloat FloatAxioms.
Import ListNotations.
Open Scope string_scope.
Open Scope list_scope.
Open Scope Z_scope.

Set Implicit Arguments.
Set Warnings "-register-all".

(* ===================================================================== *)
(** ** Dates and times *)

(** A naive [datetime]: the proleptic ordinal of its date ([date.toordinal])
    and the microsecond of the day.  Python orders naive datetimes
    field by field, which on these two components is the lexicographic
    order. *)
Definition date := Z.

Record datetime : Type := mk_datetime { dt_day : date; dt_usec : Z }.

(** Microsecond of the day of [time(h, m, s, us)]. *)
Definition time_of (h m s us : Z) : Z := ((h * 60 + m) * 60 + s) * 1000000 + us.

(** [time.min] is 00:00:00 and [time.max] is 23:59:59.999999. *)
Definition time_min : Z := time_of 0 0 0 0.
Definition time_max : Z := time_of 23 59 59 999999.

(** [datetime.combine(d, t)] *)
Definition datetime_combine (d : date) (t : Z) : datetime := mk_datetime d t.

(** [a <= b] on datetimes. *)
Definition datetime_leb (a b : datetime) : bool :=
  (dt_day a <? dt_day b) || ((dt_day a =? dt_day b) && (dt_usec a <=? dt_usec b)).

(** [a >= b] on datetimes. *)
Definition datetime_geb (a b : datetime) : bool := datetime_leb b a.

(* ===================================================================== *)
(** ** JSON values and Python exceptions *)

(** What [json.loads] produces.  A decoded object keeps one value per key,
    so a dictionary is read through [dict_get], which takes the first
    binding of a key. *)
Inductive json : Type :=
| JNull
| JBool (b : bool)
| JInt (z : Z)
| JFloat (f : float)
| JStr (s : string)
| JList (l : list json)
| JDict (d : list (string * json)).

Definition dict := list (string * json).

Fixpoint dict_get (k : string) (d : dict) : option json :=
  match d with
  | [] => None
  | (k', v) :: d' => if String.eqb k k' then Some v else dict_get k d'
  end.

(** [d[k] = v] on a dictionary: the binding is replaced where the key is
    present and appended where it is not. *)
Fixpoint dict_set (k : string) (v : json) (d : dict) : dict :=
  match d with
  | [] => [(k, v)]
  | (k', v') :: d' =>
      if String.eqb k k' then (k, v) :: d' else (k', v') :: dict_set k v d'
  end.

(** [data.get(k, dflt)] *)
Definition get_default (k : string) (dflt : json) (d : dict) : json :=
  match dict_get k d with
  | Some v => v
  | None => dflt
  end.

(** The exceptions the modelled code can meet.  [CancelledError] derives
    from [BaseException] only, so [except Exception] does not catch it. *)
Inductive exn : Type :=
| KeyError (k : string)
| TypeError
| AttributeError
| OverflowError
| StatementError (column : string)
| MultipleResultsFound
| KafkaError
| CancelledError.

Definition is_Exception (e : exn) : bool :=
  match e with
  | CancelledError => false
  | _ => true
  end.

Inductive result (A : Type) : Type :=
| Ok (a : A)
| Raise (e : exn).
Arguments Ok {A} a.
Arguments Raise {A} e.

(* ===================================================================== *)
(** ** Tables (models.py)

    Each table is the list of its rows in insertion order.  The
    autoincrement primary key [id] of a row is its position in the table
    (no code of the service deletes a row), so it is not stored again in
    the row and an ORM update of a loaded row is an update at its
    position. *)

Module ProductView.
Record t : Type := mk {
  product_id : Z;
  user_id : option Z;
  viewed_at : datetime
}.
End ProductView.

Module OrderMetric.
Record t : Type := mk {
  order_id : Z;
  user_id : Z;
  total_amount : float;
  items_count : Z;
  delivery_type : string;
  created_at : datetime
}.
End OrderMetric.

Module PopularProduct.
Record t : Type := mk {
  product_id : Z;
  product_name : string;
  view_count : Z;
  order_count : Z;
  last_updated : datetime
}.

Definition set_view_count (v : Z) (p : t) : t :=
  mk (product_id p) (product_name p) v (order_count p) (last_updated p).
Definition set_order_count (v : Z) (p : t) : t :=
  mk (product_id p) (product_name p) (view_count p) v (last_updated p).
Definition set_last_updated (d : datetime) (p : t) : t :=
  mk (product_id p) (product_name p) (view_count p) (order_count p) d.
End PopularProduct.

Record Store : Type := mk_store {
  product_views : list ProductView.t;
  order_metrics : list OrderMetric.t;
  popular_products : list PopularProduct.t
}.

Definition empty_store : Store := mk_store [] [] [].

(** Values accepted by the column types of models.py; a value of another
    JSON type is refused by the database layer when the row is flushed.
    Integers are Python's, unbounded: the widths of the integer columns
    are not modelled. *)
Definition float_of_Z (z : Z) : float :=
  SF2Prim (binary_normalize prec emax z 0 false).

Definition as_Integer (column : string) (v : json) : result Z :=
  match v with
  | JInt z => Ok z
  | _ => Raise (StatementError column)
  end.

Definition as_nullable_Integer (column : string) (v : json) : result (option Z) :=
  match v with
  | JNull => Ok None
  | JInt z => Ok (Some z)
  | _ => Raise (StatementError column)
  end.

Definition as_String (column : string) (v : json) : result string :=
  match v with
  | JStr s => Ok s
  | _ => Raise (StatementError column)
  end.

Definition as_Float (column : string) (v : json) : result float :=
  match v with
  | JFloat f => Ok f
  | JInt z =>
      let f := float_of_Z z in
      if is_infinity f then Raise OverflowError else Ok f
  | _ => Raise (StatementError column)
  end.

(* ===================================================================== *)
(** ** The consumer's world and its monad

    The aggregator runs against the aggregate store, reads the system
    clock and writes log records.  [ticks] counts the calls of
    [datetime.utcnow()] made so far; the k-th call returns [clock k]. *)

Inductive log_entry : Type :=
| LogProcessedView (data : dict)
| LogProcessedOrder (data : dict)
| LogUnknownEvent (event_type : json) (topic : string)
| LogProcessingError (value : json).

Record World : Type := mk_world {
  db : Store;
  ticks : nat;
  log : list log_entry
}.

(** Code that threads a state [S] and may raise. *)
Definition ST (S A : Type) : Type := S -> result A * S.

Definition ret {S A : Type} (a : A) : ST S A := fun s => (Ok a, s).

Definition raise {S A : Type} (e : exn) : ST S A := fun s => (Raise e, s).

Definition bind {S A B : Type} (c : ST S A) (k : A -> ST S B) : ST S B :=
  fun s =>
    match c s with
    | (Ok a, s') => k a s'
    | (Raise e, s') => (Raise e, s')
    end.

Notation "x <- c ;; k" := (bind c (fun x => k))
  (at level 61, c at next level, right associativity).
Notation "c ;;; k" := (bind c (fun _ => k))
  (at level 61, right associativity).

Definition lift {S A : Type} (r : result A) : ST S A :=
  match r with
  | Ok a => ret a
  | Raise e => raise e
  end.

(** [try: body  except Exception: handler] *)
Definition try_except {S A : Type} (body handler : ST S A) : ST S A :=
  fun s =>
    match body s with
    | (Ok a, s') => (Ok a, s')
    | (Raise e, s') => if is_Exception e then handler s' else (Raise e, s')
    end.

(** [try: body  finally: final] *)
Definition try_finally {S A : Type} (body : ST S A) (final : ST S unit) : ST S A :=
  fun s =>
    match body s with
    | (r, s') =>
        match final s' with
        | (Ok _, s'') => (r, s'')
        | (Raise e, s'') => (Raise e, s'')
        end
    end.

Definition M (A : Type) : Type := ST World A.

Definition get_db : M Store := fun w => (Ok (db w), w).

Definition put_db (s : Store) : M unit :=
  fun w => (Ok tt, mk_world s (ticks w) (log w)).

Definition write_log (l : log_entry) : M unit :=
  fun w => (Ok tt, mk_world (db w) (ticks w) (log w ++ [l])).

(** [for x in xs: body(x)] *)
Fixpoint for_each {S A : Type} (xs : list A) (body : A -> ST S unit) : ST S unit :=
  match xs with
  | [] => ret tt
  | x :: xs' => body x ;;; for_each xs' body
  end.

(** [data[k]] *)
Definition getitem (k : string) (d : dict) : M json :=
  match dict_get k d with
  | Some v => ret v
  | None => raise (KeyError k)
  end.

(** [for item in v]: the elements a JSON value yields when iterated. *)
Fixpoint chars (s : string) : list json :=
  match s with
  | EmptyString => []
  | String c s' => JStr (String c EmptyString) :: chars s'
  end.

Definition iterate (v : json) : M (list json) :=
  match v with
  | JList l => ret l
  | JStr s => ret (chars s)
  | JDict d => ret (map (fun kv => JStr (fst kv)) d)
  | _ => raise TypeError
  end.

(** [item[k]] for a string key [k] *)
Definition subscript (item : json) (k : string) : M json :=
  match item with
  | JDict d => getitem k d
  | _ => raise TypeError
  end.

(** [item.get(k, dflt)] *)
Definition item_get (item : json) (k : string) (dflt : json) : M json :=
  match item with
  | JDict d => ret (get_default k dflt d)
  | _ => raise AttributeError
  end.

(* ===================================================================== *)
(** ** Session operations used by the handlers

    A row handed to [session.add] is written by the flush that precedes
    the next query or the commit.  The model writes it at the add: a row
    the database refuses raises in both cases and the transaction is
    rolled back, and the session's queries see the rows added before
    them.  The unique constraint on [popular_products.product_id] is not
    enforced by [add_PopularProduct]: that the handlers never insert a
    second row for a product is a property proved of them below. *)

(** Rows of a table satisfying [p], each with its position. *)
Fixpoint select_where {A : Type} (p : A -> bool) (rows : list A) : list (nat * A) :=
  match rows with
  | [] => []
  | r :: rs =>
      (if p r then [(O, r)] else [])
        ++ map (fun jr => (S (fst jr), snd jr)) (select_where p rs)
  end.

Fixpoint list_update {A : Type} (i : nat) (x : A) (l : list A) : list A :=
  match l, i with
  | [], _ => []
  | _ :: t, O => x :: t
  | h :: t, S i' => h :: list_update i' x t
  end.

(** [result.scalar_one_or_none()] *)
Definition scalar_one_or_none {A : Type} (rows : list A) : M (option A) :=
  match rows with
  | [] => ret None
  | [r] => ret (Some r)
  | _ => raise MultipleResultsFound
  end.

(** [session.add(ProductView(...))] followed by its flush. *)
Definition add_ProductView (product_id user_id : json) (viewed_at : datetime) : M unit :=
  pid <- lift (as_Integer "product_id" product_id) ;;
  uid <- lift (as_nullable_Integer "user_id" user_id) ;;
  s <- get_db ;;
  put_db (mk_store (product_views s ++ [ProductView.mk pid uid viewed_at])
                   (order_metrics s) (popular_products s)).

(** [session.add(OrderMetric(...))] followed by its flush. *)
Definition add_OrderMetric (order_id user_id total_amount items_count delivery_type : json)
    (created_at : datetime) : M unit :=
  oid <- lift (as_Integer "order_id" order_id) ;;
  uid <- lift (as_Integer "user_id" user_id) ;;
  amount <- lift (as_Float "total_amount" total_amount) ;;
  cnt <- lift (as_Integer "items_count" items_count) ;;
  dt <- lift (as_String "delivery_type" delivery_type) ;;
  s <- get_db ;;
  put_db (mk_store (product_views s)
                   (order_metrics s ++ [OrderMetric.mk oid uid amount cnt dt created_at])
                   (popular_products s)).

(** [session.add(PopularProduct(...))] followed by its flush. *)
Definition add_PopularProduct (product_id product_name : json)
    (view_count order_count : Z) (last_updated : datetime) : M unit :=
  pid <- lift (as_Integer "product_id" product_id) ;;
  name <- lift (as_String "product_name" product_name) ;;
  s <- get_db ;;
  put_db (mk_store (product_views s) (order_metrics s)
            (popular_products s
               ++ [PopularProduct.mk pid name view_count order_count last_updated])).

(** [select(PopularProduct).where(PopularProduct.product_id == v)] *)
Definition select_PopularProduct (v : json) : M (list (nat * PopularProduct.t)) :=
  pid <- lift (as_Integer "product_id" v) ;;
  s <- get_db ;;
  ret (select_where (fun p => PopularProduct.product_id p =? pid) (popular_products s)).

(** Attribute assignments on a loaded PopularProduct, written back at its
    primary key. *)
Definition update_PopularProduct (i : nat) (p : PopularProduct.t) : M unit :=
  s <- get_db ;;
  put_db (mk_store (product_views s) (order_metrics s)
                   (list_update i p (popular_products s))).

(** Modelled from the spec: [async_session] of the analytics service
    (its app/database.py) is not among the sources.  The spec has a
    handler run "as a single atomic unit against the aggregate store ...
    committed or rolled back together", which is what
    [async with session.begin()] does with the writes of its body. *)
Definition transaction (body : M unit) : M unit :=
  fun w =>
    match body w with
    | (Ok a, w') => (Ok a, w')
    | (Raise e, w') => (Raise e, mk_world (db w) (ticks w') (log w'))
    end.

(* ===================================================================== *)
(** ** Aggregation handlers (kafka_consumer.py) *)

Section Aggregator.

(** [clock k] is what the k-th call of [datetime.utcnow()] returns. *)
Variable clock : nat -> datetime.

Definition utcnow : M datetime :=
  fun w => (Ok (clock (ticks w)), mk_world (db w) (S (ticks w)) (log w)).

Definition _handle_product_view (data : dict) : M unit :=
  transaction (
    product_id <- getitem "product_id" data ;;
    let user_id := get_default "user_id" JNull data in
    viewed_at <- utcnow ;;
    add_ProductView product_id user_id viewed_at ;;;
    product_id' <- getitem "product_id" data ;;
    rows <- select_PopularProduct product_id' ;;
    popular <- scalar_one_or_none rows ;;
    match popular with
    | Some (i, p) =>
        let p1 := PopularProduct.set_view_count (PopularProduct.view_count p + 1) p in
        now <- utcnow ;;
        update_PopularProduct i (PopularProduct.set_last_updated now p1)
    | None =>
        product_id'' <- getitem "product_id" data ;;
        let product_name := get_default "product_name" (JStr "Unknown") data in
        now <- utcnow ;;
        add_PopularProduct product_id'' product_name 1 0 now
    end).

Definition _handle_order_created (data : dict) : M unit :=
  transaction (
    order_id <- getitem "order_id" data ;;
    user_id <- getitem "user_id" data ;;
    total_amount <- getitem "total_amount" data ;;
    items_count <- getitem "items_count" data ;;
    let delivery_type := get_default "delivery_type" (JStr "unknown") data in
    created_at <- utcnow ;;
    add_OrderMetric order_id user_id total_amount items_count delivery_type created_at ;;;
    let items := get_default "items" (JList []) data in
    items' <- iterate items ;;
    for_each items' (fun item =>
      product_id <- subscript item "product_id" ;;
      product_name <- item_get item "product_name" (JStr "Unknown") ;;
      rows <- select_PopularProduct product_id ;;
      popular <- scalar_one_or_none rows ;;
      match popular with
      | Some (i, p) =>
          let p1 := PopularProduct.set_order_count (PopularProduct.order_count p + 1) p in
          now <- utcnow ;;
          update_PopularProduct i (PopularProduct.set_last_updated now p1)
      | None =>
          now <- utcnow ;;
          add_PopularProduct product_id product_name 0 1 now
      end)).

End Aggregator.

(* ===================================================================== *)
(** ** Aggregator loop body (kafka_consumer.py, [consume]) *)

Record message : Type := mk_message { topic : string; value : json }.

(** [v == s] for a string literal [s] *)
Definition eq_str (v : json) (s : string) : bool :=
  match v with
  | JStr s' => String.eqb s' s
  | _ => false
  end.

Section Consume.

Variable clock : nat -> datetime.

(** The body of the inner [try] of [consume]. *)
Definition dispatch (m : message) : M unit :=
  match value m with
  | JDict data =>
      let event_type := get_default "event_type" (JStr "") data in
      if String.eqb (topic m) "product_views" || eq_str event_type "product_view" then
        _handle_product_view clock data ;;;
        write_log (LogProcessedView data)
      else if String.eqb (topic m) "order_events" || eq_str event_type "order_created" then
        _handle_order_created clock data ;;;
        write_log (LogProcessedOrder data)
      else
        write_log (LogUnknownEvent event_type (topic m))
  | _ => raise AttributeError
  end.

(** One turn of [async for message in consumer]. *)
Definition process_message (m : message) : M unit :=
  try_except (dispatch m) (write_log (LogProcessingError (value m))).

(** The turns of the loop over the messages delivered by the broker. *)
Definition consume_messages (ms : list message) : M unit :=
  for_each ms process_message.

End Consume.

(* ===================================================================== *)
(** ** Event emitters (kafka_producer.py of catalog-service and order-service)

    The aiokafka producer is outside the repository: what each of its
    calls does (return or raise) is an input of the model.  [producer] is
    [self._producer] of the catalog wrapper and the module global
    [producer] of the order service; [broker] collects what was
    published. *)

Inductive AIOKafkaProducer : Type := Producer (bootstrap_servers : string).

Inductive level : Type := DEBUG | INFO | WARNING | ERROR.

Record Emitter : Type := mk_emitter {
  producer : option AIOKafkaProducer;
  broker : list (string * json);
  emitted_log : list (level * string)
}.

Inductive outcome : Type :=
| Returns
| Raises (e : exn).

Definition set_producer (p : option AIOKafkaProducer) : ST Emitter unit :=
  fun s => (Ok tt, mk_emitter p (broker s) (emitted_log s)).

Definition logger (l : level) (msg : string) : ST Emitter unit :=
  fun s => (Ok tt, mk_emitter (producer s) (broker s) (emitted_log s ++ [(l, msg)])).

(** [await producer.start()] and [await producer.stop()] *)
Definition producer_call (o : outcome) : ST Emitter unit :=
  match o with
  | Returns => ret tt
  | Raises e => raise e
  end.

(** [await producer.send_and_wait(topic, event)] *)
Definition send_and_wait (o : outcome) (topic : string) (event : json) : ST Emitter unit :=
  match o with
  | Returns =>
      fun s => (Ok tt, mk_emitter (producer s) (broker s ++ [(topic, event)]) (emitted_log s))
  | Raises e => raise e
  end.

Definition KAFKA_BOOTSTRAP_SERVERS : string := "localhost:9092".

Module Catalog.

(** [KafkaProducerWrapper.start] *)
Definition start (o : outcome) : ST Emitter unit :=
  try_except
    (set_producer (Some (Producer KAFKA_BOOTSTRAP_SERVERS)) ;;;
     producer_call o ;;;
     logger INFO "Kafka producer started")
    (logger WARNING "Failed to connect to Kafka" ;;;
     set_producer None).

(** [KafkaProducerWrapper.stop] *)
Definition stop (o : outcome) : ST Emitter unit :=
  fun s =>
    match producer s with
    | Some _ =>
        try_finally
          (try_except
             (producer_call o ;;;
              logger INFO "Kafka producer stopped")
             (logger WARNING "Error stopping Kafka producer"))
          (set_producer None) s
    | None => (Ok tt, s)
    end.

(** [KafkaProducerWrapper.send_event] *)
Definition send_event (o : outcome) (topic : string) (event_data : json) : ST Emitter unit :=
  fun s =>
    match producer s with
    | None => logger DEBUG "Kafka producer unavailable; dropping event" s
    | Some _ =>
        try_except
          (send_and_wait o topic event_data ;;;
           logger DEBUG "Event sent")
          (logger WARNING "Failed to send event to Kafka topic") s
    end.

End Catalog.

Module Orders.

(** [start_kafka_producer] *)
Definition start_kafka_producer (o : outcome) : ST Emitter unit :=
  try_except
    (set_producer (Some (Producer KAFKA_BOOTSTRAP_SERVERS)) ;;;
     producer_call o ;;;
     logger INFO "Kafka producer started")
    (logger WARNING "Failed to connect to Kafka" ;;;
     set_producer None).

(** [stop_kafka_producer] *)
Definition stop_kafka_producer (o : outcome) : ST Emitter unit :=
  fun s =>
    match producer s with
    | Some _ =>
        (producer_call o ;;;
         set_producer None ;;;
         logger INFO "Kafka producer stopped") s
    | None => (Ok tt, s)
    end.

(** [send_event] *)
Definition send_event (o : outcome) (topic : string) (event : json) : ST Emitter unit :=
  fun s =>
    match producer s with
    | None => logger WARNING "Kafka producer is not initialised; event dropped" s
    | Some _ =>
        try_except
          (send_and_wait o topic event ;;;
           logger INFO "Event sent")
          (logger ERROR "Failed to send event") s
    end.

End Orders.

(* ===================================================================== *)
(** ** Dashboard query layer (routers/analytics.py) *)

(** [ORDER BY key DESC]: a stable insertion sort, so rows with equal keys
    keep their storage order. *)
Section OrderBy.

Variables (A K : Type) (leb : K -> K -> bool) (key : A -> K).

Fixpoint insert_desc (x : A) (l : list A) : list A :=
  match l with
  | [] => [x]
  | y :: l' => if leb (key y) (key x) then x :: y :: l' else y :: insert_desc x l'
  end.

Fixpoint order_by_desc (l : list A) : list A :=
  match l with
  | [] => []
  | x :: l' => insert_desc x (order_by_desc l')
  end.

End OrderBy.

(** [.limit(n)] *)
Definition limit {A : Type} (n : nat) (l : list A) : list A := firstn n l.

(** schemas.py *)
Module PopularProductResponse.
Record t : Type := mk {
  product_id : Z;
  product_name : string;
  view_count : Z;
  order_count : Z
}.

Definition model_validate (p : PopularProduct.t) : t :=
  mk (PopularProduct.product_id p) (PopularProduct.product_name p)
     (PopularProduct.view_count p) (PopularProduct.order_count p).
End PopularProductResponse.

Module OrderMetricResponse.
Record t : Type := mk {
  id : Z;
  order_id : Z;
  user_id : Z;
  total_amount : float;
  items_count : Z;
  delivery_type : string;
  created_at : datetime
}.

Definition model_validate (o : Z * OrderMetric.t) : t :=
  mk (fst o) (OrderMetric.order_id (snd o)) (OrderMetric.user_id (snd o))
     (OrderMetric.total_amount (snd o)) (OrderMetric.items_count (snd o))
     (OrderMetric.delivery_type (snd o)) (OrderMetric.created_at (snd o)).
End OrderMetricResponse.

Module DashboardMetrics.
Record t : Type := mk {
  total_orders : Z;
  total_revenue : float;
  avg_order_value : float;
  orders_today : Z;
  popular_by_views : list PopularProductResponse.t;
  popular_by_orders : list PopularProductResponse.t
}.
End DashboardMetrics.

(** The rows of a table with their primary keys. *)
Fixpoint with_ids_from {A : Type} (i : Z) (rows : list A) : list (Z * A) :=
  match rows with
  | [] => []
  | r :: rs => (i, r) :: with_ids_from (i + 1) rs
  end.

Definition with_ids {A : Type} (rows : list A) : list (Z * A) := with_ids_from 1 rows.

(** [func.count(col)] over the selected rows *)
Definition sql_count {A : Type} (rows : list A) : Z := Z.of_nat (List.length rows).

(** [func.sum(col)]: NULL over no rows *)
Definition sql_sum (xs : list float) : option float :=
  match xs with
  | [] => None
  | x :: xs' => Some (fold_left PrimFloat.add xs' x)
  end.

(** [func.coalesce(v, dflt)] *)
Definition coalesce (v : option float) (dflt : float) : float :=
  match v with
  | Some x => x
  | None => dflt
  end.

(** [get_popular_by_views] *)
Definition get_popular_by_views (st : Store) : list PopularProductResponse.t :=
  map PopularProductResponse.model_validate
      (limit 10 (order_by_desc Z.leb PopularProduct.view_count (popular_products st))).

(** [get_popular_by_orders] *)
Definition get_popular_by_orders (st : Store) : list PopularProductResponse.t :=
  map PopularProductResponse.model_validate
      (limit 10 (order_by_desc Z.leb PopularProduct.order_count (popular_products st))).

(** A [select(OrderMetric)] under construction: its WHERE clauses and
    whether it orders by [created_at] descending.  The database filters
    before it sorts, whatever the order in which the clauses were added. *)
Record OrderMetricQuery : Type := mk_query {
  where_clauses : list (OrderMetric.t -> bool);
  order_by_created_at_desc : bool
}.

Definition where_ (c : OrderMetric.t -> bool) (q : OrderMetricQuery) : OrderMetricQuery :=
  mk_query (where_clauses q ++ [c]) (order_by_created_at_desc q).

Definition execute (q : OrderMetricQuery) (st : Store) : list (Z * OrderMetric.t) :=
  let selected :=
    filter (fun o => forallb (fun c => c (snd o)) (where_clauses q))
           (with_ids (order_metrics st)) in
  if order_by_created_at_desc q
  then order_by_desc datetime_leb (fun o => OrderMetric.created_at (snd o)) selected
  else selected.

(** [get_order_metrics] *)
Definition get_order_metrics (from_date to_date : option date) (st : Store)
  : list OrderMetricResponse.t :=
  let query := mk_query [] true in
  let query :=
    match from_date with
    | Some d =>
        let from_datetime := datetime_combine d time_min in
        where_ (fun o => datetime_geb (OrderMetric.created_at o) from_datetime) query
    | None => query
    end in
  let query :=
    match to_date with
    | Some d =>
        let to_datetime := datetime_combine d time_max in
        where_ (fun o => datetime_leb (OrderMetric.created_at o) to_datetime) query
    | None => query
    end in
  map OrderMetricResponse.model_validate (execute query st).

Section Dashboard.

(** The builtin [round(x, ndigits)] on floats. *)
Variable round : float -> Z -> float.

(** [get_dashboard]; [today] is what [date.today()] returns. *)
Definition get_dashboard (today : date) (st : Store) : DashboardMetrics.t :=
  let total_orders := sql_count (order_metrics st) in
  let total_revenue :=
    coalesce (sql_sum (map OrderMetric.total_amount (order_metrics st))) 0%float in
  let avg_order_value :=
    if 0 <? total_orders
    then PrimFloat.div total_revenue (float_of_Z total_orders)
    else 0%float in
  let today_start := datetime_combine today time_min in
  let orders_today :=
    sql_count (filter (fun o => datetime_geb (OrderMetric.created_at o) today_start)
                      (order_metrics st)) in
  DashboardMetrics.mk total_orders total_revenue (round avg_order_value 2) orders_today
    (get_popular_by_views st) (get_popular_by_orders st).

End Dashboard.

(** The builtin [round(x, ndigits)] on a float, for [ndigits >= 0].
    Python rounds correctly: the exact value of [x] is rounded to the
    closest multiple of [10 ** -ndigits], the even one when two are
    equally close, and the result is the float nearest to that decimal
    (the decimal string is read back with [strtod]).  Zeros, infinities
    and nan round to themselves.

    [round_half_even_Z num den] is the integer nearest to [num / den],
    the even one on a tie. *)
Definition round_half_even_Z (num den : Z) : Z :=
  let q := num / den in
  let r := num mod den in
  if 2 * r <? den then q
  else if den <? 2 * r then q + 1
  else if Z.even q then q else q + 1.

(** The power [2 ** e] of an integer [e] of either sign, as the fraction
    [pow2_num e / pow2_den e]. *)
Definition pow2_num (e : Z) : Z := 2 ^ Z.max e 0.
Definition pow2_den (e : Z) : Z := 2 ^ Z.max (- e) 0.

(** The integer [l] with [2 ** l <= n / d < 2 ** (l + 1)], for positive
    [n] and [d]. *)
Definition binade (n d : Z) : Z :=
  let l := Z.log2 n - Z.log2 d in
  if n * pow2_den l <? d * pow2_num l then l - 1 else l.

(** The binary64 number nearest to [n / d], with sign [s]: the mantissa
    is [n / d] scaled to 53 bits (less below the normal range, whose
    exponent is -1074) and rounded to the nearest integer, ties to
    even. *)
Definition nearest_binary64 (s : bool) (n d : Z) : spec_float :=
  let e := Z.max (binade n d - 52) (-1074) in
  match round_half_even_Z (n * pow2_den e) (d * pow2_num e) with
  | Zpos m => S754_finite s m e
  | _ => S754_zero s
  end.

(** [round(x, ndigits)].  A finite non-zero float is [m * 2 ** e] with
    sign [s]; [k] is its magnitude in units of [10 ** -ndigits], rounded.
    (Python raises OverflowError when the rounded decimal exceeds the
    largest float; with two digits it never does, as is proved below.) *)
Definition round_ndigits (x : float) (ndigits : Z) : float :=
  match Prim2SF x with
  | S754_finite s m e =>
      let p := 10 ^ ndigits in
      let k := round_half_even_Z (Zpos m * p * pow2_num e) (pow2_den e) in
      SF2Prim (nearest_binary64 s k p)
  | _ => x
  end.


(* ===================================================================== *)
(** ** Vocabulary of the properties *)

Definition has_product_id (pid : Z) (p : PopularProduct.t) : bool :=
  PopularProduct.product_id p =? pid.

(** The PopularProduct rows of a product. *)
Definition rows_for (pid : Z) (st : Store) : list PopularProduct.t :=
  filter (has_product_id pid) (popular_products st).

(** The counters of a product, 0 while it has no row. *)
Definition view_count_in (pid : Z) (rows : list PopularProduct.t) : Z :=
  match filter (has_product_id pid) rows with
  | p :: _ => PopularProduct.view_count p
  | [] => 0
  end.

Definition order_count_in (pid : Z) (rows : list PopularProduct.t) : Z :=
  match filter (has_product_id pid) rows with
  | p :: _ => PopularProduct.order_count p
  | [] => 0
  end.

Definition view_count_of (pid : Z) (st : Store) : Z :=
  view_count_in pid (popular_products st).

Definition order_count_of (pid : Z) (st : Store) : Z :=
  order_count_in pid (popular_products st).

(** The unique constraint on [popular_products.product_id]. *)
Definition unique_product_id (st : Store) : Prop :=
  NoDup (map PopularProduct.product_id (popular_products st)).

(** A product-view payload whose fields have the types of the columns
    they are stored in. *)
Record ViewEvent : Type := mk_view_event {
  ve_product_id : Z;
  ve_user_id : option Z;
  ve_product_name : string
}.

Definition decode_view (data : dict) : option ViewEvent :=
  match dict_get "product_id" data with
  | Some v =>
      match as_Integer "product_id" v,
            as_nullable_Integer "user_id" (get_default "user_id" JNull data),
            as_String "product_name" (get_default "product_name" (JStr "Unknown") data)
      with
      | Ok pid, Ok uid, Ok name => Some (mk_view_event pid uid name)
      | _, _, _ => None
      end
  | None => None
  end.

(** A line item of an order payload: a dictionary with an integer
    [product_id] and, when present, a string [product_name]; any other
    key, [quantity] included, is free. *)
Definition decode_item (item : json) : option (Z * string) :=
  match item with
  | JDict d =>
      match dict_get "product_id" d with
      | Some v =>
          match as_Integer "product_id" v,
                as_String "product_name" (get_default "product_name" (JStr "Unknown") d)
          with
          | Ok pid, Ok name => Some (pid, name)
          | _, _ => None
          end
      | None => None
      end
  | _ => None
  end.

Fixpoint decode_items (items : list json) : option (list (Z * string)) :=
  match items with
  | [] => Some []
  | item :: items' =>
      match decode_item item, decode_items items' with
      | Some l, Some ls => Some (l :: ls)
      | _, _ => None
      end
  end.

(** An order-created payload whose fields have the types of the columns
    they are stored in and whose [items], when present, is a list of line
    items. *)
Record OrderEvent : Type := mk_order_event {
  oe_metric : datetime -> OrderMetric.t;
  oe_lines : list (Z * string)
}.

Definition decode_order (data : dict) : option OrderEvent :=
  match dict_get "order_id" data, dict_get "user_id" data,
        dict_get "total_amount" data, dict_get "items_count" data with
  | Some o, Some u, Some a, Some c =>
      match as_Integer "order_id" o, as_Integer "user_id" u,
            as_Float "total_amount" a, as_Integer "items_count" c,
            as_String "delivery_type" (get_default "delivery_type" (JStr "unknown") data),
            get_default "items" (JList []) data
      with
      | Ok oid, Ok uid, Ok amount, Ok cnt, Ok dt, JList items =>
          match decode_items items with
          | Some lines => Some (mk_order_event (OrderMetric.mk oid uid amount cnt dt) lines)
          | None => None
          end
      | _, _, _, _, _, _ => None
      end
  | _, _, _, _ => None
  end.

(** The product ids an event names. *)
Definition line_product_ids (ev : OrderEvent) : list Z := map fst (oe_lines ev).

(** Update-if-exists-else-insert on the rows of [popular_products]. *)
Fixpoint upsert (pid : Z) (touch : PopularProduct.t -> PopularProduct.t)
    (fresh : PopularProduct.t) (rows : list PopularProduct.t) : list PopularProduct.t :=
  match rows with
  | [] => [fresh]
  | r :: rs =>
      if has_product_id pid r then touch r :: rs
      else r :: upsert pid touch fresh rs
  end.

Definition touch_view (now : datetime) (p : PopularProduct.t) : PopularProduct.t :=
  PopularProduct.set_last_updated now
    (PopularProduct.set_view_count (PopularProduct.view_count p + 1) p).

Definition touch_order (now : datetime) (p : PopularProduct.t) : PopularProduct.t :=
  PopularProduct.set_last_updated now
    (PopularProduct.set_order_count (PopularProduct.order_count p + 1) p).

(** The rows of [popular_products] after the line items of an order, the
    first of them handled at clock reading [t]. *)
Fixpoint apply_lines (clock : nat -> datetime) (t : nat) (lines : list (Z * string))
    (rows : list PopularProduct.t) : list PopularProduct.t :=
  match lines with
  | [] => rows
  | (pid, name) :: ls =>
      apply_lines clock (S t) ls
        (upsert pid (touch_order (clock t)) (PopularProduct.mk pid name 0 1 (clock t)) rows)
  end.

(** The body of the loop over the items of an order. *)
Definition order_item_body (clock : nat -> datetime) (item : json) : M unit :=
  product_id <- subscript item "product_id" ;;
  product_name <- item_get item "product_name" (JStr "Unknown") ;;
  rows <- select_PopularProduct product_id ;;
  popular <- scalar_one_or_none rows ;;
  match popular with
  | Some (i, p) =>
      let p1 := PopularProduct.set_order_count (PopularProduct.order_count p + 1) p in
      now <- utcnow clock ;;
      update_PopularProduct i (PopularProduct.set_last_updated now p1)
  | None =>
      now <- utcnow clock ;;
      add_PopularProduct product_id product_name 0 1 now
  end.

(** [rows'] keeps the keys of [rows] and their uniqueness. *)
Definition extends (rows rows' : list PopularProduct.t) : Prop :=
  (NoDup (map PopularProduct.product_id rows) ->
   NoDup (map PopularProduct.product_id rows')) /\
  (forall pid, In pid (map PopularProduct.product_id rows) ->
               In pid (map PopularProduct.product_id rows')).

(** What every run of a piece of handler code guarantees, whatever the
    payload: product rows are only touched or added without duplicating a
    key, nothing is logged, and only [Exception]s are raised. *)
Definition step_post {A : Type} (w : World) (out : result A * World) : Prop :=
  extends (popular_products (db w)) (popular_products (db (snd out))) /\
  log (snd out) = log w /\
  (forall e, fst out = Raise e -> is_Exception e = true).

Definition safe {A : Type} (c : M A) : Prop := forall w, step_post w (c w).

(** A handler moreover leaves the store as it was when it raises. *)
Definition handler_post (w : World) (out : result unit * World) : Prop :=
  step_post w out /\ (forall e, fst out = Raise e -> db (snd out) = db w).

(** A payload the view handler stores for product [pid]. *)
Definition view_event_for (pid : Z) (data : dict) : Prop :=
  exists ev, decode_view data = Some ev /\ ve_product_id ev = pid.

(** The product ids of a message that the dispatcher hands to a handler
    and whose payload has the shape the handler stores. *)
Definition touched_products (m : message) : list Z :=
  match value m with
  | JDict data =>
      let event_type := get_default "event_type" (JStr "") data in
      if String.eqb (topic m) "product_views" || eq_str event_type "product_view" then
        match decode_view data with
        | Some ev => [ve_product_id ev]
        | None => []
        end
      else if String.eqb (topic m) "order_events" || eq_str event_type "order_created" then
        match decode_order data with
        | Some ev => line_product_ids ev
        | None => []
        end
      else []
  | _ => []
  end.

(** Orders on the rows of a listing. *)
Definition by_views_desc (a b : PopularProductResponse.t) : Prop :=
  PopularProductResponse.view_count b <= PopularProductResponse.view_count a.

Definition by_views_strictly_desc (a b : PopularProductResponse.t) : Prop :=
  PopularProductResponse.view_count b < PopularProductResponse.view_count a.

(** Twelve products, each viewed once. *)
Definition viewed_once (pid : Z) : PopularProduct.t :=
  PopularProduct.mk pid "Rose" 1 0 (mk_datetime 739000 0).

Definition twelve_products : Store :=
  mk_store [] [] (map viewed_once [1; 2; 3; 4; 5; 6; 7; 8; 9; 10; 11; 12]).

(** The window of the order-metrics listing: from [from_date] 00:00:00
    to [to_date] 23:59:59.999999, both included, a missing bound leaving
    its side open. *)
Definition in_window (from_date to_date : option date) (created_at : datetime) : bool :=
  match from_date with
  | Some d => datetime_leb (mk_datetime d (time_of 0 0 0 0)) created_at
  | None => true
  end
  &&
  match to_date with
  | Some d => datetime_leb created_at (mk_datetime d (time_of 23 59 59 999999))
  | None => true
  end.

Definition newest_first (a b : OrderMetricResponse.t) : Prop :=
  datetime_leb (OrderMetricResponse.created_at b) (OrderMetricResponse.created_at a) = true.

(** Every stored order metric as the listing renders it. *)
Definition all_order_metrics (st : Store) : list OrderMetricResponse.t :=
  map OrderMetricResponse.model_validate (with_ids (order_metrics st)).

(** An order recorded half a second before midnight of day 739000. *)
Definition late_order : OrderMetric.t :=
  OrderMetric.mk 1 42 100%float 1 "pickup" (mk_datetime 739000 (time_of 23 59 59 500000)).

Definition late_order_store : Store := mk_store [] [late_order] [].

(** [nearest_even n d k]: the integer [k] is nearest to the fraction
    [n / d] (at most one half away), and is even when [n / d] lies
    halfway between two integers. *)
Definition nearest_even (n d k : Z) : Prop :=
  2 * Z.abs (k * d - n) <= d /\
  (2 * Z.abs (k * d - n) = d -> Z.even k = true).

(** [is_nearest_binary64 s n d f]: the float [f] is the normal binary64
    number nearest to [n / d], with sign [s].  It is [m * 2 ** e] where
    [e] is the exponent at which [n / d] has 53 bits before the point,
    [m] is [(n / d) / 2 ** e] rounded to the nearest integer, ties to
    even, and [m * 2 ** e] is below [2 ** 1024], hence finite. *)
Definition is_nearest_binary64 (s : bool) (n d : Z) (f : float) : Prop :=
  exists (m : positive) (e : Z),
    -1074 <= e /\
    2 ^ 52 * (d * pow2_num e) <= n * pow2_den e < 2 ^ 53 * (d * pow2_num e) /\
    nearest_even (n * pow2_den e) (d * pow2_num e) (Zpos m) /\
    Zpos m * 2 ^ (e + 1074) < 2 ^ 2098 /\
    f = SF2Prim (S754_finite s m e).

(** Two orders, of 10.0 and 5.5. *)
Definition two_orders : Store :=
  mk_store []
    [OrderMetric.mk 1 42 10%float 2 "pickup" (mk_datetime 739000 0);
     OrderMetric.mk 2 43 5.5%float 1 "delivery" (mk_datetime 739000 1)]
    [].

(** Three orders, of 5.0, 2.5 and 2.5: their mean 10/3 is no multiple of
    0.01. *)
Definition three_orders : Store :=
  mk_store []
    [OrderMetric.mk 1 42 5%float 2 "pickup" (mk_datetime 739000 0);
     OrderMetric.mk 2 43 2.5%float 1 "delivery" (mk_datetime 739000 1);
     OrderMetric.mk 3 44 2.5%float 1 "pickup" (mk_datetime 739000 2)]
    [].

(** An emitter with an open connection. *)
Definition connected : Emitter :=
  mk_emitter (Some (Producer KAFKA_BOOTSTRAP_SERVERS)) [] [].

(** Sample inputs: a clock that advances one microsecond per reading, a
    fresh consumer, and payloads of the two shapes of the event
    envelope. *)
Definition sample_clock (n : nat) : datetime := mk_datetime 739000 (Z.of_nat n).

Definition fresh_world : World := mk_world empty_store O [].

Definition rose_view (user : Z) : dict :=
  [("event_type", JStr "product_view"); ("product_id", JInt 1);
   ("product_name", JStr "Rose"); ("user_id", JInt user);
   ("timestamp", JStr "2024-05-01T10:00:00")].

Definition rose_order : dict :=
  [("event_type", JStr "order_created"); ("order_id", JInt 1); ("user_id", JInt 42);
   ("total_amount", JFloat 2500%float); ("items_count", JInt 1);
   ("delivery_type", JStr "pickup");
   ("items", JList [JDict [("product_id", JInt 1); ("product_name", JStr "Rose");
                           ("quantity", JInt 5)]]);
   ("created_at", JStr "2024-05-01T10:00:00")].

(* ===================================================================== *)
(** ** Further vocabulary: store histories, edge cases, emitter runs,
    producers and the reconnecting loop *)

(** The two ways a handler changes the store when it commits, at clock
    reading [t]. *)
Inductive commits (clock : nat -> datetime) (t : nat) (st : Store) : Store -> Prop :=
| commits_view pid uid name :
    commits clock t st
      (mk_store
         (product_views st ++ [ProductView.mk pid uid (clock t)])
         (order_metrics st)
         (upsert pid (touch_view (clock (S t)))
            (PopularProduct.mk pid name 1 0 (clock (S t))) (popular_products st)))
| commits_order metric lines :
    OrderMetric.created_at metric = clock t ->
    commits clock t st
      (mk_store
         (product_views st)
         (order_metrics st ++ [metric])
         (apply_lines clock (S t) lines (popular_products st))).

(** The stores the aggregator can reach from [st] by committing events. *)
Inductive reaches (clock : nat -> datetime) (st : Store) : Store -> Prop :=
| reaches_refl : reaches clock st st
| reaches_commit t st1 st2 :
    reaches clock st st1 -> commits clock t st1 st2 -> reaches clock st st2.

(** The number of recorded views of a product. *)
Definition views_of (pid : Z) (st : Store) : Z :=
  Z.of_nat (List.length
              (filter (fun v => ProductView.product_id v =? pid) (product_views st))).

(** [r'] is the row [r] after more events: same product, same name,
    counters not smaller. *)
Definition kept (r r' : PopularProduct.t) : Prop :=
  PopularProduct.product_id r' = PopularProduct.product_id r /\
  PopularProduct.product_name r' = PopularProduct.product_name r /\
  PopularProduct.view_count r <= PopularProduct.view_count r' /\
  PopularProduct.order_count r <= PopularProduct.order_count r'.

(** The first of [keys] that [data] lacks. *)
Definition first_missing (keys : list string) (data : dict) : option string :=
  find (fun k => match dict_get k data with None => true | Some _ => false end) keys.

(** The keys the order handler reads with [data[...]], in the order it
    reads them. *)
Definition order_required_keys : list string :=
  ["order_id"; "user_id"; "total_amount"; "items_count"].

(** A line item that cannot be subscripted by ["product_id"]: not an
    object, or an object without that key. *)
Definition lacks_product_id (item : json) : bool :=
  match item with
  | JDict d =>
      match dict_get "product_id" d with
      | None => true
      | Some _ => false
      end
  | _ => true
  end.

Definition by_orders_desc (a b : PopularProductResponse.t) : Prop :=
  PopularProductResponse.order_count b <= PopularProductResponse.order_count a.

(** Every stored product as the listings render it. *)
Definition all_products (st : Store) : list PopularProductResponse.t :=
  map PopularProductResponse.model_validate (popular_products st).

(** A time of day from 00:00:00 to 23:59:59.999999. *)
Definition valid_time (d : datetime) : Prop := 0 <= dt_usec d <= time_max.

(** A run of calls of an emitter's [send_event], each with what the
    broker answers, the topic and the event. *)
Definition send_events (send : outcome -> string -> json -> ST Emitter unit)
    (calls : list (outcome * (string * json))) : ST Emitter unit :=
  for_each calls (fun c => send (fst c) (fst (snd c)) (snd (snd c))).

(** The events of the calls the broker accepted. *)
Definition accepted (calls : list (outcome * (string * json))) : list (string * json) :=
  map snd (filter (fun c => match fst c with Returns => true | Raises _ => false end) calls).

(** The broker answers a call by returning or by raising an [Exception]. *)
Definition answers (o : outcome) : Prop :=
  forall e, o = Raises e -> is_Exception e = true.

(** ** Producers (catalog-service routers/products.py, order-service
    routers/orders.py) *)

(** catalog-service models.py, the columns [get_product] reads or returns. *)
Module Product.
Record t : Type := mk {
  id : Z;
  name : string;
  description : option string;
  price : float;
  image_url : option string;
  category_id : Z
}.
End Product.

(** What a route answers: its body or the 404 its [HTTPException]
    becomes. *)
Inductive response (A : Type) : Type :=
| HTTP_200 (body : A)
| HTTP_404.
Arguments HTTP_200 {A} body.
Arguments HTTP_404 {A}.

(** The payload [get_product] publishes; [timestamp] is
    [datetime.utcnow().isoformat()]. *)
Definition product_view_event (product : Product.t) (timestamp : string) : dict :=
  [("event", JStr "product_view");
   ("product_id", JInt (Product.id product));
   ("product_name", JStr (Product.name product));
   ("timestamp", JStr timestamp)].

(** [get_product]: [products] is the table [db.get] looks the primary key
    up in. *)
Definition get_product (products : list Product.t) (product_id : Z)
    (timestamp : string) (o : outcome) : ST Emitter (response Product.t) :=
  match find (fun p => Product.id p =? product_id) products with
  | None => ret HTTP_404
  | Some product =>
      Catalog.send_event o "product_views" (JDict (product_view_event product timestamp)) ;;;
      ret (HTTP_200 product)
  end.

(** order-service models.py *)
Module OrderItem.
Record t : Type := mk {
  product_id : Z;
  product_name : string;
  product_price : float;
  quantity : Z
}.
End OrderItem.

Module Order.
Record t : Type := mk {
  id : Z;
  user_id : Z;
  status : string;
  delivery_type : string;
  address : option string;
  latitude : option float;
  longitude : option float;
  pickup_time : option string;
  store_id : option Z;
  total_amount : float;
  created_at : datetime;
  updated_at : datetime;
  items : list OrderItem.t
}.
End Order.

(** The JSON the consumer decodes for an optional value. *)
Definition json_option {A : Type} (f : A -> json) (v : option A) : json :=
  match v with
  | Some x => f x
  | None => JNull
  end.

Section OrderEvents.

(** [str(d)] of a datetime, which [json.dumps(..., default=str)] writes. *)
Variable str : datetime -> string.

(** The event [create_order] publishes on [order_events]. *)
Definition order_created_event (order : Order.t) : dict :=
  [("event", JStr "order_created");
   ("order_id", JInt (Order.id order));
   ("user_id", JInt (Order.user_id order));
   ("status", JStr (Order.status order));
   ("delivery_type", JStr (Order.delivery_type order));
   ("address", json_option JStr (Order.address order));
   ("latitude", json_option JFloat (Order.latitude order));
   ("longitude", json_option JFloat (Order.longitude order));
   ("pickup_time", json_option JStr (Order.pickup_time order));
   ("store_id", json_option JInt (Order.store_id order));
   ("total_amount", JFloat (Order.total_amount order));
   ("items",
    JList (map (fun oi =>
                  JDict [("product_id", JInt (OrderItem.product_id oi));
                         ("product_name", JStr (OrderItem.product_name oi));
                         ("product_price", JFloat (OrderItem.product_price oi));
                         ("quantity", JInt (OrderItem.quantity oi))])
               (Order.items order)));
   ("created_at", JStr (str (Order.created_at order)))].

(** The event [update_order_status] publishes on [order_events]. *)
Definition order_status_updated_event (order : Order.t) : dict :=
  [("event", JStr "order_status_updated");
   ("order_id", JInt (Order.id order));
   ("user_id", JInt (Order.user_id order));
   ("status", JStr (Order.status order));
   ("updated_at", JStr (str (Order.updated_at order)))].

End OrderEvents.

(** An event of the order service, as it arrives on [order_events]. *)
Definition order_service_message (str : datetime -> string) (m : message) : Prop :=
  exists order,
    m = mk_message "order_events" (JDict (order_created_event str order)) \/
    m = mk_message "order_events" (JDict (order_status_updated_event str order)).

(** ** The reconnecting loop of [consume] (kafka_consumer.py)

    The aiokafka consumer is outside the repository.  One turn of
    [while True] is run against an episode: what constructing, starting
    and stopping the consumer do, the messages [async for] yields, and how
    the iteration ends (it returns when the consumer is closed and raises
    when the connection is lost or the task is cancelled). *)

Inductive AIOKafkaConsumer : Type :=
| Consumer (topics : list string) (group_id : string).

Definition TOPICS : list string := ["product_views"; "order_events"].
Definition RETRY_DELAY_SECONDS : Z := 5.

Record episode : Type := mk_episode {
  construct : outcome;
  start : outcome;
  delivered : list message;
  stream_end : outcome;
  stop : outcome
}.

(** What the loop does besides handling messages. *)
Inductive action : Type :=
| Constructed
| LoggedStarted
| LoggedConnectionError
| Slept (seconds : Z)
| StopCalled
| LoggedStopError.

Record Loop : Type := mk_loop {
  world : World;
  consumer : option AIOKafkaConsumer;
  actions : list action
}.

Definition in_world {A : Type} (c : M A) : ST Loop A :=
  fun l =>
    match c (world l) with
    | (r, w') => (r, mk_loop w' (consumer l) (actions l))
    end.

Definition act (a : action) : ST Loop unit :=
  fun l => (Ok tt, mk_loop (world l) (consumer l) (actions l ++ [a])).

Definition set_consumer (c : option AIOKafkaConsumer) : ST Loop unit :=
  fun l => (Ok tt, mk_loop (world l) c (actions l)).

(** A call of the aiokafka consumer. *)
Definition consumer_call (o : outcome) : ST Loop unit :=
  match o with
  | Returns => ret tt
  | Raises e => raise e
  end.

Section ConsumeLoop.

Variable clock : nat -> datetime.

(** One turn of [while True]. *)
Definition consume_turn (ep : episode) : ST Loop unit :=
  set_consumer None ;;;
  try_finally
    (try_except
       (consumer_call (construct ep) ;;;
        set_consumer (Some (Consumer TOPICS "analytics-service")) ;;;
        act Constructed ;;;
        consumer_call (start ep) ;;;
        act LoggedStarted ;;;
        for_each (delivered ep) (fun m => in_world (process_message clock m)) ;;;
        consumer_call (stream_end ep))
       (act LoggedConnectionError ;;;
        act (Slept RETRY_DELAY_SECONDS)))
    (fun l =>
       match consumer l with
       | Some _ =>
           try_except
             (act StopCalled ;;; consumer_call (stop ep))
             (act LoggedStopError) l
       | None => (Ok tt, l)
       end).

(** The turns of [consume] against the episodes the broker offers. *)
Definition consume (episodes : list episode) : ST Loop unit :=
  for_each episodes consume_turn.

End ConsumeLoop.

(** Every call of the episode returns or raises an [Exception]. *)
Definition uncancelled (ep : episode) : Prop :=
  answers (construct ep) /\ answers (start ep) /\ answers (stream_end ep) /\ answers (stop ep).

(** The messages of the episodes whose consumer started. *)
Fixpoint handled (episodes : list episode) : list message :=
  match episodes with
  | [] => []
  | ep :: eps =>
      match construct ep, start ep with
      | Returns, Returns => delivered ep ++ handled eps
      | _, _ => handled eps
      end
  end.

Definition is_returns (o : outcome) : bool :=
  match o with Returns => true | Raises _ => false end.

(** The episodes in which some call before the [finally] raised. *)
Definition failed (ep : episode) : bool :=
  negb (is_returns (construct ep) && is_returns (start ep) && is_returns (stream_end ep)).

Definition count_action (p : action -> bool) (l : list action) : nat :=
  List.length (filter p l).

Definition is_constructed (a : action) : bool :=
  match a with Constructed => true | _ => false end.
Definition is_stop_called (a : action) : bool :=
  match a with StopCalled => true | _ => false end.
Definition is_slept (a : action) : bool :=
  match a with Slept _ => true | _ => false end.

(** The actions of one turn. *)
Definition turn_actions (ep : episode) : list action :=
  match construct ep with
  | Raises _ => [LoggedConnectionError; Slept RETRY_DELAY_SECONDS]
  | Returns =>
      Constructed ::
      match start ep with
      | Raises _ => [LoggedConnectionError; Slept RETRY_DELAY_SECONDS]
      | Returns =>
          LoggedStarted ::
          match stream_end ep with
          | Raises _ => [LoggedConnectionError; Slept RETRY_DELAY_SECONDS]
          | Returns => []
          end
      end
      ++ StopCalled ::
         match stop ep with
         | Raises _ => [LoggedStopError]
         | Returns => []
         end
  end.

(** More sample inputs. *)
Definition order_without_amount : dict :=
  [("order_id", JInt 1); ("user_id", JInt 42); ("items_count", JInt 1)].

Definition order_with_broken_item : dict :=
  [("order_id", JInt 1); ("user_id", JInt 42); ("total_amount", JFloat 2500%float);
   ("items_count", JInt 2);
   ("items", JList [JDict [("product_id", JInt 1); ("product_name", JStr "Rose")];
                    JDict [("quantity", JInt 2)]])].

Definition bare_view : dict := [("product_id", JInt 7)].

Definition bare_order : dict :=
  [("order_id", JInt 1); ("user_id", JInt 42); ("total_amount", JFloat 2500%float);
   ("items_count", JInt 0)].

Definition tulip_row : PopularProduct.t :=
  PopularProduct.mk 1 "Tulip" 3 2 (mk_datetime 738999 0).

Definition tulip_world : World := mk_world (mk_store [] [] [tulip_row]) O [].

Definition sample_messages : list message :=
  [mk_message "product_views" (JDict (rose_view 7));
   mk_message "order_events" (JDict rose_order);
   mk_message "order_events" (JList [])].

Definition sample_calls : list (outcome * (string * json)) :=
  [(Returns, ("product_views", JDict (rose_view 7)));
   (Raises KafkaError, ("product_views", JDict (rose_view 8)));
   (Returns, ("order_events", JDict rose_order))].

Definition degraded : Emitter := mk_emitter None [] [].

Definition rose : Product.t := Product.mk 1 "Rose" None 250%float None 3.

Definition sample_order : Order.t :=
  Order.mk 1 42 "pending" "pickup" None None None None None 2500%float
    (mk_datetime 739000 0) (mk_datetime 739000 0)
    [OrderItem.mk 1 "Rose" 500%float 5].

Definition sample_str (d : datetime) : string := "2024-05-01 10:00:00+00:00".

Definition lost_connection : episode :=
  mk_episode Returns Returns [mk_message "product_views" (JDict (rose_view 7))]
             (Raises KafkaError) Returns.

Definition refused_connection : episode :=
  mk_episode Returns (Raises KafkaError) [] Returns (Raises KafkaError).

Definition cancelled_task : episode :=
  mk_episode Returns Returns [mk_message "product_views" (JDict (rose_view 7))]
             (Raises CancelledError) Returns.

Definition idle_loop : Loop := mk_loop fresh_world None [].

(* ===================================================================== *)
(** * Properties *)

Unset Implicit Arguments.

Lemma dict_get_set_other k k' v d :
  k <> k' -> dict_get k (dict_set k' v d) = dict_get k d.
Proof.
  intros Hne. induction d as [|[k0 v0] d IH]; simpl.
  - destruct (String.eqb_spec k k'); [contradiction|reflexivity].
  - destruct (String.eqb_spec k' k0) as [->|Hk]; simpl.
    + destruct (String.eqb_spec k k0); [contradiction|reflexivity].
    + destruct (String.eqb_spec k k0); [reflexivity|exact IH].
Qed.

Lemma get_default_set_other k k' v dflt d :
  k <> k' -> get_default k dflt (dict_set k' v d) = get_default k dflt d.
Proof. intros Hne. unfold get_default. now rewrite dict_get_set_other. Qed.

Lemma select_where_snd {A} (p : A -> bool) rows :
  map snd (select_where p rows) = filter p rows.
Proof.
  induction rows as [|r rs IH]; simpl; auto.
  rewrite map_app, map_map, <- IH.
  destruct (p r); simpl; f_equal; now apply map_ext.
Qed.

Lemma select_where_nil {A} (p : A -> bool) rows :
  filter p rows = [] -> select_where p rows = [].
Proof.
  intros H. pose proof (select_where_snd p rows) as E. rewrite H in E.
  destruct (select_where p rows); [reflexivity|discriminate].
Qed.

Lemma select_where_upsert pid touch fresh rows :
  (List.length (filter (has_product_id pid) rows) <= 1)%nat ->
  match select_where (has_product_id pid) rows with
  | [] => rows ++ [fresh] = upsert pid touch fresh rows
  | [(i, r)] => list_update i (touch r) rows = upsert pid touch fresh rows
  | _ => False
  end.
Proof.
  induction rows as [|r rs IH]; simpl; intros H; auto.
  destruct (has_product_id pid r) eqn:E; simpl in *.
  - assert (F : filter (has_product_id pid) rs = []).
    { destruct (filter (has_product_id pid) rs); [reflexivity|simpl in H; lia]. }
    rewrite (select_where_nil _ _ F). simpl. reflexivity.
  - specialize (IH H).
    destruct (select_where (has_product_id pid) rs) as [|[i x] [|? ?]]; simpl in *.
    + now rewrite IH.
    + now rewrite IH.
    + contradiction.
Qed.

Section UpsertFacts.

Variables (pid : Z) (touch : PopularProduct.t -> PopularProduct.t) (fresh : PopularProduct.t).
Hypothesis touch_key : forall p, PopularProduct.product_id (touch p) = PopularProduct.product_id p.
Hypothesis fresh_key : PopularProduct.product_id fresh = pid.

Lemma has_product_id_touch q p : has_product_id q (touch p) = has_product_id q p.
Proof. unfold has_product_id. now rewrite touch_key. Qed.

Lemma has_product_id_fresh : has_product_id pid fresh = true.
Proof. unfold has_product_id. rewrite fresh_key. apply Z.eqb_refl. Qed.

Lemma upsert_other q rows :
  q <> pid ->
  filter (has_product_id q) (upsert pid touch fresh rows) = filter (has_product_id q) rows.
Proof.
  intros Hq. induction rows as [|r rs IH]; simpl.
  - unfold has_product_id. rewrite fresh_key.
    destruct (Z.eqb_spec pid q) as [e|n]; [symmetry in e; contradiction|reflexivity].
  - destruct (has_product_id pid r) eqn:E; simpl.
    + rewrite has_product_id_touch. unfold has_product_id in *.
      apply Z.eqb_eq in E.
      destruct (Z.eqb_spec (PopularProduct.product_id r) q); [congruence|reflexivity].
    + now rewrite IH.
Qed.

Lemma upsert_absent rows :
  filter (has_product_id pid) rows = [] ->
  filter (has_product_id pid) (upsert pid touch fresh rows) = [fresh].
Proof.
  induction rows as [|r rs IH]; simpl; intros H.
  - now rewrite has_product_id_fresh.
  - destruct (has_product_id pid r) eqn:E; [discriminate|].
    simpl. rewrite E. auto.
Qed.

Lemma upsert_present rows r rest :
  filter (has_product_id pid) rows = r :: rest ->
  filter (has_product_id pid) (upsert pid touch fresh rows) = touch r :: rest.
Proof.
  induction rows as [|x rs IH]; simpl; intros H; [discriminate|].
  destruct (has_product_id pid x) eqn:E.
  - inversion H; subst. simpl. now rewrite has_product_id_touch, E.
  - simpl. rewrite E. auto.
Qed.

Lemma upsert_length rows :
  (List.length (filter (has_product_id pid) rows) <= 1)%nat ->
  List.length (filter (has_product_id pid) (upsert pid touch fresh rows)) = 1%nat.
Proof.
  intros H. destruct (filter (has_product_id pid) rows) as [|r rest] eqn:E.
  - now rewrite upsert_absent.
  - rewrite (upsert_present _ _ _ E). simpl in *. lia.
Qed.

Lemma upsert_keys_in rows q :
  In q (map PopularProduct.product_id (upsert pid touch fresh rows)) <->
  q = pid \/ In q (map PopularProduct.product_id rows).
Proof.
  induction rows as [|r rs IH]; simpl.
  - rewrite fresh_key. intuition.
  - destruct (has_product_id pid r) eqn:E; simpl.
    + rewrite touch_key. unfold has_product_id in E.
      apply Z.eqb_eq in E. split.
      * intros [H|H]; [right; now left|right; now right].
      * intros [H|[H|H]]; [left; congruence|now left|now right].
    + rewrite IH. tauto.
Qed.

Lemma upsert_NoDup rows :
  NoDup (map PopularProduct.product_id rows) ->
  NoDup (map PopularProduct.product_id (upsert pid touch fresh rows)).
Proof.
  induction rows as [|r rs IH]; simpl; intros H.
  - constructor; [intros []|constructor].
  - apply NoDup_cons_iff in H. destruct H as [Hn Hd].
    destruct (has_product_id pid r) eqn:E; simpl.
    + rewrite touch_key. now constructor.
    + constructor; auto. rewrite upsert_keys_in. intros [Heq|Hin]; auto.
      unfold has_product_id in E. rewrite Heq, Z.eqb_refl in E. discriminate.
Qed.

End UpsertFacts.

Lemma NoDup_rows_for pid rows :
  NoDup (map PopularProduct.product_id rows) ->
  (List.length (filter (has_product_id pid) rows) <= 1)%nat.
Proof.
  induction rows as [|r rs IH]; simpl; intros H; [lia|].
  apply NoDup_cons_iff in H. destruct H as [Hn Hd].
  destruct (has_product_id pid r) eqn:E; simpl; auto.
  assert (F : filter (has_product_id pid) rs = []).
  { destruct (filter (has_product_id pid) rs) as [|x xs] eqn:G; [reflexivity|].
    exfalso. apply Hn.
    assert (Hx : In x (filter (has_product_id pid) rs)) by (rewrite G; now left).
    apply filter_In in Hx. destruct Hx as [Hx1 Hx2].
    unfold has_product_id in *. apply Z.eqb_eq in E, Hx2.
    rewrite E, <- Hx2. now apply in_map. }
  rewrite F. simpl. lia.
Qed.

Lemma touch_view_key now p :
  PopularProduct.product_id (touch_view now p) = PopularProduct.product_id p.
Proof. reflexivity. Qed.

Lemma touch_order_key now p :
  PopularProduct.product_id (touch_order now p) = PopularProduct.product_id p.
Proof. reflexivity. Qed.

Ltac run_monad :=
  cbv beta iota zeta delta
    [bind ret lift raise get_db put_db utcnow write_log getitem scalar_one_or_none
     add_ProductView add_OrderMetric add_PopularProduct select_PopularProduct
     update_PopularProduct as_Integer as_String
     db ticks log product_views order_metrics popular_products].

Lemma decode_view_inv data ev :
  decode_view data = Some ev ->
  dict_get "product_id" data = Some (JInt (ve_product_id ev)) /\
  as_nullable_Integer "user_id" (get_default "user_id" JNull data) = Ok (ve_user_id ev) /\
  get_default "product_name" (JStr "Unknown") data = JStr (ve_product_name ev).
Proof.
  unfold decode_view. intros D.
  destruct (dict_get "product_id" data) as [v|]; [|discriminate].
  destruct v; try discriminate. simpl in D.
  destruct (as_nullable_Integer "user_id" (get_default "user_id" JNull data));
    [|discriminate].
  destruct (get_default "product_name" (JStr "Unknown") data); try discriminate.
  simpl in D. inversion D. auto.
Qed.

Lemma handle_product_view_run clock data ev w :
  decode_view data = Some ev ->
  (List.length (rows_for (ve_product_id ev) (db w)) <= 1)%nat ->
  _handle_product_view clock data w =
  (Ok tt,
   mk_world
     (mk_store
        (product_views (db w)
           ++ [ProductView.mk (ve_product_id ev) (ve_user_id ev) (clock (ticks w))])
        (order_metrics (db w))
        (upsert (ve_product_id ev) (touch_view (clock (S (ticks w))))
           (PopularProduct.mk (ve_product_id ev) (ve_product_name ev) 1 0
              (clock (S (ticks w))))
           (popular_products (db w))))
     (S (S (ticks w))) (log w)).
Proof.
  intros D L. destruct (decode_view_inv _ _ D) as (Ev & Eu & En).
  destruct ev as [pid uid name]. destruct w as [[pv om pp] t lg].
  unfold rows_for in L. simpl in *.
  pose proof (select_where_upsert pid (touch_view (clock (S t)))
                (PopularProduct.mk pid name 1 0 (clock (S t))) pp L) as U.
  unfold _handle_product_view, transaction.
  run_monad. rewrite Ev. run_monad. rewrite Eu. run_monad.
  fold (has_product_id pid).
  destruct (select_where (has_product_id pid) pp) as [|[i r] [|? ?]];
    try contradiction; run_monad.
  - rewrite ?Ev, ?En. run_monad. rewrite ?Ev, ?En. run_monad. rewrite <- U. reflexivity.
  - rewrite <- U. reflexivity.
Qed.

Lemma decode_item_inv item pid name :
  decode_item item = Some (pid, name) ->
  exists d, item = JDict d /\ dict_get "product_id" d = Some (JInt pid) /\
            get_default "product_name" (JStr "Unknown") d = JStr name.
Proof.
  unfold decode_item. intros D.
  destruct item as [| | | | | |d]; try discriminate. exists d.
  destruct (dict_get "product_id" d) as [v|]; [|discriminate].
  destruct v; try discriminate. simpl in D.
  destruct (get_default "product_name" (JStr "Unknown") d); try discriminate.
  simpl in D. inversion D; subst. auto.
Qed.

Lemma order_item_body_run clock item pid name pv om pp t lg :
  decode_item item = Some (pid, name) ->
  NoDup (map PopularProduct.product_id pp) ->
  order_item_body clock item (mk_world (mk_store pv om pp) t lg) =
  (Ok tt,
   mk_world
     (mk_store pv om
        (upsert pid (touch_order (clock t)) (PopularProduct.mk pid name 0 1 (clock t)) pp))
     (S t) lg).
Proof.
  intros D N. destruct (decode_item_inv _ _ _ D) as (d & -> & Ep & En).
  pose proof (select_where_upsert pid (touch_order (clock t))
                (PopularProduct.mk pid name 0 1 (clock t)) pp
                (NoDup_rows_for pid pp N)) as U.
  unfold order_item_body, subscript, item_get.
  run_monad. rewrite Ep. run_monad. fold (has_product_id pid).
  destruct (select_where (has_product_id pid) pp) as [|[i r] [|? ?]];
    try contradiction; run_monad.
  - rewrite En. run_monad. rewrite <- U. reflexivity.
  - rewrite <- U. reflexivity.
Qed.

Lemma apply_lines_NoDup clock lines : forall t rows,
  NoDup (map PopularProduct.product_id rows) ->
  NoDup (map PopularProduct.product_id (apply_lines clock t lines rows)).
Proof.
  induction lines as [|[pid name] ls IH]; simpl; intros t rows N; auto.
  apply IH. apply upsert_NoDup; auto.
Qed.

Lemma order_items_run clock items : forall lines pv om pp t lg,
  decode_items items = Some lines ->
  NoDup (map PopularProduct.product_id pp) ->
  for_each items (order_item_body clock) (mk_world (mk_store pv om pp) t lg) =
  (Ok tt,
   mk_world (mk_store pv om (apply_lines clock t lines pp))
            (t + List.length lines)%nat lg).
Proof.
  induction items as [|item items IH]; simpl; intros lines pv om pp t lg D N.
  - inversion D; subst. simpl. unfold ret. now rewrite Nat.add_0_r.
  - destruct (decode_item item) as [[pid name]|] eqn:Di; [|discriminate].
    destruct (decode_items items) as [ls|] eqn:Ds; [|discriminate].
    inversion D; subst. unfold bind at 1.
    rewrite (order_item_body_run clock item pid name pv om pp t lg Di N).
    rewrite (IH ls); auto.
    + simpl. now rewrite Nat.add_succ_r.
    + apply upsert_NoDup; auto.
Qed.

Lemma decode_order_inv data ev :
  decode_order data = Some ev ->
  exists oid uid a amount cnt dt items,
    dict_get "order_id" data = Some (JInt oid) /\
    dict_get "user_id" data = Some (JInt uid) /\
    dict_get "total_amount" data = Some a /\
    as_Float "total_amount" a = Ok amount /\
    dict_get "items_count" data = Some (JInt cnt) /\
    get_default "delivery_type" (JStr "unknown") data = JStr dt /\
    get_default "items" (JList []) data = JList items /\
    decode_items items = Some (oe_lines ev) /\
    oe_metric ev = OrderMetric.mk oid uid amount cnt dt.
Proof.
  unfold decode_order. intros D.
  destruct (dict_get "total_amount" data) as [a|] eqn:Ea0;
    [|destruct (dict_get "order_id" data), (dict_get "user_id" data); discriminate].
  destruct (dict_get "order_id" data) as [o|]; [|discriminate].
  destruct (dict_get "user_id" data) as [u|]; [|discriminate].
  destruct (dict_get "items_count" data) as [c|]; [|discriminate].
  destruct o; try discriminate. destruct u; try discriminate. simpl in D.
  destruct (as_Float "total_amount" a) as [amount|] eqn:Ea; [|discriminate].
  destruct c; try discriminate. simpl in D.
  destruct (get_default "delivery_type" (JStr "unknown") data); try discriminate.
  simpl in D.
  destruct (get_default "items" (JList []) data) as [| | | | |items|]; try discriminate.
  destruct (decode_items items) as [lines|] eqn:Ds; [|discriminate].
  inversion D; subst. simpl. exists z, z0, a, amount, z1, s, items. auto 10.
Qed.

Lemma handle_order_created_run clock data ev w :
  decode_order data = Some ev ->
  unique_product_id (db w) ->
  _handle_order_created clock data w =
  (Ok tt,
   mk_world
     (mk_store
        (product_views (db w))
        (order_metrics (db w) ++ [oe_metric ev (clock (ticks w))])
        (apply_lines clock (S (ticks w)) (oe_lines ev) (popular_products (db w))))
     (S (ticks w) + List.length (oe_lines ev))%nat (log w)).
Proof.
  intros D N.
  destruct (decode_order_inv _ _ D)
    as (oid & uid & a & amount & cnt & dt & items & Eo & Eu & Ea & Ef & Ec & Ed & Ei & Es & Em).
  destruct w as [[pv om pp] t lg]. unfold unique_product_id in N. simpl in *.
  unfold _handle_order_created, transaction.
  fold (order_item_body clock).
  run_monad. rewrite Eo, Eu, Ea, Ec. run_monad. rewrite Ef, Ed. run_monad.
  rewrite Ei. unfold iterate. run_monad.
  rewrite (order_items_run clock items (oe_lines ev) pv _ pp (S t) lg Es N).
  rewrite Em. reflexivity.
Qed.

Lemma extends_refl rows : extends rows rows.
Proof. split; auto. Qed.

Lemma extends_trans a b c : extends a b -> extends b c -> extends a c.
Proof. intros [H1 H2] [H3 H4]. split; auto. Qed.

Lemma extends_upsert pid touch fresh rows :
  (forall p, PopularProduct.product_id (touch p) = PopularProduct.product_id p) ->
  PopularProduct.product_id fresh = pid ->
  extends rows (upsert pid touch fresh rows).
Proof.
  intros Ht Hf. split.
  - now apply upsert_NoDup.
  - intros q Hq. apply upsert_keys_in; auto.
Qed.

Lemma select_where_length {A} (p : A -> bool) rows :
  List.length (select_where p rows) = List.length (filter p rows).
Proof. now rewrite <- select_where_snd, length_map. Qed.

Lemma select_where_key pid rows i r :
  select_where (has_product_id pid) rows = [(i, r)] ->
  PopularProduct.product_id r = pid.
Proof.
  intros E. pose proof (select_where_snd (has_product_id pid) rows) as S.
  rewrite E in S. simpl in S.
  assert (Hin : In r (filter (has_product_id pid) rows)) by (rewrite <- S; now left).
  apply filter_In in Hin. destruct Hin as [_ H]. now apply Z.eqb_eq in H.
Qed.

Lemma select_one_upsert pid touch fresh rows i r :
  select_where (has_product_id pid) rows = [(i, r)] ->
  list_update i (touch r) rows = upsert pid touch fresh rows.
Proof.
  intros E.
  assert (L : (List.length (filter (has_product_id pid) rows) <= 1)%nat).
  { rewrite <- select_where_length, E. simpl. lia. }
  pose proof (select_where_upsert pid touch fresh rows L) as U.
  now rewrite E in U.
Qed.

Lemma select_none_upsert pid touch fresh rows :
  select_where (has_product_id pid) rows = [] ->
  rows ++ [fresh] = upsert pid touch fresh rows.
Proof.
  intros E.
  assert (L : (List.length (filter (has_product_id pid) rows) <= 1)%nat).
  { rewrite <- select_where_length, E. simpl. lia. }
  pose proof (select_where_upsert pid touch fresh rows L) as U.
  now rewrite E in U.
Qed.

Lemma step_post_ok {A} w (a : A) w' :
  extends (popular_products (db w)) (popular_products (db w')) ->
  log w' = log w ->
  step_post w (Ok a, w').
Proof. intros E L. split; [exact E|split; [exact L|]]. intros ? [=]. Qed.

Lemma step_post_raise {A} w e w' :
  is_Exception e = true ->
  popular_products (db w') = popular_products (db w) ->
  log w' = log w ->
  step_post w (@Raise A e, w').
Proof.
  intros He Hp L. split; [|split; [exact L|]].
  - simpl. rewrite Hp. apply extends_refl.
  - intros ? [=]; subst. exact He.
Qed.

Lemma safe_ret {A} (a : A) : safe (ret a).
Proof. intros w. apply step_post_ok; [apply extends_refl|reflexivity]. Qed.

Lemma safe_raise {A} e : is_Exception e = true -> safe (@raise World A e).
Proof. intros He w. now apply step_post_raise. Qed.

Lemma safe_bind {A B} (c : M A) (k : A -> M B) :
  safe c -> (forall a, safe (k a)) -> safe (bind c k).
Proof.
  intros Hc Hk w. unfold bind. specialize (Hc w).
  destruct (c w) as [[a|e] w1]; destruct Hc as (E1 & L1 & X1); simpl in *.
  - specialize (Hk a w1). destruct (k a w1) as [r w2].
    destruct Hk as (E2 & L2 & X2); simpl in *.
    split; [|split]; simpl.
    + eapply extends_trans; eauto.
    + congruence.
    + exact X2.
  - split; [|split]; simpl; auto.
    intros ? [=]; subst. auto.
Qed.

Lemma safe_lift {A} (r : result A) :
  (forall e, r = Raise e -> is_Exception e = true) -> safe (lift r).
Proof.
  intros H. destruct r as [a|e]; simpl.
  - apply safe_ret.
  - apply safe_raise. auto.
Qed.

Lemma safe_for_each {A} (body : A -> M unit) xs :
  (forall x, safe (body x)) -> safe (for_each xs body).
Proof.
  intros H. induction xs as [|x xs IH]; simpl.
  - apply safe_ret.
  - apply safe_bind; auto.
Qed.

Lemma safe_getitem k d : safe (getitem k d).
Proof.
  unfold getitem. destruct (dict_get k d); [apply safe_ret|now apply safe_raise].
Qed.

Lemma safe_utcnow clock : safe (utcnow clock).
Proof. intros w. apply step_post_ok; [apply extends_refl|reflexivity]. Qed.

Lemma safe_iterate v : safe (iterate v).
Proof. destruct v; simpl; try apply safe_ret; now apply safe_raise. Qed.

Lemma as_Integer_exn c v e : as_Integer c v = Raise e -> is_Exception e = true.
Proof. destruct v; simpl; intros [=]; subst; reflexivity. Qed.

Lemma as_nullable_Integer_exn c v e :
  as_nullable_Integer c v = Raise e -> is_Exception e = true.
Proof. destruct v; simpl; intros [=]; subst; reflexivity. Qed.

Lemma as_String_exn c v e : as_String c v = Raise e -> is_Exception e = true.
Proof. destruct v; simpl; intros [=]; subst; reflexivity. Qed.

Lemma as_Float_exn c v e : as_Float c v = Raise e -> is_Exception e = true.
Proof.
  destruct v; simpl; try (intros [=]; subst; reflexivity).
  destruct (is_infinity (float_of_Z z)); intros [=]; subst; reflexivity.
Qed.

Lemma safe_add_ProductView p u d : safe (add_ProductView p u d).
Proof.
  unfold add_ProductView.
  apply safe_bind; [apply safe_lift, as_Integer_exn|intros pid].
  apply safe_bind; [apply safe_lift, as_nullable_Integer_exn|intros uid].
  intros w. apply step_post_ok; [apply extends_refl|reflexivity].
Qed.

Lemma safe_add_OrderMetric o u a c dt d : safe (add_OrderMetric o u a c dt d).
Proof.
  unfold add_OrderMetric.
  apply safe_bind; [apply safe_lift, as_Integer_exn|intros ?].
  apply safe_bind; [apply safe_lift, as_Integer_exn|intros ?].
  apply safe_bind; [apply safe_lift, as_Float_exn|intros ?].
  apply safe_bind; [apply safe_lift, as_Integer_exn|intros ?].
  apply safe_bind; [apply safe_lift, as_String_exn|intros ?].
  intros w. apply step_post_ok; [apply extends_refl|reflexivity].
Qed.

Ltac split_match :=
  match goal with
  | |- context [match ?x with _ => _ end] =>
      lazymatch x with
      | context [match _ with _ => _ end] => fail
      | _ => destruct x eqn:?
      end
  end.

(** The select-then-update-or-add of the view handler. *)
Lemma safe_view_upsert clock data :
  safe (product_id' <- getitem "product_id" data ;;
        rows <- select_PopularProduct product_id' ;;
        popular <- scalar_one_or_none rows ;;
        match popular with
        | Some (i, p) =>
            let p1 := PopularProduct.set_view_count (PopularProduct.view_count p + 1) p in
            now <- utcnow clock ;;
            update_PopularProduct i (PopularProduct.set_last_updated now p1)
        | None =>
            product_id'' <- getitem "product_id" data ;;
            let product_name := get_default "product_name" (JStr "Unknown") data in
            now <- utcnow clock ;;
            add_PopularProduct product_id'' product_name 1 0 now
        end).
Proof.
  intros [[pv om pp] t lg]. set (P := step_post _).
  run_monad.
  repeat (split_match; run_monad); subst P;
    try (apply step_post_raise; reflexivity);
    (apply step_post_ok; [simpl|reflexivity]).
  - match goal with
    | H : select_where _ _ = [] |- extends _ (_ ++ [?fresh]) =>
        rewrite (select_none_upsert _ (touch_view (clock t)) fresh _ H)
    end.
    apply extends_upsert; reflexivity.
  - match goal with
    | H : select_where _ ?rows = [(?i, ?r)] |- _ =>
        pose proof (select_one_upsert _ (touch_view (clock t)) r _ _ _ H) as U
    end.
    unfold touch_view in U. rewrite U.
    apply extends_upsert; try reflexivity.
    match goal with
    | H : select_where _ ?rows = [(?i, ?r)] |- _ => apply (select_where_key _ _ _ _ H)
    end.
Qed.

Lemma safe_transaction body w :
  safe body -> handler_post w (transaction body w).
Proof.
  intros H. unfold transaction. specialize (H w).
  destruct (body w) as [[a|e] w1]; destruct H as (E & L & X); simpl in *.
  - split; [split; [|split]; auto|]. intros ? [=].
  - split; [split; [|split]; simpl; auto|reflexivity]. apply extends_refl.
Qed.

Lemma handle_product_view_post clock data w :
  handler_post w (_handle_product_view clock data w).
Proof.
  unfold _handle_product_view. apply safe_transaction.
  apply safe_bind; [apply safe_getitem|intros v].
  apply safe_bind; [apply safe_utcnow|intros now].
  apply safe_bind; [apply safe_add_ProductView|intros _].
  apply safe_view_upsert.
Qed.

Lemma safe_order_item_body clock item : safe (order_item_body clock item).
Proof.
  intros [[pv om pp] t lg]. set (P := step_post _).
  unfold order_item_body, subscript, item_get. run_monad.
  repeat (split_match; run_monad); subst P;
    try (apply step_post_raise; reflexivity);
    (apply step_post_ok; [simpl|reflexivity]).
  - match goal with
    | H : select_where _ _ = [] |- extends _ (_ ++ [?fresh]) =>
        rewrite (select_none_upsert _ (touch_order (clock t)) fresh _ H)
    end.
    apply extends_upsert; reflexivity.
  - match goal with
    | H : select_where _ ?rows = [(?i, ?r)] |- _ =>
        pose proof (select_one_upsert _ (touch_order (clock t)) r _ _ _ H) as U;
        pose proof (select_where_key _ _ _ _ H) as K
    end.
    unfold touch_order in U. rewrite U.
    apply extends_upsert; [reflexivity|exact K].
Qed.

Lemma handle_order_created_post clock data w :
  handler_post w (_handle_order_created clock data w).
Proof.
  unfold _handle_order_created. apply safe_transaction.
  apply safe_bind; [apply safe_getitem|intros ?].
  apply safe_bind; [apply safe_getitem|intros ?].
  apply safe_bind; [apply safe_getitem|intros ?].
  apply safe_bind; [apply safe_getitem|intros ?].
  apply safe_bind; [apply safe_utcnow|intros now].
  apply safe_bind; [apply safe_add_OrderMetric|intros _].
  apply safe_bind; [apply safe_iterate|intros items].
  apply safe_for_each. intros item. apply safe_order_item_body.
Qed.

(** One upsert of an order line on the rows of its product. *)
Lemma upsert_order_line pid name now rows :
  (List.length (filter (has_product_id pid) rows) <= 1)%nat ->
  exists r,
    filter (has_product_id pid)
      (upsert pid (touch_order now) (PopularProduct.mk pid name 0 1 now) rows) = [r] /\
    PopularProduct.order_count r = order_count_in pid rows + 1 /\
    PopularProduct.view_count r = view_count_in pid rows /\
    PopularProduct.last_updated r = now.
Proof.
  intros L. unfold order_count_in, view_count_in.
  destruct (filter (has_product_id pid) rows) as [|r rest] eqn:E.
  - eexists. split; [apply upsert_absent; auto|]. simpl. auto.
  - destruct rest; [|simpl in L; lia].
    exists (touch_order now r). split; [|simpl; auto].
    apply upsert_present with (rest := []); auto.
Qed.

Lemma upsert_view_event pid name now rows :
  (List.length (filter (has_product_id pid) rows) <= 1)%nat ->
  exists r,
    filter (has_product_id pid)
      (upsert pid (touch_view now) (PopularProduct.mk pid name 1 0 now) rows) = [r] /\
    PopularProduct.view_count r = view_count_in pid rows + 1 /\
    PopularProduct.order_count r = order_count_in pid rows /\
    PopularProduct.last_updated r = now.
Proof.
  intros L. unfold order_count_in, view_count_in.
  destruct (filter (has_product_id pid) rows) as [|r rest] eqn:E.
  - eexists. split; [apply upsert_absent; auto|]. simpl. auto.
  - destruct rest; [|simpl in L; lia].
    exists (touch_view now r). split; [|simpl; auto].
    apply upsert_present with (rest := []); auto.
Qed.

Lemma apply_lines_other clock pid lines : forall t rows,
  ~ In pid (map fst lines) ->
  filter (has_product_id pid) (apply_lines clock t lines rows) =
  filter (has_product_id pid) rows.
Proof.
  induction lines as [|[p name] ls IH]; simpl; intros t rows H; auto.
  rewrite IH by tauto. apply upsert_other; auto.
Qed.

Lemma apply_lines_count clock pid lines : forall t rows,
  (List.length (filter (has_product_id pid) rows) <= 1)%nat ->
  In pid (map fst lines) ->
  exists r k,
    filter (has_product_id pid) (apply_lines clock t lines rows) = [r] /\
    PopularProduct.order_count r =
      order_count_in pid rows + Z.of_nat (count_occ Z.eq_dec (map fst lines) pid) /\
    PopularProduct.view_count r = view_count_in pid rows /\
    PopularProduct.last_updated r = clock k /\ (t <= k < t + List.length lines)%nat.
Proof.
  induction lines as [|[p name] ls IH]; simpl; intros t rows L H; [contradiction|].
  set (rows1 := upsert p (touch_order (clock t)) (PopularProduct.mk p name 0 1 (clock t)) rows).
  destruct (Z.eq_dec p pid) as [->|Hne].
  - destruct (upsert_order_line pid name (clock t) rows L) as (r1 & F1 & O1 & V1 & U1).
    fold rows1 in F1.
    destruct (in_dec Z.eq_dec pid (map fst ls)) as [Hin|Hout].
    + assert (L1 : (List.length (filter (has_product_id pid) rows1) <= 1)%nat)
        by (rewrite F1; simpl; lia).
      destruct (IH (S t) rows1 L1 Hin) as (r & k & F & O & V & U & K).
      exists r, k. split; [exact F|]. unfold order_count_in, view_count_in in O, V.
      rewrite F1 in O, V. repeat split; try lia. congruence.
    + exists r1, t. rewrite apply_lines_other by auto.
      rewrite (proj1 (count_occ_not_In Z.eq_dec _ _) Hout).
      repeat split; auto; lia.
  - destruct H as [H|H]; [simpl in H; congruence|].
    assert (F1 : filter (has_product_id pid) rows1 = filter (has_product_id pid) rows).
    { apply upsert_other; auto. }
    assert (L1 : (List.length (filter (has_product_id pid) rows1) <= 1)%nat)
      by (now rewrite F1).
    destruct (IH (S t) rows1 L1 H) as (r & k & F & O & V & U & K).
    exists r, k. unfold order_count_in, view_count_in in *. rewrite F1 in O, V.
    repeat split; auto; lia.
Qed.

Lemma one_row pid rows :
  (List.length (filter (has_product_id pid) rows) = 1)%nat ->
  exists row, filter (has_product_id pid) rows = [row].
Proof.
  destruct (filter (has_product_id pid) rows) as [|r [|? ?]]; simpl; try lia. eauto.
Qed.

Lemma views_run clock pid events : forall w,
  Forall (view_event_for pid) events ->
  (List.length (rows_for pid (db w)) <= 1)%nat ->
  exists w',
    for_each events (_handle_product_view clock) w = (Ok tt, w') /\
    (exists views,
        product_views (db w') = product_views (db w) ++ views /\
        List.length views = List.length events /\
        Forall (fun v => ProductView.product_id v = pid) views) /\
    order_metrics (db w') = order_metrics (db w) /\
    view_count_of pid (db w') = view_count_of pid (db w) + Z.of_nat (List.length events) /\
    order_count_of pid (db w') = order_count_of pid (db w) /\
    (List.length (rows_for pid (db w')) <= 1)%nat /\
    (events <> [] -> List.length (rows_for pid (db w')) = 1%nat).
Proof.
  induction events as [|d ds IH]; intros w V L.
  - exists w. simpl. unfold ret. split; [destruct w; reflexivity|].
    split; [exists []; rewrite app_nil_r; auto|].
    repeat split; auto; try lia. congruence.
  - apply Forall_cons_iff in V. destruct V as [(ev & D & Hp) V].
    subst pid. simpl. unfold bind at 1.
    rewrite (handle_product_view_run clock d ev w D L).
    set (w1 := mk_world _ _ _).
    destruct (upsert_view_event (ve_product_id ev) (ve_product_name ev)
                (clock (S (ticks w))) (popular_products (db w)) L)
      as (r1 & F1 & V1 & O1 & U1).
    assert (L1 : (List.length (rows_for (ve_product_id ev) (db w1)) <= 1)%nat).
    { unfold rows_for, w1. simpl. rewrite F1. simpl. lia. }
    destruct (IH w1 V L1) as (w' & R & (views & Pv & Lv & Fv) & Om & Vc & Oc & Lr & _).
    exists w'. split; [exact R|]. split; [|split; [|split; [|split; [|split]]]].
    + exists (ProductView.mk (ve_product_id ev) (ve_user_id ev) (clock (ticks w)) :: views).
      rewrite Pv. unfold w1. simpl. rewrite <- app_assoc. simpl.
      repeat split; auto.
    + rewrite Om. reflexivity.
    + rewrite Vc. unfold view_count_of, view_count_in at 1, w1. simpl popular_products.
      rewrite F1, V1. lia.
    + rewrite Oc. unfold order_count_of, order_count_in at 1, w1. simpl popular_products.
      rewrite F1, O1. reflexivity.
    + exact Lr.
    + intros _. destruct ds as [|d' ds'].
      * simpl in R. unfold ret in R. inversion R; subst w'.
        unfold rows_for, w1. simpl. rewrite F1. reflexivity.
      * assert (Hn : (List.length (rows_for (ve_product_id ev) (db w1)) = 1)%nat).
        { unfold rows_for, w1. simpl. rewrite F1. reflexivity. }
        clear - IH V Hn R L1.
        destruct (IH w1 V L1) as (w2 & R2 & _ & _ & _ & _ & _ & N2).
        rewrite R in R2. inversion R2; subst. apply N2. discriminate.
Qed.

(** C1.  Product-view payloads for one product, handled once each from
    a store that has no PopularProduct row for it, all commit; one
    ProductView row is appended per event, and the product's counters end
    at [view_count] = the number of events and [order_count] = 0, held by
    exactly one PopularProduct row as soon as there is one event.  Handing
    any of the events to the handler once more (a redelivery) commits again
    and leaves that row with one more view: nothing deduplicates. *)
Theorem view_count_equals_number_of_views clock pid events w :
  Forall (view_event_for pid) events ->
  rows_for pid (db w) = [] ->
  exists w',
    for_each events (_handle_product_view clock) w = (Ok tt, w') /\
    (exists views,
        product_views (db w') = product_views (db w) ++ views /\
        List.length views = List.length events /\
        Forall (fun v => ProductView.product_id v = pid) views) /\
    view_count_of pid (db w') = Z.of_nat (List.length events) /\
    order_count_of pid (db w') = 0 /\
    (events <> [] ->
     exists row, rows_for pid (db w') = [row] /\
       PopularProduct.view_count row = Z.of_nat (List.length events) /\
       PopularProduct.order_count row = 0) /\
    (forall d, In d events ->
     exists w'',
       _handle_product_view clock d w' = (Ok tt, w'') /\
       exists row, rows_for pid (db w'') = [row] /\
         PopularProduct.view_count row = Z.of_nat (List.length events) + 1).
Proof.
  intros V E.
  assert (L : (List.length (rows_for pid (db w)) <= 1)%nat) by (rewrite E; simpl; lia).
  destruct (views_run clock pid events w V L)
    as (w' & R & Pv & _ & Vc & Oc & L' & N').
  assert (V0 : view_count_of pid (db w) = 0)
    by (unfold view_count_of, view_count_in; fold (rows_for pid (db w)); now rewrite E).
  assert (O0 : order_count_of pid (db w) = 0)
    by (unfold order_count_of, order_count_in; fold (rows_for pid (db w)); now rewrite E).
  rewrite V0 in Vc. rewrite O0 in Oc. simpl in Vc.
  exists w'. split; [exact R|]. split; [exact Pv|]. split; [exact Vc|]. split; [exact Oc|].
  split.
  - intros Hne. destruct (one_row _ _ (N' Hne)) as (row & Hr). exists row.
    unfold view_count_of, view_count_in, order_count_of, order_count_in in Vc, Oc.
    unfold rows_for in Hr. rewrite Hr in Vc, Oc. auto.
  - intros d Hd. rewrite Forall_forall in V. specialize (V d Hd).
    assert (V1 : Forall (view_event_for pid) [d]) by (constructor; auto).
    destruct (views_run clock pid [d] w' V1 L')
      as (w'' & R2 & _ & _ & Vc2 & _ & _ & N2).
    simpl in R2. unfold bind, ret in R2.
    destruct (_handle_product_view clock d w') as [[[]|e] w3] eqn:H; [|discriminate].
    inversion R2; subst w3. exists w''. split; [reflexivity|].
    destruct (one_row _ _ (N2 ltac:(discriminate))) as (row & Hr). exists row.
    split; [exact Hr|].
    unfold view_count_of at 1 in Vc2. unfold view_count_in at 1 in Vc2.
    unfold rows_for in Hr.
    rewrite Hr in Vc2. rewrite Vc2, Vc. simpl. lia.
Qed.

(** C2.  An order-created payload handled on a store that satisfies the
    unique constraint commits, appends exactly one OrderMetric row, and
    leaves, for every product named by a line item, exactly one
    PopularProduct row whose [order_count] grew by the number of line items
    naming the product (a product without a row starts from
    [view_count] = 0, [order_count] = 0) and whose [view_count] is
    unchanged; rows of other products are untouched.  The [quantity] of a
    line item plays no part: the loop body does the same whatever it
    holds. *)
Theorem order_count_counts_line_items clock data ev w :
  decode_order data = Some ev ->
  unique_product_id (db w) ->
  (exists w',
    _handle_order_created clock data w = (Ok tt, w') /\
    order_metrics (db w') = order_metrics (db w) ++ [oe_metric ev (clock (ticks w))] /\
    product_views (db w') = product_views (db w) /\
    forall pid,
      (In pid (line_product_ids ev) ->
       exists row, rows_for pid (db w') = [row] /\
         PopularProduct.order_count row =
           order_count_of pid (db w)
           + Z.of_nat (count_occ Z.eq_dec (line_product_ids ev) pid) /\
         PopularProduct.view_count row = view_count_of pid (db w)) /\
      (~ In pid (line_product_ids ev) -> rows_for pid (db w') = rows_for pid (db w))) /\
  (forall quantity item w0,
     order_item_body clock (JDict (dict_set "quantity" quantity item)) w0
     = order_item_body clock (JDict item) w0).
Proof.
  intros D U. split.
  - rewrite (handle_order_created_run clock data ev w D U).
    eexists. split; [reflexivity|]. simpl. split; [reflexivity|]. split; [reflexivity|].
    intros pid. split.
    + intros Hin.
      destruct (apply_lines_count clock pid (oe_lines ev) (S (ticks w))
                  (popular_products (db w)) (NoDup_rows_for pid _ U) Hin)
        as (r & k & F & O & V & _).
      exists r. unfold rows_for. simpl. auto.
    + intros Hout. unfold rows_for. simpl. now apply apply_lines_other.
  - intros quantity item w0. unfold order_item_body, subscript, item_get, getitem.
    rewrite get_default_set_other by discriminate.
    rewrite dict_get_set_other by discriminate. reflexivity.
Qed.

Lemma NoDup_in_one_row pid rows :
  NoDup (map PopularProduct.product_id rows) ->
  In pid (map PopularProduct.product_id rows) ->
  exists row, filter (has_product_id pid) rows = [row].
Proof.
  intros N I. apply one_row.
  pose proof (NoDup_rows_for pid rows N) as L.
  apply in_map_iff in I. destruct I as (r & Hr & Hin).
  assert (Hf : In r (filter (has_product_id pid) rows)).
  { apply filter_In. split; auto. unfold has_product_id. now apply Z.eqb_eq. }
  destruct (filter (has_product_id pid) rows); [contradiction|]. simpl in *. lia.
Qed.

Lemma apply_lines_keys clock lines : forall t rows pid,
  In pid (map fst lines) ->
  In pid (map PopularProduct.product_id (apply_lines clock t lines rows)).
Proof.
  induction lines as [|[p name] ls IH]; simpl; intros t rows pid H; [contradiction|].
  destruct (in_dec Z.eq_dec pid (map fst ls)) as [Hin|Hout]; [now apply IH|].
  destruct H as [->|H]; [|contradiction].
  set (rows1 := upsert _ _ _ _).
  assert (K : In pid (map PopularProduct.product_id rows1)).
  { apply upsert_keys_in; auto. }
  clear IH Hout. revert K. generalize rows1 (S t). clear.
  induction ls as [|[p name] ls IH]; simpl; auto.
  intros rows t K. apply IH. apply upsert_keys_in; auto.
Qed.

(** A message the dispatcher hands to the view handler, resp. to the
    order handler. *)
Lemma dispatch_post clock m w :
  extends (popular_products (db w)) (popular_products (db (snd (dispatch clock m w)))) /\
  (forall e, fst (dispatch clock m w) = Raise e -> is_Exception e = true).
Proof.
  assert (H : forall (h : M unit) l,
             handler_post w (h w) ->
             extends (popular_products (db w))
                     (popular_products (db (snd ((h ;;; write_log l) w)))) /\
             (forall e, fst ((h ;;; write_log l) w) = Raise e -> is_Exception e = true)).
  { intros h l [(E & L & X) R]. unfold bind.
    destruct (h w) as [[[]|e] w1]; simpl in *; auto. }
  unfold dispatch. destruct (value m); try (split; [apply extends_refl|intros ? [=]; subst; reflexivity]).
  destruct (_ || _).
  - apply H, handle_product_view_post.
  - destruct (_ || _).
    + apply H, handle_order_created_post.
    + split; [apply extends_refl|intros ? [=]].
Qed.

Lemma process_message_post clock m w :
  fst (process_message clock m w) = Ok tt /\
  extends (popular_products (db w))
          (popular_products (db (snd (process_message clock m w)))).
Proof.
  unfold process_message, try_except.
  destruct (dispatch_post clock m w) as [E X].
  destruct (dispatch clock m w) as [[[]|e] w1]; simpl in *; auto.
  rewrite (X e eq_refl). simpl. auto.
Qed.

Lemma consume_messages_post clock ms : forall w,
  fst (consume_messages clock ms w) = Ok tt /\
  extends (popular_products (db w))
          (popular_products (db (snd (consume_messages clock ms w)))).
Proof.
  unfold consume_messages.
  induction ms as [|m ms IH]; simpl; intros w.
  - split; [reflexivity|apply extends_refl].
  - unfold bind. destruct (process_message_post clock m w) as [R E].
    destruct (process_message clock m w) as [r w1]. simpl in R, E. subst r.
    destruct (IH w1) as [R1 E1]. split; [exact R1|].
    eapply extends_trans; eauto.
Qed.

Lemma process_message_touched clock m w pid :
  unique_product_id (db w) ->
  In pid (touched_products m) ->
  In pid (map PopularProduct.product_id
            (popular_products (db (snd (process_message clock m w))))).
Proof.
  intros U. unfold touched_products, process_message, try_except, dispatch.
  destruct (value m) as [| | | | | |d]; try contradiction.
  destruct (_ || _).
  - destruct (decode_view d) as [ev|] eqn:D; [|contradiction].
    intros [<-|[]]. unfold bind.
    rewrite (handle_product_view_run clock d ev w D (NoDup_rows_for _ _ U)).
    simpl. apply upsert_keys_in; auto.
  - destruct (_ || _); [|contradiction].
    destruct (decode_order d) as [ev|] eqn:D; [|contradiction].
    intros Hin. unfold bind.
    rewrite (handle_order_created_run clock d ev w D U).
    simpl. now apply apply_lines_keys.
Qed.

(** C3.  Whatever messages the loop consumes, in whatever order, from a
    store that satisfies the unique constraint on [product_id]: every turn
    of the loop returns, the constraint still holds afterwards, and every
    product named by a view or order message that was handed to its handler
    with a well-typed payload has exactly one PopularProduct row. *)
Theorem one_row_per_product_id clock ms w :
  unique_product_id (db w) ->
  exists w',
    consume_messages clock ms w = (Ok tt, w') /\
    unique_product_id (db w') /\
    forall m pid, In m ms -> In pid (touched_products m) ->
      exists row, rows_for pid (db w') = [row].
Proof.
  revert w. induction ms as [|m ms IH]; intros w U.
  - exists w. split; [destruct w; reflexivity|]. split; [exact U|]. intros ? ? [].
  - destruct (process_message_post clock m w) as [R E].
    pose proof (process_message_touched clock m w) as T.
    unfold consume_messages in *. simpl. unfold bind.
    destruct (process_message clock m w) as [r w1]. simpl in R, E, T. subst r.
    assert (U1 : unique_product_id (db w1)) by (apply E; exact U).
    destruct (IH w1 U1) as (w' & R' & U' & H').
    exists w'. split; [exact R'|]. split; [exact U'|].
    intros m' pid [<-|Hin] Hp.
    + apply NoDup_in_one_row; [exact U'|].
      destruct (consume_messages_post clock ms w1) as [_ [_ K]].
      unfold consume_messages in K. rewrite R' in K. simpl in K.
      apply K. now apply T.
    + now apply H' with m'.
Qed.

Lemma handlers_ignore_key clock k v data w :
  k = "timestamp" \/ k = "created_at" ->
  _handle_product_view clock (dict_set k v data) w = _handle_product_view clock data w /\
  _handle_order_created clock (dict_set k v data) w = _handle_order_created clock data w.
Proof.
  intros Hk. unfold _handle_product_view, _handle_order_created, getitem.
  rewrite !get_default_set_other by (destruct Hk; subst k; discriminate).
  rewrite !dict_get_set_other by (destruct Hk; subst k; discriminate).
  split; reflexivity.
Qed.

(** C9.  The handlers do not read the [timestamp] and [created_at] keys
    of a payload: changing them changes nothing.  The ProductView row of a
    view event carries the clock reading taken when it is handled and the
    product's row the next reading; the OrderMetric row of an order event
    carries the reading taken when it is handled and the row of every
    product it names a reading taken later during the same handling. *)
Theorem timestamps_are_processing_time clock k v data w :
  k = "timestamp" \/ k = "created_at" ->
  _handle_product_view clock (dict_set k v data) w = _handle_product_view clock data w /\
  _handle_order_created clock (dict_set k v data) w = _handle_order_created clock data w /\
  (forall ev,
     decode_view data = Some ev ->
     (List.length (rows_for (ve_product_id ev) (db w)) <= 1)%nat ->
     exists w' view row,
       _handle_product_view clock data w = (Ok tt, w') /\
       product_views (db w') = product_views (db w) ++ [view] /\
       ProductView.viewed_at view = clock (ticks w) /\
       rows_for (ve_product_id ev) (db w') = [row] /\
       PopularProduct.last_updated row = clock (S (ticks w))) /\
  (forall ev,
     decode_order data = Some ev ->
     unique_product_id (db w) ->
     exists w' metric,
       _handle_order_created clock data w = (Ok tt, w') /\
       order_metrics (db w') = order_metrics (db w) ++ [metric] /\
       OrderMetric.created_at metric = clock (ticks w) /\
       forall pid, In pid (line_product_ids ev) ->
         exists row n,
           rows_for pid (db w') = [row] /\
           PopularProduct.last_updated row = clock n /\
           (ticks w < n < ticks w')%nat).
Proof.
  intros Hk. destruct (handlers_ignore_key clock k v data w Hk) as [Hv Ho].
  split; [exact Hv|]. split; [exact Ho|]. split.
  - intros ev D L. rewrite (handle_product_view_run clock data ev w D L).
    destruct (upsert_view_event (ve_product_id ev) (ve_product_name ev)
                (clock (S (ticks w))) (popular_products (db w)) L)
      as (r1 & F1 & _ & _ & U1).
    eexists. eexists. exists r1. split; [reflexivity|]. simpl.
    split; [reflexivity|]. split; [reflexivity|]. split; [exact F1|exact U1].
  - intros ev D U. rewrite (handle_order_created_run clock data ev w D U).
    eexists. exists (oe_metric ev (clock (ticks w))). split; [reflexivity|]. simpl.
    split; [reflexivity|]. split.
    + destruct (decode_order_inv _ _ D)
        as (oid & uid & a & amount & cnt & dt & items & _ & _ & _ & _ & _ & _ & _ & _ & Em).
      rewrite Em. reflexivity.
    + intros pid Hin.
      destruct (apply_lines_count clock pid (oe_lines ev) (S (ticks w))
                  (popular_products (db w)) (NoDup_rows_for pid _ U) Hin)
        as (r & n & F & _ & _ & Lu & Hn).
      exists r, n. unfold rows_for. simpl. repeat split; auto; lia.
Qed.

Lemma eq_str_spec v s : eq_str v s = true <-> v = JStr s.
Proof.
  destruct v; simpl; split; try discriminate.
  - intros H. apply String.eqb_eq in H. now subst.
  - intros [=]. subst. apply String.eqb_refl.
Qed.

Lemma or_eq_str_spec t name v s :
  (String.eqb t name || eq_str v s = true) <-> (t = name \/ v = JStr s).
Proof.
  rewrite orb_true_iff, String.eqb_eq, eq_str_spec. tauto.
Qed.

(** C10.  A message whose topic is [product_views] or whose [event_type]
    is ["product_view"] goes to the view handler; otherwise one whose topic
    is [order_events] or whose [event_type] is ["order_created"] goes to
    the order handler; a message matching neither leaves the store as it
    was and logs the unknown-event warning, which no matching message
    logs. *)
Theorem dispatch_on_topic_or_event_type clock m data w :
  value m = JDict data ->
  let event_type := get_default "event_type" (JStr "") data in
  let is_view := topic m = "product_views" \/ event_type = JStr "product_view" in
  let is_order := topic m = "order_events" \/ event_type = JStr "order_created" in
  (is_view ->
   dispatch clock m w
   = (_handle_product_view clock data ;;; write_log (LogProcessedView data)) w) /\
  (~ is_view -> is_order ->
   dispatch clock m w
   = (_handle_order_created clock data ;;; write_log (LogProcessedOrder data)) w) /\
  (~ is_view -> ~ is_order ->
   process_message clock m w
   = (Ok tt, mk_world (db w) (ticks w) (log w ++ [LogUnknownEvent event_type (topic m)]))) /\
  (is_view \/ is_order ->
   exists entry,
     log (snd (process_message clock m w)) = log w ++ [entry] /\
     (entry = LogProcessedView data \/ entry = LogProcessedOrder data
      \/ entry = LogProcessingError (value m))).
Proof.
  intros Hv et is_view is_order.
  pose proof (or_eq_str_spec (topic m) "product_views" et "product_view") as Sv.
  pose proof (or_eq_str_spec (topic m) "order_events" et "order_created") as So.
  fold is_view in Sv. fold is_order in So.
  assert (Hlog : forall (h : M unit) l,
             handler_post w (h w) -> (l = LogProcessedView data \/ l = LogProcessedOrder data) ->
             exists entry,
               log (snd (try_except (h ;;; write_log l)
                           (write_log (LogProcessingError (value m))) w))
               = log w ++ [entry] /\
               (entry = LogProcessedView data \/ entry = LogProcessedOrder data
                \/ entry = LogProcessingError (value m))).
  { intros h l [(E & L & X) R] Hl. unfold try_except, bind.
    destruct (h w) as [[[]|e] w1]; simpl in *.
    - exists l. rewrite L. split; [reflexivity|tauto].
    - rewrite (X e eq_refl). simpl. rewrite L. eauto. }
  unfold process_message, dispatch. rewrite Hv. fold et.
  destruct (String.eqb (topic m) "product_views" || eq_str et "product_view") eqn:Bv.
  - assert (Iv : is_view) by (now apply Sv).
    split; [reflexivity|]. split; [tauto|]. split; [tauto|].
    intros _. rewrite <- Hv. apply Hlog; [apply handle_product_view_post|auto].
  - assert (Nv : ~ is_view) by (rewrite <- Sv; congruence).
    destruct (String.eqb (topic m) "order_events" || eq_str et "order_created") eqn:Bo.
    + assert (Io : is_order) by (now apply So).
      split; [tauto|]. split; [reflexivity|]. split; [tauto|].
      intros _. rewrite <- Hv. apply Hlog; [apply handle_order_created_post|auto].
    + assert (No : ~ is_order) by (rewrite <- So; congruence).
      split; [tauto|]. split; [tauto|]. split; [reflexivity|tauto].
Qed.

Section OrderByFacts.

Variables (A K : Type) (leb : K -> K -> bool) (key : A -> K).
Hypothesis leb_total : forall a b, leb a b = true \/ leb b a = true.
Hypothesis leb_trans : forall a b c, leb a b = true -> leb b c = true -> leb a c = true.

(** [a] may stand before [b] in a descending result. *)
Let desc (a b : A) : Prop := leb (key b) (key a) = true.

Lemma insert_desc_perm x l : Permutation (insert_desc leb key x l) (x :: l).
Proof.
  induction l as [|y l IH]; simpl; auto.
  destruct (leb (key y) (key x)); auto.
  rewrite IH. apply perm_swap.
Qed.

Lemma order_by_desc_perm l : Permutation (order_by_desc leb key l) l.
Proof.
  induction l as [|x l IH]; simpl; auto.
  rewrite insert_desc_perm. now constructor.
Qed.

Lemma insert_desc_sorted x l :
  StronglySorted desc l -> StronglySorted desc (insert_desc leb key x l).
Proof.
  induction 1 as [|y l Hs IH Hall]; simpl.
  - repeat constructor.
  - destruct (leb (key y) (key x)) eqn:E.
    + constructor; [constructor; auto|].
      constructor; [exact E|].
      rewrite Forall_forall in *. intros z Hz. unfold desc in *.
      eapply leb_trans; [apply Hall, Hz|exact E].
    + constructor; [exact IH|].
      rewrite Forall_forall in *. intros z Hz.
      apply (Permutation_in _ (insert_desc_perm x l)) in Hz.
      destruct Hz as [Hz|Hz]; [subst z|now apply Hall].
      unfold desc. destruct (leb_total (key y) (key x)) as [H|H]; [congruence|exact H].
Qed.

Lemma order_by_desc_sorted l : StronglySorted desc (order_by_desc leb key l).
Proof.
  induction l as [|x l IH]; simpl; [constructor|now apply insert_desc_sorted].
Qed.

End OrderByFacts.

Lemma StronglySorted_split {A} (R : A -> A -> Prop) n l :
  StronglySorted R l ->
  forall a b, In a (firstn n l) -> In b (skipn n l) -> R a b.
Proof.
  intros H. revert n. induction H as [|x l Hs IH Hall]; intros n a b Ha Hb.
  - rewrite firstn_nil in Ha. contradiction.
  - destruct n as [|n]; simpl in *; [contradiction|].
    destruct Ha as [<-|Ha].
    + rewrite Forall_forall in Hall. apply Hall.
      rewrite <- (firstn_skipn n l). apply in_or_app. now right.
    + now apply IH with n.
Qed.

Lemma StronglySorted_firstn {A} (R : A -> A -> Prop) n l :
  StronglySorted R l -> StronglySorted R (firstn n l).
Proof.
  intros H. revert n. induction H as [|x l Hs IH Hall]; intros [|n]; simpl;
    try constructor; auto.
  rewrite Forall_forall in *. intros y Hy. apply Hall.
  rewrite <- (firstn_skipn n l). apply in_or_app. now left.
Qed.

Lemma StronglySorted_map {A B} (f : A -> B) (R : B -> B -> Prop) l :
  StronglySorted (fun a b => R (f a) (f b)) l -> StronglySorted R (map f l).
Proof.
  induction 1 as [|x l Hs IH Hall]; simpl; constructor; auto.
  rewrite Forall_forall in *. intros y Hy. apply in_map_iff in Hy.
  destruct Hy as (z & <- & Hz). now apply Hall.
Qed.

Lemma StronglySorted_weaken {A} (R R' : A -> A -> Prop) l :
  (forall a b, R a b -> R' a b) -> StronglySorted R l -> StronglySorted R' l.
Proof.
  intros H. induction 1 as [|x l Hs IH Hall]; constructor; auto.
  eapply Forall_impl; [|exact Hall]. auto.
Qed.

Lemma StronglySorted_strict {A} (key : A -> Z) l :
  NoDup (map key l) ->
  StronglySorted (fun a b => key b <= key a) l ->
  StronglySorted (fun a b => key b < key a) l.
Proof.
  intros N H. induction H as [|x l Hs IH Hall]; constructor.
  - apply IH. simpl in N. now apply NoDup_cons_iff in N.
  - simpl in N. apply NoDup_cons_iff in N. destruct N as [Nx _].
    rewrite Forall_forall in *. intros y Hy. specialize (Hall y Hy).
    assert (key y <> key x).
    { intros E. apply Nx. rewrite <- E. now apply in_map. }
    lia.
Qed.

Lemma Zleb_total a b : (a <=? b) = true \/ (b <=? a) = true.
Proof. rewrite !Z.leb_le. lia. Qed.

Lemma Zleb_trans a b c : (a <=? b) = true -> (b <=? c) = true -> (a <=? c) = true.
Proof. rewrite !Z.leb_le. lia. Qed.

Lemma datetime_leb_spec a b :
  datetime_leb a b = true <->
  dt_day a < dt_day b \/ (dt_day a = dt_day b /\ dt_usec a <= dt_usec b).
Proof.
  unfold datetime_leb.
  rewrite orb_true_iff, andb_true_iff, Z.ltb_lt, Z.eqb_eq, Z.leb_le. tauto.
Qed.

Lemma datetime_leb_total a b : datetime_leb a b = true \/ datetime_leb b a = true.
Proof. rewrite !datetime_leb_spec. lia. Qed.

Lemma datetime_leb_trans a b c :
  datetime_leb a b = true -> datetime_leb b c = true -> datetime_leb a c = true.
Proof. rewrite !datetime_leb_spec. lia. Qed.

(** C7 (amended).  On a store of 12 PopularProduct rows the
    top-by-views query returns 10 rows in descending order of [view_count],
    strictly descending when no two rows of the store share a
    [view_count], and no row left out has more views than a row
    returned. *)
Theorem top_ten_by_views st :
  List.length (popular_products st) = 12%nat ->
  let top := get_popular_by_views st in
  List.length top = 10%nat /\
  StronglySorted by_views_desc top /\
  (NoDup (map PopularProduct.view_count (popular_products st)) ->
   StronglySorted by_views_strictly_desc top) /\
  exists rest,
    Permutation (map PopularProductResponse.model_validate (popular_products st))
                (top ++ rest) /\
    List.length rest = 2%nat /\
    forall a b, In a top -> In b rest -> by_views_desc a b.
Proof.
  intros L top.
  set (sorted := order_by_desc Z.leb PopularProduct.view_count (popular_products st)).
  assert (P : Permutation sorted (popular_products st))
    by apply order_by_desc_perm.
  assert (S : StronglySorted
                (fun a b => PopularProduct.view_count b <= PopularProduct.view_count a)
                sorted).
  { eapply StronglySorted_weaken;
      [|apply (order_by_desc_sorted _ _ Z.leb PopularProduct.view_count Zleb_total Zleb_trans)].
    intros a b H. now apply Z.leb_le. }
  assert (Ls : List.length sorted = 12%nat) by (rewrite (Permutation_length P); exact L).
  unfold top, get_popular_by_views, limit. fold sorted.
  split; [rewrite length_map, length_firstn, Ls; reflexivity|].
  split; [apply StronglySorted_map, StronglySorted_firstn, S|].
  split.
  - intros N. apply StronglySorted_map, StronglySorted_firstn.
    apply StronglySorted_strict; [|exact S].
    eapply Permutation_NoDup; [|exact N]. apply Permutation_map. now symmetry.
  - exists (map PopularProductResponse.model_validate (skipn 10 sorted)).
    split; [|split].
    + rewrite <- map_app, firstn_skipn. apply Permutation_map. now symmetry.
    + rewrite length_map, length_skipn, Ls. reflexivity.
    + intros a b Ha Hb. apply in_map_iff in Ha, Hb.
      destruct Ha as (x & <- & Hx). destruct Hb as (y & <- & Hy).
      unfold by_views_desc. simpl.
      apply (StronglySorted_split _ 10 sorted S x y Hx Hy).
Qed.

(** C7 as stated fails: twelve products with distinct ids, each viewed
    once, are not listed in strictly descending order of [view_count]. *)
Lemma top_ten_by_views_not_strict :
  List.length (popular_products twelve_products) = 12%nat /\
  NoDup (map PopularProduct.product_id (popular_products twelve_products)) /\
  ~ Sorted by_views_strictly_desc (get_popular_by_views twelve_products).
Proof.
  split; [reflexivity|]. split.
  - simpl. repeat (constructor; [simpl; intuition discriminate|]). constructor.
  - intros H. vm_compute in H. inversion H as [|? ? _ Hd]; subst.
    inversion Hd as [|? ? Hlt]; subst. cbv in Hlt. discriminate.
Qed.

(** C8 (amended).  The order-metrics listing returns exactly the
    OrderMetric rows created from [from_date] 00:00:00 to [to_date]
    23:59:59.999999, both included, newest first; a missing bound leaves
    its side of the window open. *)
Theorem order_metrics_window from_date to_date st :
  let listing := get_order_metrics from_date to_date st in
  Permutation listing
    (filter (fun r => in_window from_date to_date (OrderMetricResponse.created_at r))
            (all_order_metrics st)) /\
  StronglySorted newest_first listing /\
  (forall r, In r listing <->
     In r (all_order_metrics st) /\
     (forall d, from_date = Some d ->
        datetime_leb (mk_datetime d (time_of 0 0 0 0)) (OrderMetricResponse.created_at r) = true) /\
     (forall d, to_date = Some d ->
        datetime_leb (OrderMetricResponse.created_at r)
                     (mk_datetime d (time_of 23 59 59 999999)) = true)).
Proof.
  intros listing.
  assert (E : listing =
    map OrderMetricResponse.model_validate
      (order_by_desc datetime_leb (fun o => OrderMetric.created_at (snd o))
         (filter (fun o => in_window from_date to_date (OrderMetric.created_at (snd o)))
                 (with_ids (order_metrics st))))).
  { unfold listing, get_order_metrics, execute, where_, in_window.
    destruct from_date, to_date; simpl; f_equal; f_equal; apply filter_ext;
      intros [i o]; simpl; unfold datetime_geb, datetime_combine;
      rewrite ?andb_true_r; reflexivity. }
  assert (P : Permutation listing
    (filter (fun r => in_window from_date to_date (OrderMetricResponse.created_at r))
            (all_order_metrics st))).
  { rewrite E. unfold all_order_metrics. rewrite filter_map_swap.
    apply Permutation_map. apply order_by_desc_perm. }
  split; [exact P|]. split.
  - rewrite E. apply StronglySorted_map.
    apply (order_by_desc_sorted _ _ datetime_leb (fun o => OrderMetric.created_at (snd o))
             datetime_leb_total datetime_leb_trans).
  - intros r. split.
    + intros H. apply (Permutation_in _ P) in H. apply filter_In in H.
      destruct H as [Hin Hw]. split; [exact Hin|].
      unfold in_window in Hw. apply andb_true_iff in Hw. destruct Hw as [Hf Ht].
      split; intros d ->; assumption.
    + intros (Hin & Hf & Ht). apply (Permutation_in _ (Permutation_sym P)).
      apply filter_In. split; [exact Hin|]. unfold in_window.
      apply andb_true_iff. split.
      * destruct from_date; auto.
      * destruct to_date; auto.
Qed.

(** C8 as stated fails: an order created at 23:59:59.5 of [to_date] is
    strictly after [to_date] 23:59:59 and is listed. *)
Lemma order_after_235959_is_listed :
  datetime_leb (OrderMetric.created_at late_order)
               (mk_datetime 739000 (time_of 23 59 59 0)) = false /\
  get_order_metrics None (Some 739000) late_order_store
  = [OrderMetricResponse.model_validate (1, late_order)].
Proof. split; reflexivity. Qed.

(** *** Rounding to two decimals

    The integer arithmetic behind [round]: [round_half_even_Z] returns
    the nearest integer, [binade] the binary exponent of a fraction, and
    [nearest_binary64] a 53-bit mantissa at that exponent. *)

Lemma pow2_num_pos e : 0 < pow2_num e.
Proof. unfold pow2_num. apply Z.pow_pos_nonneg; lia. Qed.

Lemma pow2_den_pos e : 0 < pow2_den e.
Proof. unfold pow2_den. apply Z.pow_pos_nonneg; lia. Qed.

Lemma pow2_shift e c :
  0 <= c -> 2 ^ c * pow2_num e * pow2_den (e + c) = pow2_num (e + c) * pow2_den e.
Proof.
  intros Hc. unfold pow2_num, pow2_den.
  rewrite <- !Z.pow_add_r by lia. f_equal. lia.
Qed.

Lemma round_half_even_Z_nearest n d :
  0 <= n -> 0 < d -> nearest_even n d (round_half_even_Z n d).
Proof.
  intros Hn Hd. unfold nearest_even, round_half_even_Z.
  pose proof (Z.div_mod n d ltac:(lia)) as E.
  pose proof (Z.mod_pos_bound n d Hd) as B.
  set (q := n / d) in *. set (r := n mod d) in *.
  destruct (Z.ltb_spec (2 * r) d) as [L|L].
  - split; [|intros T]; replace (q * d - n) with (- r) in * by lia; lia.
  - destruct (Z.ltb_spec d (2 * r)) as [G|G].
    + split; [|intros T]; replace ((q + 1) * d - n) with (d - r) in * by lia; lia.
    + destruct (Z.even q) eqn:Ev.
      * split; [|intros _; exact Ev]. replace (q * d - n) with (- r) by lia. lia.
      * split.
        -- replace ((q + 1) * d - n) with (d - r) by lia. lia.
        -- intros _. rewrite Z.even_add, Ev. reflexivity.
Qed.

Lemma nearest_even_lower n d k c :
  0 < d -> nearest_even n d k -> c * d <= n -> c <= k.
Proof. intros Hd [H _] Hc. nia. Qed.

Lemma nearest_even_upper n d k c :
  0 < d -> nearest_even n d k -> n <= c * d -> k <= c.
Proof. intros Hd [H _] Hc. nia. Qed.

Lemma nearest_even_exact c d k :
  0 < d -> nearest_even (c * d) d k -> k = c.
Proof. intros Hd [H _]. nia. Qed.

Lemma binade_spec n d :
  0 < n -> 0 < d ->
  d * pow2_num (binade n d) <= n * pow2_den (binade n d) /\
  n * pow2_den (binade n d + 1) < d * pow2_num (binade n d + 1).
Proof.
  intros Hn Hd. unfold binade.
  pose proof (Z.log2_spec n Hn) as [An Bn].
  pose proof (Z.log2_spec d Hd) as [Ad Bd].
  pose proof (Z.log2_nonneg n) as Ln. pose proof (Z.log2_nonneg d) as Ld.
  set (a := Z.log2 n) in *. set (b := Z.log2 d) in *.
  destruct (Z.ltb_spec (n * pow2_den (a - b)) (d * pow2_num (a - b))) as [T|T].
  - replace (a - b - 1 + 1) with (a - b) by lia. split; [|exact T].
    assert (E : 2 ^ (b + 1) * pow2_num (a - b - 1) = 2 ^ a * pow2_den (a - b - 1)).
    { unfold pow2_num, pow2_den. rewrite <- !Z.pow_add_r by lia. f_equal. lia. }
    pose proof (pow2_num_pos (a - b - 1)). pose proof (pow2_den_pos (a - b - 1)).
    replace (Z.succ b) with (b + 1) in Bd by lia. nia.
  - split; [exact T|].
    assert (E : 2 ^ (a + 1) * pow2_den (a - b + 1) = 2 ^ b * pow2_num (a - b + 1)).
    { unfold pow2_num, pow2_den. rewrite <- !Z.pow_add_r by lia. f_equal. lia. }
    pose proof (pow2_num_pos (a - b + 1)). pose proof (pow2_den_pos (a - b + 1)).
    replace (Z.succ a) with (a + 1) in Bn by lia. nia.
Qed.

Lemma nearest_binary64_normal s n d :
  0 < n -> 0 < d -> -1022 <= binade n d ->
  exists m : positive,
    nearest_binary64 s n d = S754_finite s m (binade n d - 52) /\
    2 ^ 52 * (d * pow2_num (binade n d - 52)) <= n * pow2_den (binade n d - 52)
      < 2 ^ 53 * (d * pow2_num (binade n d - 52)) /\
    nearest_even (n * pow2_den (binade n d - 52)) (d * pow2_num (binade n d - 52)) (Zpos m).
Proof.
  intros Hn Hd Hl. unfold nearest_binary64.
  destruct (binade_spec n d Hn Hd) as [Lo Hi].
  set (l := binade n d) in *.
  replace (Z.max (l - 52) (-1074)) with (l - 52) by lia.
  set (e := l - 52).
  pose proof (pow2_shift e 52 ltac:(lia)) as S52.
  pose proof (pow2_shift e 53 ltac:(lia)) as S53.
  replace (e + 52) with l in S52 by (unfold e; lia).
  replace (e + 53) with (l + 1) in S53 by (unfold e; lia).
  pose proof (pow2_num_pos e) as Pn. pose proof (pow2_den_pos e) as Pd.
  pose proof (pow2_num_pos l) as Pnl. pose proof (pow2_den_pos l) as Pdl.
  pose proof (pow2_num_pos (l + 1)) as Pnl1. pose proof (pow2_den_pos (l + 1)) as Pdl1.
  assert (P52 : 0 < 2 ^ 52) by (apply Z.pow_pos_nonneg; lia).
  assert (P53 : 0 < 2 ^ 53) by (apply Z.pow_pos_nonneg; lia).
  generalize dependent (2 ^ 52). generalize dependent (2 ^ 53). intros p53 S53 P53 p52 S52 P52.
  assert (C : p52 * (d * pow2_num e) <= n * pow2_den e < p53 * (d * pow2_num e)).
  { split.
    - apply Z.mul_le_mono_pos_r with (p := pow2_den l); [exact Pdl|].
      replace (p52 * (d * pow2_num e) * pow2_den l) with (d * (p52 * pow2_num e * pow2_den l)) by ring.
      rewrite S52. nia.
    - apply Z.mul_lt_mono_pos_r with (p := pow2_den (l + 1)); [exact Pdl1|].
      replace (p53 * (d * pow2_num e) * pow2_den (l + 1))
        with (d * (p53 * pow2_num e * pow2_den (l + 1))) by ring.
      rewrite S53. nia. }
  assert (Hnum : 0 <= n * pow2_den e) by nia.
  assert (Hden : 0 < d * pow2_num e) by nia.
  pose proof (round_half_even_Z_nearest _ _ Hnum Hden) as N.
  pose proof (nearest_even_lower _ _ _ p52 Hden N (proj1 C)) as K.
  destruct (round_half_even_Z (n * pow2_den e) (d * pow2_num e)) as [|m|m]; try lia.
  exists m. split; [reflexivity|]. split; [exact C|exact N].
Qed.

Lemma binade_cents n : 0 < n -> -7 <= binade n 100.
Proof.
  intros Hn. destruct (binade_spec n 100 Hn ltac:(lia)) as [_ Hi].
  destruct (Z_lt_le_dec (binade n 100) (-7)) as [L|L]; [exfalso|exact L].
  set (l := binade n 100) in *.
  unfold pow2_num, pow2_den in Hi.
  replace (Z.max (l + 1) 0) with 0 in Hi by lia.
  replace (Z.max (- (l + 1)) 0) with (7 + (- l - 8)) in Hi by lia.
  rewrite Z.pow_add_r in Hi by lia.
  assert (0 < 2 ^ (- l - 8)) by (apply Z.pow_pos_nonneg; lia).
  change (2 ^ 7) with 128 in Hi. change (2 ^ 0) with 1 in Hi. nia.
Qed.

Lemma digits2_pos_bound m : Zpos m < 2 ^ Zpos (digits2_pos m).
Proof.
  induction m as [m IH|m IH|]; simpl digits2_pos.
  - rewrite Pos2Z.inj_succ, Z.pow_succ_r by lia. lia.
  - rewrite Pos2Z.inj_succ, Z.pow_succ_r by lia. lia.
  - reflexivity.
Qed.

Lemma binary64_bounds x s m e :
  Prim2SF x = S754_finite s m e ->
  Zpos m < 2 ^ 53 /\ -1074 <= e <= 971.
Proof.
  intros E. pose proof (Prim2SF_valid x) as V. rewrite E in V.
  unfold valid_binary, bounded, canonical_mantissa in V.
  apply andb_true_iff in V. destruct V as [C B].
  apply Z.eqb_eq in C. apply Z.leb_le in B.
  unfold fexp, emin in C. unfold prec, emax in *.
  pose proof (digits2_pos_bound m) as D.
  assert (Zpos (digits2_pos m) <= 53) by lia.
  split; [|lia].
  eapply Z.lt_le_trans; [exact D|]. apply Z.pow_le_mono_r; lia.
Qed.

Lemma rounded_cents_finite (m m' : positive) (e e' cents : Z) :
  Zpos m < 2 ^ 53 -> -1074 <= e <= 971 ->
  nearest_even (100 * Zpos m * pow2_num e) (pow2_den e) cents ->
  -1074 <= e' ->
  2 ^ 52 * (100 * pow2_num e') <= cents * pow2_den e' < 2 ^ 53 * (100 * pow2_num e') ->
  nearest_even (cents * pow2_den e') (100 * pow2_num e') (Zpos m') ->
  Zpos m' * 2 ^ (e' + 1074) < 2 ^ 2098.
Proof.
  intros Hm He Nc He' C Nm.
  pose proof (pow2_num_pos e') as Pn'. pose proof (pow2_den_pos e') as Pd'.
  assert (P52 : 0 < 2 ^ 52) by (apply Z.pow_pos_nonneg; lia).
  assert (E53 : 2 ^ 53 = 2 * 2 ^ 52) by reflexivity.
  destruct (Z_le_gt_dec 0 e) as [Ge|Lt].
  - (* the mean is an integer multiple of 2^e, e >= 0: its cents are exact *)
    assert (Dn : pow2_den e = 1).
    { unfold pow2_den. replace (Z.max (- e) 0) with 0 by lia. reflexivity. }
    assert (Nn : pow2_num e = 2 ^ e).
    { unfold pow2_num. replace (Z.max e 0) with e by lia. reflexivity. }
    rewrite Dn, Nn in Nc.
    assert (Ec : cents = 100 * Zpos m * 2 ^ e).
    { destruct Nc as [Nc _]. lia. }
    assert (Pe : 0 < 2 ^ e) by (apply Z.pow_pos_nonneg; lia).
    assert (Le : e' <= e).
    { destruct (Z_le_gt_dec e' e) as [L|G]; [exact L|exfalso].
      assert (Dn' : pow2_den e' = 1).
      { unfold pow2_den. replace (Z.max (- e') 0) with 0 by lia. reflexivity. }
      assert (Nn' : pow2_num e' = 2 ^ e').
      { unfold pow2_num. replace (Z.max e' 0) with e' by lia. reflexivity. }
      rewrite Dn', Nn' in C.
      assert (2 * 2 ^ e <= 2 ^ e').
      { rewrite <- Z.pow_succ_r by lia. apply Z.pow_le_mono_r; lia. }
      generalize dependent (2 ^ 52). generalize dependent (2 ^ e).
      generalize dependent (2 ^ e'). intros. nia. }
    pose proof (pow2_shift e' (e - e') ltac:(lia)) as S.
    replace (e' + (e - e')) with e in S by lia. rewrite Dn, Nn in S.
    assert (Pee : 0 < 2 ^ (e - e')) by (apply Z.pow_pos_nonneg; lia).
    assert (Em : Zpos m' = Zpos m * 2 ^ (e - e')).
    { apply nearest_even_exact with (d := 100 * pow2_num e'); [lia|].
      replace (Zpos m * 2 ^ (e - e') * (100 * pow2_num e'))
        with (cents * pow2_den e'); [exact Nm|].
      rewrite Ec. generalize dependent (2 ^ (e - e')). intros. nia. }
    rewrite Em, <- Z.mul_assoc, <- Z.pow_add_r by lia.
    replace (e - e' + (e' + 1074)) with (e + 1074) by lia.
    apply Z.lt_le_trans with (2 ^ 53 * 2 ^ (e + 1074)).
    + apply Z.mul_lt_mono_pos_r; [apply Z.pow_pos_nonneg; lia|exact Hm].
    + rewrite <- Z.pow_add_r by lia. apply Z.pow_le_mono_r; lia.
  - (* the mean is below 2^52: so are its cents over 100 *)
    assert (Nn : pow2_num e = 1).
    { unfold pow2_num. replace (Z.max e 0) with 0 by lia. reflexivity. }
    assert (Dn : 2 <= pow2_den e).
    { unfold pow2_den. replace (Z.max (- e) 0) with (Z.succ (- e - 1)) by lia.
      rewrite Z.pow_succ_r by lia.
      assert (0 < 2 ^ (- e - 1)) by (apply Z.pow_pos_nonneg; lia). lia. }
    rewrite Nn in Nc.
    assert (Bc : cents <= 50 * Zpos m).
    { destruct Nc as [Nc _]. generalize dependent (pow2_den e). intros. nia. }
    assert (Lt' : e' < 0).
    { destruct (Z_lt_le_dec e' 0) as [L|G]; [exact L|exfalso].
      assert (Dn' : pow2_den e' = 1).
      { unfold pow2_den. replace (Z.max (- e') 0) with 0 by lia. reflexivity. }
      rewrite Dn' in C.
      assert (2 ^ 52 * 1 <= 2 ^ 52 * pow2_num e')
        by (apply Z.mul_le_mono_nonneg_l; lia).
      lia. }
    assert (Hden : 0 < 100 * pow2_num e') by lia.
    assert (Hup : cents * pow2_den e' <= 2 ^ 53 * (100 * pow2_num e')) by lia.
    pose proof (nearest_even_upper _ _ _ (2 ^ 53) Hden Nm Hup) as Um.
    apply Z.le_lt_trans with (2 ^ 53 * 2 ^ (e' + 1074)).
    + apply Z.mul_le_mono_nonneg_r; [apply Z.pow_nonneg; lia|exact Um].
    + rewrite <- Z.pow_add_r by lia. apply Z.pow_lt_mono_r; lia.
Qed.

Lemma round_ndigits_finite x s m e :
  Prim2SF x = S754_finite s m e ->
  exists cents : Z,
    nearest_even (100 * Zpos m * pow2_num e) (pow2_den e) cents /\
    (cents = 0 -> round_ndigits x 2 = SF2Prim (S754_zero s)) /\
    (0 < cents -> is_nearest_binary64 s cents 100 (round_ndigits x 2)).
Proof.
  intros E. destruct (binary64_bounds x s m e E) as [Bm Be].
  unfold round_ndigits. rewrite E. change (10 ^ 2) with 100.
  replace (Zpos m * 100 * pow2_num e) with (100 * Zpos m * pow2_num e) by ring.
  pose proof (pow2_num_pos e) as Pn. pose proof (pow2_den_pos e) as Pd.
  assert (Hnum : 0 <= 100 * Zpos m * pow2_num e) by nia.
  pose proof (round_half_even_Z_nearest _ _ Hnum Pd) as N.
  set (cents := round_half_even_Z (100 * Zpos m * pow2_num e) (pow2_den e)) in *.
  exists cents. split; [exact N|]. split.
  - intros ->. reflexivity.
  - intros Hc.
    pose proof (binade_cents cents Hc) as Hl.
    destruct (nearest_binary64_normal s cents 100 Hc ltac:(lia) ltac:(lia))
      as (m' & Em & C & Nm).
    rewrite Em. exists m', (binade cents 100 - 52).
    split; [lia|]. split; [exact C|]. split; [exact Nm|]. split; [|reflexivity].
    apply (rounded_cents_finite m m' e (binade cents 100 - 52) cents); auto; lia.
Qed.

Lemma round_ndigits_not_finite x ndigits :
  (forall s m e, Prim2SF x <> S754_finite s m e) -> round_ndigits x ndigits = x.
Proof.
  intros H. unfold round_ndigits. destruct (Prim2SF x) eqn:E; try reflexivity.
  exfalso. exact (H _ _ _ eq_refl).
Qed.
(** C4.  The dashboard reports [total_orders], the number of OrderMetric
    rows, and [total_revenue], the sum of their [total_amount].  With no
    order [avg_order_value] is 0.  With orders, let [mean] be the float
    [total_revenue / total_orders].  When [mean] is a finite non-zero
    number [m * 2 ** e] of sign [s], there is an integer [cents] nearest
    to the exact value of [100 * |mean|] (at most half a cent away, the
    even one on a tie) such that [avg_order_value] is the float nearest
    to [cents / 100] with sign [s]: a signed zero when [cents] is 0, and
    otherwise a finite float whose 53-bit mantissa is [cents / 100],
    scaled, rounded to the nearest integer.  When [mean] is a zero, an
    infinity or nan, [avg_order_value] is [mean] itself. *)
Theorem avg_order_value_is_rounded_mean (today : date) (st : Store) :
  let total_orders := Z.of_nat (List.length (order_metrics st)) in
  let total_revenue :=
    match map OrderMetric.total_amount (order_metrics st) with
    | [] => 0%float
    | x :: xs => fold_left PrimFloat.add xs x
    end in
  let mean := PrimFloat.div total_revenue (float_of_Z total_orders) in
  let d := get_dashboard round_ndigits today st in
  DashboardMetrics.total_orders d = total_orders /\
  DashboardMetrics.total_revenue d = total_revenue /\
  (total_orders = 0 -> DashboardMetrics.avg_order_value d = 0%float) /\
  (0 < total_orders ->
   forall s m e, Prim2SF mean = S754_finite s m e ->
   exists cents : Z,
     nearest_even (100 * Zpos m * pow2_num e) (pow2_den e) cents /\
     (cents = 0 -> DashboardMetrics.avg_order_value d = SF2Prim (S754_zero s)) /\
     (0 < cents -> is_nearest_binary64 s cents 100 (DashboardMetrics.avg_order_value d))) /\
  (0 < total_orders ->
   (forall s m e, Prim2SF mean <> S754_finite s m e) ->
   DashboardMetrics.avg_order_value d = mean).
Proof.
  intros total_orders total_revenue mean d.
  assert (Er : DashboardMetrics.total_revenue d = total_revenue).
  { unfold d, get_dashboard, total_revenue. simpl.
    destruct (map OrderMetric.total_amount (order_metrics st)); reflexivity. }
  split; [reflexivity|]. split; [exact Er|].
  assert (Ea : 0 < total_orders ->
               DashboardMetrics.avg_order_value d = round_ndigits mean 2).
  { intros H. apply Z.ltb_lt in H. unfold mean. rewrite <- Er.
    unfold d, get_dashboard. simpl. unfold sql_count. fold total_orders.
    rewrite H. reflexivity. }
  split; [|split].
  - intros H. unfold d, get_dashboard. simpl. unfold sql_count. fold total_orders.
    rewrite H. reflexivity.
  - intros H s m e E. rewrite (Ea H). apply round_ndigits_finite. exact E.
  - intros H E. rewrite (Ea H). apply round_ndigits_not_finite. exact E.
Qed.

Lemma avg_order_value_is_rounded_mean_witness :
  0 < Z.of_nat (List.length (order_metrics three_orders)) /\
  Prim2SF (PrimFloat.div 10%float (float_of_Z 3))
  = S754_finite false 7505999378950827 (-51) /\
  (exists cents : Z,
     nearest_even (100 * 7505999378950827 * pow2_num (-51)) (pow2_den (-51)) cents /\
     (cents = 0 ->
      DashboardMetrics.avg_order_value (get_dashboard round_ndigits 739000 three_orders)
      = SF2Prim (S754_zero false)) /\
     (0 < cents ->
      is_nearest_binary64 false cents 100
        (DashboardMetrics.avg_order_value
           (get_dashboard round_ndigits 739000 three_orders)))) /\
  DashboardMetrics.avg_order_value (get_dashboard round_ndigits 739000 three_orders)
  = SF2Prim (S754_finite false 7498493379571876 (-51)).
Proof.
  assert (H : 0 < Z.of_nat (List.length (order_metrics three_orders))) by (simpl; lia).
  assert (E : Prim2SF (PrimFloat.div 10%float (float_of_Z 3))
              = S754_finite false 7505999378950827 (-51)) by (vm_compute; reflexivity).
  split; [exact H|]. split; [exact E|]. split.
  - destruct (avg_order_value_is_rounded_mean 739000 three_orders) as (_ & _ & _ & R & _).
    exact (R H false 7505999378950827%positive (-51) E).
  - vm_compute. reflexivity.
Defined.

(** C5.  [send_event] of both emitters returns normally whenever the
    publish returns or raises an [Exception]: without a producer nothing
    is published, a failed publish is swallowed and publishes nothing, and
    a successful one delivers the event. *)
Theorem send_event_never_fails o topic event s :
  (forall e, o = Raises e -> is_Exception e = true) ->
  fst (Catalog.send_event o topic event s) = Ok tt /\
  fst (Orders.send_event o topic event s) = Ok tt /\
  (producer s = None ->
   broker (snd (Catalog.send_event o topic event s)) = broker s /\
   broker (snd (Orders.send_event o topic event s)) = broker s) /\
  (o <> Returns ->
   broker (snd (Catalog.send_event o topic event s)) = broker s /\
   broker (snd (Orders.send_event o topic event s)) = broker s) /\
  (producer s <> None -> o = Returns ->
   broker (snd (Catalog.send_event o topic event s)) = broker s ++ [(topic, event)] /\
   broker (snd (Orders.send_event o topic event s)) = broker s ++ [(topic, event)]).
Proof.
  intros H. unfold Catalog.send_event, Orders.send_event, try_except, bind.
  destruct s as [[p|] b l]; destruct o as [|e]; simpl;
    try rewrite (H e eq_refl); simpl; repeat split; auto; congruence.
Qed.

(** X21.  The catalog wrapper's [stop] never raises an [Exception],
    always forgets the producer, and is a no-op when called again. *)
Lemma catalog_stop_idempotent_never_raises o o' s :
  (forall e, o = Raises e -> is_Exception e = true) ->
  fst (Catalog.stop o s) = Ok tt /\
  producer (snd (Catalog.stop o s)) = None /\
  Catalog.stop o' (snd (Catalog.stop o s)) = (Ok tt, snd (Catalog.stop o s)).
Proof.
  intros H. unfold Catalog.stop, try_finally, try_except, bind.
  destruct s as [[p|] b l]; destruct o as [|e]; simpl;
    try rewrite (H e eq_refl); simpl; auto.
Qed.

(** The order service's [stop_kafka_producer] is a no-op once the
    producer is gone, and forgets it when closing succeeds. *)
Lemma orders_stop_when_close_succeeds o' s :
  fst (Orders.stop_kafka_producer Returns s) = Ok tt /\
  producer (snd (Orders.stop_kafka_producer Returns s)) = None /\
  Orders.stop_kafka_producer o' (snd (Orders.stop_kafka_producer Returns s))
  = (Ok tt, snd (Orders.stop_kafka_producer Returns s)).
Proof.
  unfold Orders.stop_kafka_producer, bind. destruct s as [[p|] b l]; simpl; auto.
Qed.

(** C6.  With an open connection whose close raises, the order
    service's [stop_kafka_producer] raises to its caller and keeps the
    producer, so that a second call raises again, where the catalog
    wrapper's [stop] returns and forgets the producer. *)
Theorem orders_stop_propagates_close_failure :
  Orders.stop_kafka_producer (Raises KafkaError) connected = (Raise KafkaError, connected) /\
  Orders.stop_kafka_producer (Raises KafkaError)
    (snd (Orders.stop_kafka_producer (Raises KafkaError) connected))
  = (Raise KafkaError, connected) /\
  fst (Catalog.stop (Raises KafkaError) connected) = Ok tt /\
  producer (snd (Catalog.stop (Raises KafkaError) connected)) = None.
Proof. repeat split; reflexivity. Qed.


(** X25.  A payload that is not a JSON object has no [get]: the turn
    logs the error and leaves the store as it was, whatever the topic. *)
Lemma non_object_payload_is_dropped clock m w :
  (forall data, value m <> JDict data) ->
  process_message clock m w
  = (Ok tt, mk_world (db w) (ticks w) (log w ++ [LogProcessingError (value m)])).
Proof.
  intros H. unfold process_message, try_except, dispatch.
  destruct (value m) as [| | | | | |d] eqn:E; try reflexivity.
  now destruct (H d).
Qed.

(* ===================================================================== *)
(** ** The properties at sample inputs *)

Lemma view_count_equals_number_of_views_witness :
  Forall (view_event_for 1) [rose_view 7; rose_view 8] /\
  rows_for 1 (db fresh_world) = [] /\
  view_count_of 1
    (db (snd (for_each [rose_view 7; rose_view 8]
                (_handle_product_view sample_clock) fresh_world))) = 2.
Proof.
  assert (H1 : Forall (view_event_for 1) [rose_view 7; rose_view 8]).
  { repeat constructor; eexists; split; reflexivity. }
  assert (H2 : rows_for 1 (db fresh_world) = []) by reflexivity.
  split; [exact H1|]. split; [exact H2|].
  destruct (view_count_equals_number_of_views sample_clock 1 _ fresh_world H1 H2)
    as (w' & R & _ & Vc & _).
  rewrite R. exact Vc.
Defined.

Lemma order_count_counts_line_items_witness :
  decode_order rose_order
  = Some (mk_order_event (OrderMetric.mk 1 42 2500%float 1 "pickup") [(1, "Rose")]) /\
  unique_product_id (db fresh_world) /\
  exists row,
    rows_for 1 (db (snd (_handle_order_created sample_clock rose_order fresh_world))) = [row] /\
    PopularProduct.order_count row = 1.
Proof.
  assert (D : decode_order rose_order
              = Some (mk_order_event (OrderMetric.mk 1 42 2500%float 1 "pickup")
                        [(1, "Rose")])) by reflexivity.
  assert (U : unique_product_id (db fresh_world)) by constructor.
  split; [exact D|]. split; [exact U|].
  destruct (order_count_counts_line_items sample_clock rose_order _ fresh_world D U)
    as [(w' & R & _ & _ & H) _].
  destruct (H 1) as [Hin _].
  destruct (Hin (or_introl eq_refl)) as (row & Hr & Oc & _).
  rewrite R. exists row. split; [exact Hr|]. rewrite Oc. reflexivity.
Defined.

Lemma one_row_per_product_id_witness :
  unique_product_id (db fresh_world) /\
  exists row,
    rows_for 1
      (db (snd (consume_messages sample_clock
                  [mk_message "order_events" (JDict rose_order);
                   mk_message "product_views" (JDict (rose_view 7))]
                  fresh_world))) = [row].
Proof.
  assert (U : unique_product_id (db fresh_world)) by constructor.
  split; [exact U|].
  destruct (one_row_per_product_id sample_clock
              [mk_message "order_events" (JDict rose_order);
               mk_message "product_views" (JDict (rose_view 7))]
              fresh_world U) as (w' & R & _ & H).
  rewrite R. apply (H (mk_message "product_views" (JDict (rose_view 7)))).
  - right. left. reflexivity.
  - left. reflexivity.
Defined.

Lemma send_event_never_fails_witness :
  (forall e, Raises KafkaError = Raises e -> is_Exception e = true) /\
  fst (Catalog.send_event (Raises KafkaError) "product_views" (JDict (rose_view 7)) connected)
  = Ok tt.
Proof.
  assert (H : forall e, Raises KafkaError = Raises e -> is_Exception e = true).
  { intros e E. inversion E. reflexivity. }
  split; [exact H|].
  apply (send_event_never_fails (Raises KafkaError) "product_views"
           (JDict (rose_view 7)) connected H).
Defined.

Lemma top_ten_by_views_witness :
  List.length (popular_products twelve_products) = 12%nat /\
  List.length (get_popular_by_views twelve_products) = 10%nat.
Proof.
  assert (L : List.length (popular_products twelve_products) = 12%nat) by reflexivity.
  split; [exact L|]. apply (top_ten_by_views twelve_products L).
Defined.

Lemma timestamps_are_processing_time_witness :
  ("timestamp" = "timestamp" \/ "timestamp" = "created_at") /\
  _handle_product_view sample_clock
    (dict_set "timestamp" (JStr "1999-01-01T00:00:00") (rose_view 7)) fresh_world
  = _handle_product_view sample_clock (rose_view 7) fresh_world.
Proof.
  assert (K : "timestamp" = "timestamp" \/ "timestamp" = "created_at")
    by (left; reflexivity).
  split; [exact K|].
  apply (timestamps_are_processing_time sample_clock "timestamp"
           (JStr "1999-01-01T00:00:00") (rose_view 7) fresh_world K).
Defined.

Lemma dispatch_on_topic_or_event_type_witness :
  value (mk_message "order_events" (JDict (rose_view 7))) = JDict (rose_view 7) /\
  dispatch sample_clock (mk_message "order_events" (JDict (rose_view 7))) fresh_world
  = (_handle_product_view sample_clock (rose_view 7) ;;;
     write_log (LogProcessedView (rose_view 7))) fresh_world.
Proof.
  assert (V : value (mk_message "order_events" (JDict (rose_view 7)))
              = JDict (rose_view 7)) by reflexivity.
  split; [exact V|].
  apply (dispatch_on_topic_or_event_type sample_clock
           (mk_message "order_events" (JDict (rose_view 7))) (rose_view 7) fresh_world V).
  right. reflexivity.
Defined.

(* ===================================================================== *)
(** ** Further properties of the handlers, the loop, the queries and the
    emitters *)

Lemma handle_product_view_cases clock data w :
  (exists e, fst (_handle_product_view clock data w) = Raise e /\
             db (snd (_handle_product_view clock data w)) = db w) \/
  (fst (_handle_product_view clock data w) = Ok tt /\
   commits clock (ticks w) (db w) (db (snd (_handle_product_view clock data w)))).
Proof.
  destruct w as [[pv om pp] t lg].
  set (P := fun out : result unit * World =>
    (exists e, fst out = Raise e /\ db (snd out) = mk_store pv om pp) \/
    (fst out = Ok tt /\ commits clock t (mk_store pv om pp) (db (snd out)))).
  change (P (_handle_product_view clock data (mk_world (mk_store pv om pp) t lg))).
  unfold _handle_product_view, transaction. run_monad.
  repeat (split_match; run_monad); subst P;
    try (left; eexists; split; reflexivity); right; (split; [reflexivity|]); simpl.
  - match goal with
    | H : select_where _ _ = [] |- commits _ _ _ (mk_store _ _ (_ ++ [?fresh])) =>
        rewrite (select_none_upsert _ (touch_view (clock (S t))) fresh _ H)
    end.
    apply (commits_view clock t (mk_store pv om pp)).
  - match goal with
    | H : select_where _ ?rows = [(?i, ?r)] |- _ =>
        pose proof (select_one_upsert _ (touch_view (clock (S t)))
                      (PopularProduct.mk (PopularProduct.product_id r) "" 1 0 (clock (S t)))
                      _ _ _ H) as U;
        pose proof (select_where_key _ _ _ _ H) as K
    end.
    unfold touch_view in U. rewrite U. rewrite K.
    apply (commits_view clock t (mk_store pv om pp)).
Qed.

Lemma order_item_body_cases clock item pv om pp t lg :
  (exists e, fst (order_item_body clock item (mk_world (mk_store pv om pp) t lg)) = Raise e) \/
  (exists pid name,
     order_item_body clock item (mk_world (mk_store pv om pp) t lg)
     = (Ok tt,
        mk_world
          (mk_store pv om
             (upsert pid (touch_order (clock t)) (PopularProduct.mk pid name 0 1 (clock t)) pp))
          (S t) lg)).
Proof.
  set (P := fun out : result unit * World =>
    (exists e, fst out = Raise e) \/
    (exists pid name,
       out = (Ok tt,
              mk_world
                (mk_store pv om
                   (upsert pid (touch_order (clock t))
                      (PopularProduct.mk pid name 0 1 (clock t)) pp))
                (S t) lg))).
  change (P (order_item_body clock item (mk_world (mk_store pv om pp) t lg))).
  unfold order_item_body, subscript, item_get. run_monad.
  repeat (split_match; run_monad); subst P;
    try (left; eexists; reflexivity); right.
  - match goal with
    | H : select_where _ _ = [] |- context [?rows ++ [?fresh]] =>
        rewrite (select_none_upsert _ (touch_order (clock t)) fresh _ H)
    end.
    eexists. eexists. reflexivity.
  - match goal with
    | H : select_where _ ?rows = [(?i, ?r)] |- _ =>
        pose proof (select_one_upsert _ (touch_order (clock t))
                      (PopularProduct.mk (PopularProduct.product_id r) "" 0 1 (clock t))
                      _ _ _ H) as U;
        pose proof (select_where_key _ _ _ _ H) as K
    end.
    unfold touch_order in U. rewrite U, K.
    eexists. eexists. reflexivity.
Qed.

Lemma order_items_cases clock items : forall pv om pp t lg,
  (exists e, fst (for_each items (order_item_body clock)
                    (mk_world (mk_store pv om pp) t lg)) = Raise e) \/
  (exists lines,
     for_each items (order_item_body clock) (mk_world (mk_store pv om pp) t lg)
     = (Ok tt, mk_world (mk_store pv om (apply_lines clock t lines pp))
                        (t + List.length lines)%nat lg)).
Proof.
  induction items as [|item items IH]; intros pv om pp t lg; simpl.
  - right. exists []. simpl. unfold ret. now rewrite Nat.add_0_r.
  - unfold bind.
    destruct (order_item_body_cases clock item pv om pp t lg) as [(e & He)|(pid & name & Hb)].
    + left. destruct (order_item_body clock item _) as [[[]|e'] w1]; simpl in He;
        [discriminate|]. exists e'. reflexivity.
    + rewrite Hb.
      destruct (IH pv om (upsert pid (touch_order (clock t))
                            (PopularProduct.mk pid name 0 1 (clock t)) pp) (S t) lg)
        as [(e & He)|(lines & Hl)].
      * left. exists e. exact He.
      * right. exists ((pid, name) :: lines). rewrite Hl. simpl.
        now rewrite Nat.add_succ_r.
Qed.

Lemma handle_order_created_cases clock data w :
  (exists e, fst (_handle_order_created clock data w) = Raise e /\
             db (snd (_handle_order_created clock data w)) = db w) \/
  (fst (_handle_order_created clock data w) = Ok tt /\
   commits clock (ticks w) (db w) (db (snd (_handle_order_created clock data w)))).
Proof.
  destruct (handle_order_created_post clock data w) as [_ R].
  destruct (fst (_handle_order_created clock data w)) as [[]|e] eqn:F.
  - right. split; [reflexivity|].
    revert F. destruct w as [[pv om pp] t lg].
    unfold _handle_order_created, transaction. fold (order_item_body clock).
    set (P := fun out : result unit * World =>
      fst out = Ok tt -> commits clock t (mk_store pv om pp) (db (snd out))).
    change (P (let (r, w') :=
       (order_id <- getitem "order_id" data;;
        user_id <- getitem "user_id" data;;
        total_amount <- getitem "total_amount" data;;
        items_count <- getitem "items_count" data;;
        created_at <- utcnow clock;;
        add_OrderMetric order_id user_id total_amount items_count
          (get_default "delivery_type" (JStr "unknown") data) created_at;;;
        items' <- iterate (get_default "items" (JList []) data);;
        for_each items' (order_item_body clock))
         (mk_world (mk_store pv om pp) t lg) in
     match r with
     | Ok a => (Ok a, w')
     | Raise e => (Raise e, mk_world (db (mk_world (mk_store pv om pp) t lg)) (ticks w') (log w'))
     end)).
    unfold iterate. run_monad.
    repeat (split_match; run_monad); subst P; simpl; try discriminate.
    all: intros _;
      match goal with
      | H : for_each ?its _ (mk_world (mk_store _ ?om1 _) _ _) = (Ok _, ?w1) |- _ =>
          destruct (order_items_cases clock its pv om1 pp (S t) lg)
            as [(e & He)|(lines & Hl)];
          [rewrite H in He; discriminate|rewrite H in Hl; inversion Hl; subst; simpl]
      end;
      apply (commits_order clock t (mk_store pv om pp)); reflexivity.
  - left. exists e. split; [reflexivity|]. exact (R e eq_refl).
Qed.

Lemma reaches_trans clock a b c :
  reaches clock a b -> reaches clock b c -> reaches clock a c.
Proof.
  intros H1 H2. induction H2 as [|t st1 st2 _ IH Hc]; auto.
  eapply reaches_commit; eauto.
Qed.

Lemma handler_then_log_cases clock (h : M unit) l l' w :
  handler_post w (h w) ->
  ((exists e, fst (h w) = Raise e /\ db (snd (h w)) = db w) \/
   (fst (h w) = Ok tt /\ commits clock (ticks w) (db w) (db (snd (h w))))) ->
  let out := try_except (h ;;; write_log l) (write_log l') w in
  fst out = Ok tt /\
  (db (snd out) = db w \/ commits clock (ticks w) (db w) (db (snd out))) /\
  (log (snd out) = log w ++ [l] \/ log (snd out) = log w ++ [l']).
Proof.
  intros [(E & L & X) R] C out. unfold out, try_except, bind.
  destruct (h w) as [[[]|e] w1]; simpl in *.
  - destruct C as [(e & He & _)|[_ C]]; [discriminate|].
    split; [reflexivity|]. split; [now right|]. left. now rewrite L.
  - rewrite (X e eq_refl). simpl.
    split; [reflexivity|]. split; [left; exact (R e eq_refl)|]. right. now rewrite L.
Qed.

Lemma process_message_cases clock m w :
  fst (process_message clock m w) = Ok tt /\
  (db (snd (process_message clock m w)) = db w \/
   commits clock (ticks w) (db w) (db (snd (process_message clock m w)))) /\
  exists entry, log (snd (process_message clock m w)) = log w ++ [entry].
Proof.
  assert (G : forall l l' (P : result unit * World),
    fst P = Ok tt /\
    (db (snd P) = db w \/ commits clock (ticks w) (db w) (db (snd P))) /\
    (log (snd P) = log w ++ [l] \/ log (snd P) = log w ++ [l']) ->
    fst P = Ok tt /\
    (db (snd P) = db w \/ commits clock (ticks w) (db w) (db (snd P))) /\
    exists entry, log (snd P) = log w ++ [entry]).
  { intros l l' P (A & B & [C|C]); repeat split; eauto. }
  assert (W : forall l,
    fst (write_log l w) = Ok tt /\
    (db (snd (write_log l w)) = db w \/
     commits clock (ticks w) (db w) (db (snd (write_log l w)))) /\
    exists entry, log (snd (write_log l w)) = log w ++ [entry]).
  { intros l. simpl. split; [reflexivity|]. split; [now left|]. now exists l. }
  unfold process_message, dispatch.
  destruct (value m) as [| | | | | |d]; try apply W.
  destruct (_ || _).
  - eapply G. apply handler_then_log_cases;
      [apply handle_product_view_post|apply handle_product_view_cases].
  - destruct (_ || _).
    + eapply G. apply handler_then_log_cases;
        [apply handle_order_created_post|apply handle_order_created_cases].
    + apply W.
Qed.

Lemma consume_messages_cases clock ms : forall w,
  fst (consume_messages clock ms w) = Ok tt /\
  reaches clock (db w) (db (snd (consume_messages clock ms w))) /\
  List.length (log (snd (consume_messages clock ms w)))
  = (List.length (log w) + List.length ms)%nat.
Proof.
  unfold consume_messages.
  induction ms as [|m ms IH]; intros w; simpl.
  - repeat split; [constructor|lia].
  - unfold bind. destruct (process_message_cases clock m w) as (R & C & (entry & L)).
    destruct (process_message clock m w) as [r w1]. simpl in *. subst r.
    destruct (IH w1) as (R1 & C1 & L1). split; [exact R1|]. split.
    + eapply reaches_trans; [|exact C1].
      destruct C as [<-|C]; [constructor|].
      eapply reaches_commit; [constructor|exact C].
    + rewrite L1, L, length_app. simpl. lia.
Qed.

Lemma upsert_head pid touch fresh rows :
  (forall p, PopularProduct.product_id (touch p) = PopularProduct.product_id p) ->
  PopularProduct.product_id fresh = pid ->
  hd_error (filter (has_product_id pid) (upsert pid touch fresh rows))
  = Some match hd_error (filter (has_product_id pid) rows) with
         | Some r => touch r
         | None => fresh
         end.
Proof.
  intros Ht Hf. destruct (filter (has_product_id pid) rows) as [|r rest] eqn:E.
  - now rewrite (upsert_absent pid touch fresh Hf rows E).
  - now rewrite (upsert_present pid touch fresh Ht Hf rows r rest E).
Qed.

Lemma view_count_in_head pid rows :
  view_count_in pid rows
  = match hd_error (filter (has_product_id pid) rows) with
    | Some r => PopularProduct.view_count r
    | None => 0
    end.
Proof. unfold view_count_in. now destruct (filter _ rows). Qed.

Lemma order_count_in_head pid rows :
  order_count_in pid rows
  = match hd_error (filter (has_product_id pid) rows) with
    | Some r => PopularProduct.order_count r
    | None => 0
    end.
Proof. unfold order_count_in. now destruct (filter _ rows). Qed.

Lemma view_count_in_upsert_view q pid name now rows :
  view_count_in q (upsert pid (touch_view now) (PopularProduct.mk pid name 1 0 now) rows)
  = view_count_in q rows + (if q =? pid then 1 else 0).
Proof.
  destruct (Z.eqb_spec q pid) as [->|Hq].
  - rewrite !view_count_in_head, upsert_head by (intros; reflexivity).
    destruct (hd_error _); reflexivity.
  - unfold view_count_in. rewrite (upsert_other pid _ (PopularProduct.mk pid name 1 0 now) (touch_view_key now) eq_refl q rows Hq). lia.
Qed.

Lemma view_count_in_upsert_order q pid name now rows :
  view_count_in q (upsert pid (touch_order now) (PopularProduct.mk pid name 0 1 now) rows)
  = view_count_in q rows.
Proof.
  destruct (Z.eqb_spec q pid) as [->|Hq].
  - rewrite !view_count_in_head, upsert_head by (intros; reflexivity).
    destruct (hd_error _); reflexivity.
  - unfold view_count_in. now rewrite (upsert_other pid _ (PopularProduct.mk pid name 0 1 now) (touch_order_key now) eq_refl q rows Hq).
Qed.

Lemma view_count_in_apply_lines clock q lines : forall t rows,
  view_count_in q (apply_lines clock t lines rows) = view_count_in q rows.
Proof.
  induction lines as [|[pid name] ls IH]; simpl; intros t rows; auto.
  now rewrite IH, view_count_in_upsert_order.
Qed.

Lemma commits_view_balance clock t st st' pid :
  commits clock t st st' ->
  view_count_of pid st' - views_of pid st' = view_count_of pid st - views_of pid st.
Proof.
  intros [p uid name|metric lines _]; unfold view_count_of, views_of; simpl.
  - rewrite view_count_in_upsert_view, filter_app, length_app. simpl.
    destruct (Z.eqb_spec p pid) as [->|Hp].
    + rewrite Z.eqb_refl. simpl. lia.
    + destruct (Z.eqb_spec pid p); [congruence|]. simpl. lia.
  - now rewrite view_count_in_apply_lines.
Qed.

Lemma reaches_view_balance clock st st' pid :
  reaches clock st st' ->
  view_count_of pid st' - views_of pid st' = view_count_of pid st - views_of pid st.
Proof.
  induction 1 as [|t st1 st2 _ IH C]; auto.
  rewrite <- IH. now apply commits_view_balance with clock t.
Qed.

(** X7.  If every product's [view_count] equals the number of its
    ProductView rows (as in the empty store), it still does after any
    sequence of messages: a view is counted exactly when it is
    recorded. *)
Theorem view_count_matches_recorded_views clock ms w :
  (forall pid, view_count_of pid (db w) = views_of pid (db w)) ->
  forall pid,
    view_count_of pid (db (snd (consume_messages clock ms w)))
    = views_of pid (db (snd (consume_messages clock ms w))).
Proof.
  intros H pid. destruct (consume_messages_cases clock ms w) as (_ & R & _).
  pose proof (reaches_view_balance clock _ _ pid R) as B.
  specialize (H pid). lia.
Qed.

Lemma kept_refl r : kept r r.
Proof. unfold kept. repeat split; lia. Qed.

Lemma kept_trans a b c : kept a b -> kept b c -> kept a c.
Proof. unfold kept. intros (A1 & A2 & A3 & A4) (B1 & B2 & B3 & B4). repeat split; try congruence; lia. Qed.

Lemma upsert_keeps q pid touch fresh rows r :
  (forall p, kept p (touch p)) ->
  PopularProduct.product_id fresh = pid ->
  hd_error (filter (has_product_id q) rows) = Some r ->
  exists r', hd_error (filter (has_product_id q) (upsert pid touch fresh rows)) = Some r' /\
             kept r r'.
Proof.
  intros Ht Hf H.
  assert (Hk : forall p, PopularProduct.product_id (touch p) = PopularProduct.product_id p)
    by (intros p; apply Ht).
  destruct (Z.eq_dec q pid) as [->|Hq].
  - rewrite (upsert_head pid touch fresh rows Hk Hf), H. eauto.
  - rewrite (upsert_other pid touch fresh Hk Hf q rows Hq). exists r. split; [exact H|apply kept_refl].
Qed.

Lemma touch_view_kept now p : kept p (touch_view now p).
Proof. unfold kept. simpl. repeat split; lia. Qed.

Lemma touch_order_kept now p : kept p (touch_order now p).
Proof. unfold kept. simpl. repeat split; lia. Qed.

Lemma apply_lines_keeps clock q lines : forall t rows r,
  hd_error (filter (has_product_id q) rows) = Some r ->
  exists r', hd_error (filter (has_product_id q) (apply_lines clock t lines rows)) = Some r' /\
             kept r r'.
Proof.
  induction lines as [|[pid name] ls IH]; simpl; intros t rows r H.
  - exists r. split; [exact H|apply kept_refl].
  - destruct (upsert_keeps q pid (touch_order (clock t))
                (PopularProduct.mk pid name 0 1 (clock t)) rows r
                (touch_order_kept (clock t)) eq_refl H) as (r1 & H1 & K1).
    destruct (IH (S t) _ r1 H1) as (r2 & H2 & K2).
    exists r2. split; [exact H2|]. eapply kept_trans; eauto.
Qed.

Lemma commits_keeps clock t st st' pid r :
  commits clock t st st' ->
  hd_error (rows_for pid st) = Some r ->
  exists r', hd_error (rows_for pid st') = Some r' /\ kept r r'.
Proof.
  unfold rows_for. intros [p uid name|metric lines _] H; simpl.
  - apply upsert_keeps; auto. apply touch_view_kept.
  - now apply apply_lines_keeps.
Qed.

Lemma reaches_keeps clock st st' pid r :
  reaches clock st st' ->
  hd_error (rows_for pid st) = Some r ->
  exists r', hd_error (rows_for pid st') = Some r' /\ kept r r'.
Proof.
  intros R H. induction R as [|t st1 st2 _ IH C].
  - exists r. split; [exact H|apply kept_refl].
  - destruct IH as (r1 & H1 & K1).
    destruct (commits_keeps clock t st1 st2 pid r1 C H1) as (r2 & H2 & K2).
    exists r2. split; [exact H2|]. eapply kept_trans; eauto.
Qed.

(** X6.  Whatever messages are consumed afterwards, a PopularProduct row
    is still there, alone for its product, under the same name, and its
    counters have not decreased. *)
Theorem product_rows_persist clock ms w pid r :
  unique_product_id (db w) ->
  rows_for pid (db w) = [r] ->
  exists r',
    rows_for pid (db (snd (consume_messages clock ms w))) = [r'] /\
    PopularProduct.product_name r' = PopularProduct.product_name r /\
    PopularProduct.view_count r <= PopularProduct.view_count r' /\
    PopularProduct.order_count r <= PopularProduct.order_count r'.
Proof.
  intros U H. destruct (consume_messages_cases clock ms w) as (_ & R & _).
  destruct (consume_messages_post clock ms w) as [_ [N _]].
  assert (H0 : hd_error (rows_for pid (db w)) = Some r) by now rewrite H.
  destruct (reaches_keeps clock _ _ pid r R H0) as (r' & H' & (_ & K2 & K3 & K4)).
  exists r'. split; [|auto].
  pose proof (NoDup_rows_for pid _ (N U)) as L. unfold rows_for in *.
  destruct (filter _ (popular_products (db (snd (consume_messages clock ms w)))))
    as [|x [|y l]]; simpl in *; try discriminate; try lia.
  now inversion H'.
Qed.

(** X8.  The fact tables are append-only: after any sequence of messages
    the ProductView and OrderMetric rows that were there are unchanged, in
    place, and at most one new fact row per message follows them. *)
Theorem fact_tables_are_append_only clock ms : forall w,
  exists views metrics,
    product_views (db (snd (consume_messages clock ms w)))
    = product_views (db w) ++ views /\
    order_metrics (db (snd (consume_messages clock ms w)))
    = order_metrics (db w) ++ metrics /\
    (List.length views + List.length metrics <= List.length ms)%nat.
Proof.
  unfold consume_messages.
  induction ms as [|m ms IH]; intros w; simpl.
  - exists [], []. rewrite !app_nil_r. auto.
  - unfold bind. destruct (process_message_cases clock m w) as (R & C & _).
    destruct (process_message clock m w) as [r w1]. simpl in *. subst r.
    destruct (IH w1) as (views & metrics & Pv & Om & Len).
    rewrite Pv, Om. destruct C as [E|C].
    + rewrite E. exists views, metrics. repeat split; auto.
    + destruct C as [p uid name|metric lines _]; simpl.
      * exists (ProductView.mk p uid (clock (ticks w)) :: views), metrics.
        rewrite <- app_assoc. simpl. repeat split; auto. lia.
      * exists views, (metric :: metrics).
        rewrite <- app_assoc. simpl. repeat split; auto. lia.
Qed.


(** X1.  A view payload without [product_id] raises [KeyError] on that
    key, and an order payload lacking one of [order_id], [user_id],
    [total_amount], [items_count] raises [KeyError] on the first of them
    it lacks, in that order; nothing is written and the clock is not
    read. *)
Theorem missing_required_key_raises_before_any_write clock data w :
  (dict_get "product_id" data = None ->
   _handle_product_view clock data w = (Raise (KeyError "product_id"), w)) /\
  (forall k, first_missing order_required_keys data = Some k ->
   _handle_order_created clock data w = (Raise (KeyError k), w)).
Proof.
  destruct w as [st t lg]. split.
  - intros H. unfold _handle_product_view, transaction. run_monad. rewrite H. reflexivity.
  - intros k. unfold first_missing, order_required_keys. simpl.
    unfold _handle_order_created, transaction. run_monad.
    destruct (dict_get "order_id" data); [|intros [=]; subst; reflexivity].
    destruct (dict_get "user_id" data); [|intros [=]; subst; reflexivity].
    destruct (dict_get "total_amount" data); [|intros [=]; subst; reflexivity].
    destruct (dict_get "items_count" data); [|intros [=]; subst; reflexivity].
    discriminate.
Qed.

Lemma order_item_body_bad clock item w :
  lacks_product_id item = true ->
  exists e, fst (order_item_body clock item w) = Raise e.
Proof.
  destruct w as [[pv om pp] t lg]. unfold lacks_product_id, order_item_body, subscript, item_get.
  destruct item as [| | | | | |d]; try (intros _; eexists; reflexivity).
  run_monad. destruct (dict_get "product_id" d) as [v|]; [discriminate|].
  intros _. eexists. reflexivity.
Qed.

Lemma for_each_raises {A} (body : A -> M unit) x xs :
  In x xs ->
  (forall w, exists e, fst (body x w) = Raise e) ->
  forall w, exists e, fst (for_each xs body w) = Raise e.
Proof.
  intros Hin Hbad. induction xs as [|y ys IH]; [contradiction|].
  intros w. simpl. unfold bind.
  destruct (body y w) as [[[]|e] w1] eqn:E.
  - destruct Hin as [->|Hin].
    + destruct (Hbad w) as (e & He). rewrite E in He. discriminate.
    + apply IH. exact Hin.
  - exists e. reflexivity.
Qed.

(** X2.  An order payload one of whose line items is not an object, or
    is an object without [product_id], is lost whole: the handler raises,
    and neither its OrderMetric row nor the counters of its other line
    items are kept. *)
Theorem order_with_malformed_item_is_lost_whole clock data items item w :
  get_default "items" (JList []) data = JList items ->
  In item items ->
  lacks_product_id item = true ->
  exists e,
    fst (_handle_order_created clock data w) = Raise e /\
    db (snd (_handle_order_created clock data w)) = db w.
Proof.
  intros Hi Hin Hbad.
  destruct (handle_order_created_post clock data w) as [_ R].
  assert (F : exists e, fst (_handle_order_created clock data w) = Raise e).
  { clear R. destruct w as [[pv om pp] t lg].
    unfold _handle_order_created, transaction. fold (order_item_body clock).
    rewrite Hi. unfold iterate.
    set (P := fun out : result unit * World => exists e, fst out = Raise e).
    match goal with |- exists e, fst ?x = Raise e => change (P x) end.
    run_monad.
    repeat (split_match; run_monad); subst P; try (eexists; reflexivity).
    match goal with
    | H : for_each items _ ?w0 = (Ok _, _) |- _ =>
        destruct (for_each_raises (order_item_body clock) item items Hin
                    (fun w1 => order_item_body_bad clock item w1 Hbad) w0) as (e & He);
        rewrite H in He; discriminate
    end. }
  destruct F as (e & F). exists e. split; [exact F|]. exact (R e F).
Qed.

(** X3.  A view payload that carries only [product_id], for a product
    that has no row yet, is stored with [user_id] NULL and creates the
    product's row under the name ["Unknown"] with one view and no
    order. *)
Theorem view_without_optional_keys_uses_defaults clock data pid w :
  dict_get "product_id" data = Some (JInt pid) ->
  dict_get "user_id" data = None ->
  dict_get "product_name" data = None ->
  rows_for pid (db w) = [] ->
  _handle_product_view clock data w
  = (Ok tt,
     mk_world
       (mk_store
          (product_views (db w) ++ [ProductView.mk pid None (clock (ticks w))])
          (order_metrics (db w))
          (popular_products (db w)
             ++ [PopularProduct.mk pid "Unknown" 1 0 (clock (S (ticks w)))]))
       (S (S (ticks w))) (log w)).
Proof.
  intros Hp Hu Hn Hr.
  assert (D : decode_view data = Some (mk_view_event pid None "Unknown")).
  { unfold decode_view, get_default. rewrite Hp, Hu, Hn. reflexivity. }
  rewrite (handle_product_view_run clock data _ w D) by (simpl; rewrite Hr; simpl; lia).
  simpl. do 3 f_equal.
  unfold rows_for in Hr. clear - Hr.
  induction (popular_products (db w)) as [|r rs IH]; simpl in *; [reflexivity|].
  destruct (has_product_id pid r); [discriminate|]. now rewrite IH.
Qed.

(** X4.  A well-typed order payload without [delivery_type] and without
    [items] is stored with delivery type ["unknown"] and touches no
    PopularProduct row. *)
Theorem order_without_optional_keys_uses_defaults clock data ev w :
  decode_order data = Some ev ->
  dict_get "delivery_type" data = None ->
  dict_get "items" data = None ->
  _handle_order_created clock data w
  = (Ok tt,
     mk_world
       (mk_store (product_views (db w))
                 (order_metrics (db w) ++ [oe_metric ev (clock (ticks w))])
                 (popular_products (db w)))
       (S (ticks w)) (log w)) /\
  OrderMetric.delivery_type (oe_metric ev (clock (ticks w))) = "unknown".
Proof.
  intros D Hd Hi.
  destruct (decode_order_inv _ _ D)
    as (oid & uid & a & amount & cnt & dt & items & Eo & Eu & Ea & Ef & Ec & Ed & Ei & Es & Em).
  unfold get_default in Ed, Ei. rewrite Hd in Ed. rewrite Hi in Ei.
  inversion Ed; subst dt. inversion Ei; subst items. simpl in Es. inversion Es as [Hl].
  split.
  - destruct w as [[pv om pp] t lg].
    unfold _handle_order_created, transaction. fold (order_item_body clock).
    unfold get_default. run_monad. rewrite Eo, Eu, Ea, Ec, Hd, Hi. run_monad.
    rewrite Ef. run_monad. simpl. rewrite Em. reflexivity.
  - rewrite Em. reflexivity.
Qed.

(** X5.  A well-typed view event for a product that has a row adds one
    view to that row and refreshes its [last_updated]; the row keeps its
    [product_name], whatever name the payload carries, and its
    [order_count]; the rows of other products and the order metrics are
    left as they were. *)
Theorem view_event_touches_only_its_row clock data ev w r :
  decode_view data = Some ev ->
  rows_for (ve_product_id ev) (db w) = [r] ->
  exists w',
    _handle_product_view clock data w = (Ok tt, w') /\
    rows_for (ve_product_id ev) (db w')
    = [PopularProduct.mk (ve_product_id ev) (PopularProduct.product_name r)
         (PopularProduct.view_count r + 1) (PopularProduct.order_count r)
         (clock (S (ticks w)))] /\
    (forall q, q <> ve_product_id ev -> rows_for q (db w') = rows_for q (db w)) /\
    order_metrics (db w') = order_metrics (db w).
Proof.
  intros D Hr.
  rewrite (handle_product_view_run clock data ev w D) by (rewrite Hr; simpl; lia).
  eexists. split; [reflexivity|]. unfold rows_for in *. simpl.
  split; [|split; [|reflexivity]].
  - rewrite (upsert_present (ve_product_id ev) _
               (PopularProduct.mk (ve_product_id ev) (ve_product_name ev) 1 0
                  (clock (S (ticks w))))
               (touch_view_key _) eq_refl _ r [] Hr).
    assert (K : PopularProduct.product_id r = ve_product_id ev).
    { assert (Hin : In r (filter (has_product_id (ve_product_id ev))
                            (popular_products (db w)))) by (rewrite Hr; now left).
      apply filter_In in Hin. destruct Hin as [_ Hk]. now apply Z.eqb_eq in Hk. }
    unfold touch_view, PopularProduct.set_last_updated, PopularProduct.set_view_count.
    simpl. now rewrite K.
  - intros q Hq. apply upsert_other; auto.
Qed.

Lemma top_n_sorted (key : PopularProduct.t -> Z) n rows :
  let sorted := order_by_desc Z.leb key rows in
  List.length (firstn n sorted) = Nat.min n (List.length rows) /\
  StronglySorted (fun a b => key b <= key a) (firstn n sorted) /\
  Permutation rows (firstn n sorted ++ skipn n sorted) /\
  (forall a b, In a (firstn n sorted) -> In b (skipn n sorted) -> key b <= key a).
Proof.
  intros sorted.
  assert (P : Permutation sorted rows) by apply order_by_desc_perm.
  assert (S : StronglySorted (fun a b => key b <= key a) sorted).
  { eapply StronglySorted_weaken;
      [|apply (order_by_desc_sorted _ _ Z.leb key Zleb_total Zleb_trans)].
    intros a b H. now apply Z.leb_le. }
  split; [rewrite length_firstn, (Permutation_length P); reflexivity|].
  split; [now apply StronglySorted_firstn|].
  split; [rewrite firstn_skipn; now symmetry|].
  intros a b Ha Hb.
  exact (StronglySorted_split (fun a b => key b <= key a) n sorted S a b Ha Hb).
Qed.

(** X12.  On any store the top-by-orders query returns the smaller of
    10 and the number of products, in descending order of [order_count],
    and no product left out has more orders than one returned. *)
Theorem top_ten_by_orders st :
  let top := get_popular_by_orders st in
  List.length top = Nat.min 10 (List.length (popular_products st)) /\
  StronglySorted by_orders_desc top /\
  exists rest,
    Permutation (all_products st) (top ++ rest) /\
    forall a b, In a top -> In b rest -> by_orders_desc a b.
Proof.
  intros top.
  destruct (top_n_sorted PopularProduct.order_count 10 (popular_products st))
    as (L & S & P & T).
  unfold top, get_popular_by_orders, limit.
  split; [now rewrite length_map|]. split; [now apply StronglySorted_map|].
  exists (map PopularProductResponse.model_validate
            (skipn 10 (order_by_desc Z.leb PopularProduct.order_count (popular_products st)))).
  split.
  - unfold all_products. rewrite <- map_app. now apply Permutation_map.
  - intros a b Ha Hb. apply in_map_iff in Ha, Hb.
    destruct Ha as (x & <- & Hx). destruct Hb as (y & <- & Hy).
    unfold by_orders_desc. simpl. now apply T.
Qed.

(** X13.  With at most 10 products both top-10 queries list every
    product, once. *)
Theorem at_most_ten_products_are_all_listed st :
  (List.length (popular_products st) <= 10)%nat ->
  Permutation (get_popular_by_views st) (all_products st) /\
  Permutation (get_popular_by_orders st) (all_products st).
Proof.
  intros L. unfold get_popular_by_views, get_popular_by_orders, limit, all_products.
  split; apply Permutation_map; rewrite firstn_all2;
    try apply order_by_desc_perm;
    rewrite (Permutation_length (order_by_desc_perm _ _ _ _ _)); exact L.
Qed.

Lemma geb_midnight today c :
  0 <= dt_usec c ->
  datetime_geb c (datetime_combine today time_min) = (today <=? dt_day c).
Proof.
  intros H. unfold datetime_geb, datetime_leb, datetime_combine, time_min, time_of. simpl.
  destruct (Z.ltb_spec today (dt_day c)), (Z.eqb_spec today (dt_day c)),
    (Z.leb_spec 0 (dt_usec c)), (Z.leb_spec today (dt_day c)); simpl; try reflexivity; lia.
Qed.

(** X14.  When no stored time of day is negative, [orders_today] is the
    number of OrderMetric rows dated today or later (there is no upper
    bound), and lies between 0 and [total_orders]. *)
Theorem orders_today_counts_from_midnight round today st :
  (forall o, In o (order_metrics st) -> 0 <= dt_usec (OrderMetric.created_at o)) ->
  let d := get_dashboard round today st in
  DashboardMetrics.orders_today d
  = Z.of_nat (List.length
                (filter (fun o => today <=? dt_day (OrderMetric.created_at o))
                        (order_metrics st))) /\
  0 <= DashboardMetrics.orders_today d <= DashboardMetrics.total_orders d.
Proof.
  intros V d. unfold d, get_dashboard. simpl. unfold sql_count. split.
  - f_equal. f_equal. apply filter_ext_in. intros o Ho. apply geb_midnight. now apply V.
  - split; [lia|]. apply Nat2Z.inj_le. apply filter_length_le.
Qed.

Lemma get_order_metrics_perm from_date to_date st :
  Permutation (get_order_metrics from_date to_date st)
    (filter (fun r => in_window from_date to_date (OrderMetricResponse.created_at r))
            (all_order_metrics st)).
Proof.
  assert (E : get_order_metrics from_date to_date st =
    map OrderMetricResponse.model_validate
      (order_by_desc datetime_leb (fun o => OrderMetric.created_at (snd o))
         (filter (fun o => in_window from_date to_date (OrderMetric.created_at (snd o)))
                 (with_ids (order_metrics st))))).
  { unfold get_order_metrics, execute, where_, in_window.
    destruct from_date, to_date; simpl; f_equal; f_equal; apply filter_ext;
      intros [i o]; simpl; unfold datetime_geb, datetime_combine;
      rewrite ?andb_true_r; reflexivity. }
  rewrite E. unfold all_order_metrics. rewrite filter_map_swap.
  apply Permutation_map. apply order_by_desc_perm.
Qed.

(** X15.  A window whose [to_date] is before its [from_date] lists
    nothing. *)
Theorem inverted_window_lists_nothing d1 d2 st :
  d2 < d1 ->
  get_order_metrics (Some d1) (Some d2) st = [].
Proof.
  intros H. apply Permutation_nil. symmetry.
  rewrite get_order_metrics_perm.
  replace (filter _ (all_order_metrics st)) with (@nil OrderMetricResponse.t); auto.
  symmetry. induction (all_order_metrics st) as [|r rs IH]; simpl; auto.
  rewrite <- IH.
  replace (in_window (Some d1) (Some d2) (OrderMetricResponse.created_at r)) with false; auto.
  symmetry. unfold in_window. apply andb_false_iff.
  destruct (datetime_leb (mk_datetime d1 (time_of 0 0 0 0)) (OrderMetricResponse.created_at r)) eqn:A;
    [|now left].
  right. destruct (datetime_leb (OrderMetricResponse.created_at r) _) eqn:B; auto.
  apply datetime_leb_spec in A, B. simpl in *. lia.
Qed.

(** X16.  With [from_date] = [to_date] = d the listing holds exactly the
    OrderMetric rows dated d, when the stored times of day are within
    00:00:00 and 23:59:59.999999. *)
Theorem single_day_window_lists_that_day d st :
  (forall o, In o (order_metrics st) -> valid_time (OrderMetric.created_at o)) ->
  forall r,
    In r (get_order_metrics (Some d) (Some d) st) <->
    In r (all_order_metrics st) /\ dt_day (OrderMetricResponse.created_at r) = d.
Proof.
  intros V r.
  assert (Vr : In r (all_order_metrics st) -> valid_time (OrderMetricResponse.created_at r)).
  { unfold all_order_metrics. intros Hin. apply in_map_iff in Hin.
    destruct Hin as ([i o] & <- & Hin). simpl. apply V.
    clear - Hin. unfold with_ids in Hin. revert Hin. generalize 1.
    induction (order_metrics st) as [|x xs IH]; simpl; intros z Hin; [contradiction|].
    destruct Hin as [E|Hin]; [inversion E; now left|right; eauto]. }
  split.
  - intros H. apply (Permutation_in _ (get_order_metrics_perm _ _ _)) in H.
    apply filter_In in H. destruct H as [Hin Hw]. split; [exact Hin|].
    unfold in_window in Hw. apply andb_true_iff in Hw. destruct Hw as [A B].
    apply datetime_leb_spec in A, B. simpl in *. lia.
  - intros [Hin Hd].
    apply (Permutation_in _ (Permutation_sym (get_order_metrics_perm _ _ _))).
    apply filter_In. split; [exact Hin|].
    destruct (Vr Hin) as [V0 V1]. unfold in_window. apply andb_true_iff.
    split; apply datetime_leb_spec; simpl; right; (split; [lia|]);
      unfold time_max in V1; unfold time_of in *; lia.
Qed.

(** X17.  [start] of both emitters returns whether the broker is
    reachable or not, publishes nothing, and leaves a producer exactly
    when the connection succeeded. *)
Theorem start_degrades_instead_of_failing o s :
  answers o ->
  (fst (Catalog.start o s) = Ok tt /\
   broker (snd (Catalog.start o s)) = broker s /\
   producer (snd (Catalog.start o s))
   = match o with Returns => Some (Producer KAFKA_BOOTSTRAP_SERVERS) | Raises _ => None end) /\
  (fst (Orders.start_kafka_producer o s) = Ok tt /\
   broker (snd (Orders.start_kafka_producer o s)) = broker s /\
   producer (snd (Orders.start_kafka_producer o s))
   = match o with Returns => Some (Producer KAFKA_BOOTSTRAP_SERVERS) | Raises _ => None end).
Proof.
  intros H. unfold Catalog.start, Orders.start_kafka_producer, try_except, bind.
  destruct o as [|e]; simpl; [auto|]. rewrite (H e eq_refl). simpl. auto.
Qed.

Lemma send_event_degraded o topic event s :
  producer s = None ->
  (fst (Catalog.send_event o topic event s) = Ok tt /\
   broker (snd (Catalog.send_event o topic event s)) = broker s /\
   producer (snd (Catalog.send_event o topic event s)) = None) /\
  (fst (Orders.send_event o topic event s) = Ok tt /\
   broker (snd (Orders.send_event o topic event s)) = broker s /\
   producer (snd (Orders.send_event o topic event s)) = None).
Proof.
  intros H. unfold Catalog.send_event, Orders.send_event. rewrite H. simpl. auto.
Qed.

(** X18.  An emitter without a producer stays without one: any run of
    [send_event] calls returns, publishes nothing, and does not
    reconnect. *)
Theorem degraded_emitter_publishes_nothing calls : forall s,
  producer s = None ->
  (fst (send_events Catalog.send_event calls s) = Ok tt /\
   broker (snd (send_events Catalog.send_event calls s)) = broker s /\
   producer (snd (send_events Catalog.send_event calls s)) = None) /\
  (fst (send_events Orders.send_event calls s) = Ok tt /\
   broker (snd (send_events Orders.send_event calls s)) = broker s /\
   producer (snd (send_events Orders.send_event calls s)) = None).
Proof.
  unfold send_events.
  induction calls as [|[o [t e]] calls IH]; intros s H; simpl; [auto|].
  unfold bind.
  destruct (send_event_degraded o t e s H) as [(C1 & C2 & C3) (O1 & O2 & O3)].
  destruct (Catalog.send_event o t e s) as [rc sc].
  destruct (Orders.send_event o t e s) as [ro so]. simpl in *. subst rc ro.
  destruct (IH sc C3) as [(A1 & A2 & A3) _].
  destruct (IH so O3) as [_ (B1 & B2 & B3)].
  rewrite <- C2 at 1. rewrite <- O2. auto.
Qed.

Lemma send_event_connected o topic event s p :
  producer s = Some p ->
  answers o ->
  let published := match o with Returns => [(topic, event)] | Raises _ => [] end in
  (fst (Catalog.send_event o topic event s) = Ok tt /\
   broker (snd (Catalog.send_event o topic event s)) = broker s ++ published /\
   producer (snd (Catalog.send_event o topic event s)) = Some p) /\
  (fst (Orders.send_event o topic event s) = Ok tt /\
   broker (snd (Orders.send_event o topic event s)) = broker s ++ published /\
   producer (snd (Orders.send_event o topic event s)) = Some p).
Proof.
  intros H A. unfold Catalog.send_event, Orders.send_event, try_except, bind. rewrite H.
  destruct o as [|e]; simpl; [auto|]. rewrite (A e eq_refl). simpl.
  rewrite app_nil_r. auto.
Qed.

(** X19.  On a connected emitter a run of [send_event] calls returns,
    publishes the events the broker accepted, in call order, after what
    was published before, and keeps the producer: a failed send does not
    disconnect. *)
Theorem connected_emitter_publishes_in_call_order calls : forall s p,
  producer s = Some p ->
  Forall (fun c => answers (fst c)) calls ->
  (fst (send_events Catalog.send_event calls s) = Ok tt /\
   broker (snd (send_events Catalog.send_event calls s)) = broker s ++ accepted calls /\
   producer (snd (send_events Catalog.send_event calls s)) = Some p) /\
  (fst (send_events Orders.send_event calls s) = Ok tt /\
   broker (snd (send_events Orders.send_event calls s)) = broker s ++ accepted calls /\
   producer (snd (send_events Orders.send_event calls s)) = Some p).
Proof.
  unfold send_events, accepted.
  induction calls as [|[o [t e]] calls IH]; intros s p H A; simpl.
  - rewrite app_nil_r. auto.
  - apply Forall_cons_iff in A. destruct A as [Ao A]. simpl in Ao. unfold bind.
    destruct (send_event_connected o t e s p H Ao) as [(C1 & C2 & C3) (O1 & O2 & O3)].
    destruct (Catalog.send_event o t e s) as [rc sc].
    destruct (Orders.send_event o t e s) as [ro so]. simpl in C1, C2, C3, O1, O2, O3.
    subst rc ro.
    destruct (IH sc p C3 A) as [(A1 & A2 & A3) _].
    destruct (IH so p O3 A) as [_ (B1 & B2 & B3)].
    rewrite A2, B2, C2, O2. destruct o; simpl; rewrite <- ?app_assoc, ?app_nil_r; auto.
Qed.

(** X20.  After [stop] of the catalog wrapper (whether closing succeeded
    or not) and after a successful [stop_kafka_producer] of the order
    service, any run of [send_event] calls returns and publishes
    nothing. *)
Theorem stopped_emitter_publishes_nothing o calls s :
  answers o ->
  (fst (send_events Catalog.send_event calls (snd (Catalog.stop o s))) = Ok tt /\
   broker (snd (send_events Catalog.send_event calls (snd (Catalog.stop o s)))) = broker s) /\
  (fst (send_events Orders.send_event calls (snd (Orders.stop_kafka_producer Returns s)))
   = Ok tt /\
   broker (snd (send_events Orders.send_event calls
                  (snd (Orders.stop_kafka_producer Returns s)))) = broker s).
Proof.
  intros A.
  assert (C : producer (snd (Catalog.stop o s)) = None /\
              broker (snd (Catalog.stop o s)) = broker s).
  { unfold Catalog.stop, try_finally, try_except, bind.
    destruct s as [[p|] b l]; destruct o as [|e]; simpl; auto.
    rewrite (A e eq_refl). simpl. auto. }
  assert (O : producer (snd (Orders.stop_kafka_producer Returns s)) = None /\
              broker (snd (Orders.stop_kafka_producer Returns s)) = broker s).
  { unfold Orders.stop_kafka_producer, bind. destruct s as [[p|] b l]; simpl; auto. }
  destruct C as [C1 C2]. destruct O as [O1 O2].
  destruct (degraded_emitter_publishes_nothing calls _ C1) as [(A1 & A2 & _) _].
  destruct (degraded_emitter_publishes_nothing calls _ O1) as [_ (B1 & B2 & _)].
  rewrite A2, B2, C2, O2. auto.
Qed.

(** X22.  [get_product] answers with the product, or 404 when there is
    none, whatever the state of the emitter and whatever the broker does;
    it publishes one [product_views] event exactly when the product
    exists, the emitter is connected and the broker accepts it. *)
Theorem get_product_answers_whatever_the_broker_does products product_id timestamp o s :
  answers o ->
  fst (get_product products product_id timestamp o s)
  = Ok match find (fun p => Product.id p =? product_id) products with
       | Some product => HTTP_200 product
       | None => HTTP_404
       end /\
  broker (snd (get_product products product_id timestamp o s))
  = broker s
    ++ match find (fun p => Product.id p =? product_id) products, producer s, o with
       | Some product, Some _, Returns =>
           [("product_views", JDict (product_view_event product timestamp))]
       | _, _, _ => []
       end.
Proof.
  intros A. unfold get_product, bind.
  destruct (find _ products) as [product|]; [|simpl; now rewrite app_nil_r].
  destruct (producer s) as [p|] eqn:P.
  - destruct (send_event_connected o "product_views"
                (JDict (product_view_event product timestamp)) s p P A)
      as [(C1 & C2 & _) _].
    destruct (Catalog.send_event o _ _ s) as [r s1]. simpl in *. subst r. simpl.
    split; [reflexivity|]. rewrite C2. now destruct o.
  - destruct (send_event_degraded o "product_views"
                (JDict (product_view_event product timestamp)) s P)
      as [(C1 & C2 & _) _].
    destruct (Catalog.send_event o _ _ s) as [r s1]. simpl in *. subst r. simpl.
    split; [reflexivity|]. rewrite C2. now rewrite app_nil_r.
Qed.

(** X23.  The event [get_product] publishes is accepted by the
    aggregator: consumed from [product_views] it is recorded as a view
    with [user_id] NULL and adds one view to the product's row, created
    under the product's name when there was none. *)
Theorem published_view_is_counted clock product timestamp w :
  (List.length (rows_for (Product.id product) (db w)) <= 1)%nat ->
  exists w' row,
    process_message clock
      (mk_message "product_views" (JDict (product_view_event product timestamp))) w
    = (Ok tt, w') /\
    product_views (db w')
    = product_views (db w) ++ [ProductView.mk (Product.id product) None (clock (ticks w))] /\
    rows_for (Product.id product) (db w') = [row] /\
    PopularProduct.view_count row = view_count_of (Product.id product) (db w) + 1 /\
    (rows_for (Product.id product) (db w) = [] ->
     PopularProduct.product_name row = Product.name product).
Proof.
  intros L.
  assert (D : decode_view (product_view_event product timestamp)
              = Some (mk_view_event (Product.id product) None (Product.name product)))
    by reflexivity.
  unfold process_message, try_except, dispatch, bind. simpl.
  rewrite (handle_product_view_run clock _ _ w D L). simpl.
  destruct (upsert_view_event (Product.id product) (Product.name product)
              (clock (S (ticks w))) (popular_products (db w)) L)
    as (r1 & F1 & V1 & _ & _).
  eexists. exists r1. split; [reflexivity|]. simpl. split; [reflexivity|].
  unfold rows_for. simpl. split; [exact F1|]. split; [exact V1|].
  intros E. unfold rows_for in E.
  rewrite (upsert_absent (Product.id product) (touch_view (clock (S (ticks w))))
             (PopularProduct.mk (Product.id product) (Product.name product) 1 0
                (clock (S (ticks w)))) eq_refl _ E) in F1.
  inversion F1. reflexivity.
Qed.

Lemma order_service_message_is_dropped clock str m w :
  order_service_message str m ->
  process_message clock m w
  = (Ok tt, mk_world (db w) (ticks w) (log w ++ [LogProcessingError (value m)])).
Proof.
  intros (order & [->| ->]); destruct w as [st t lg]; reflexivity.
Qed.

(** X24.  The events the order service publishes are never aggregated:
    the order-created event has no [items_count] key and the
    status-updated event, handed to the same handler by its topic, no
    [total_amount] key, so the handler raises [KeyError] on them and any
    sequence of such events leaves the store as it was. *)
Theorem order_service_events_are_never_aggregated clock str ms : forall w,
  Forall (order_service_message str) ms ->
  (forall order w0,
     _handle_order_created clock (order_created_event str order) w0
     = (Raise (KeyError "items_count"), w0) /\
     _handle_order_created clock (order_status_updated_event str order) w0
     = (Raise (KeyError "total_amount"), w0)) /\
  fst (consume_messages clock ms w) = Ok tt /\
  db (snd (consume_messages clock ms w)) = db w.
Proof.
  intros w H. split.
  - intros order [st t lg]. split; reflexivity.
  - revert w. unfold consume_messages.
    induction H as [|m ms Hm _ IH]; intros w; simpl; [auto|].
    unfold bind. rewrite (order_service_message_is_dropped clock str m w Hm).
    destruct (IH (mk_world (db w) (ticks w) (log w ++ [LogProcessingError (value m)])))
      as [R E].
    split; [exact R|]. rewrite E. reflexivity.
Qed.

Lemma delivered_run clock ms : forall l,
  for_each ms (fun m => in_world (process_message clock m)) l
  = (Ok tt, mk_loop (snd (consume_messages clock ms (world l))) (consumer l) (actions l)).
Proof.
  unfold consume_messages.
  induction ms as [|m ms IH]; intros l; simpl.
  - destruct l; reflexivity.
  - unfold bind, in_world at 1.
    destruct (process_message_cases clock m (world l)) as (R & _).
    destruct (process_message clock m (world l)) as [r w1]. simpl in R. subst r.
    rewrite IH. reflexivity.
Qed.

Lemma consume_turn_run clock ep l :
  uncancelled ep ->
  exists c,
    consume_turn clock ep l
    = (Ok tt,
       mk_loop (snd (consume_messages clock (handled [ep]) (world l))) c
               (actions l ++ turn_actions ep)).
Proof.
  intros (A1 & A2 & A3 & A4). destruct ep as [o1 o2 ms o3 o4]. simpl in *.
  destruct l as [w c0 acts].
  unfold consume_turn, turn_actions, try_finally, try_except, bind, consumer_call. simpl.
  destruct o1 as [|e1]; simpl.
  - destruct o2 as [|e2]; simpl.
    + rewrite delivered_run. simpl. rewrite app_nil_r.
      destruct o3 as [|e3]; simpl.
      * destruct o4 as [|e4]; simpl.
        -- eexists. rewrite <- !app_assoc. reflexivity.
        -- rewrite (A4 e4 eq_refl). simpl. eexists. rewrite <- !app_assoc. reflexivity.
      * rewrite (A3 e3 eq_refl). simpl.
        destruct o4 as [|e4]; simpl.
        -- eexists. rewrite <- !app_assoc. reflexivity.
        -- rewrite (A4 e4 eq_refl). simpl. eexists. rewrite <- !app_assoc. reflexivity.
    + rewrite (A2 e2 eq_refl). simpl.
      destruct o4 as [|e4]; simpl.
      * eexists. rewrite <- !app_assoc. reflexivity.
      * rewrite (A4 e4 eq_refl). simpl. eexists. rewrite <- !app_assoc. reflexivity.
  - rewrite (A1 e1 eq_refl). simpl. eexists. rewrite <- !app_assoc. reflexivity.
Qed.

Lemma consume_messages_app clock a b w :
  snd (consume_messages clock (a ++ b) w)
  = snd (consume_messages clock b (snd (consume_messages clock a w))).
Proof.
  unfold consume_messages. revert w.
  induction a as [|m a IH]; intros w; simpl; [reflexivity|].
  unfold bind. destruct (process_message_cases clock m w) as (R & _).
  destruct (process_message clock m w) as [r w1]. simpl in R. subst r. apply IH.
Qed.

Lemma handled_cons ep eps : handled (ep :: eps) = handled [ep] ++ handled eps.
Proof.
  simpl. destruct (construct ep), (start ep); simpl; rewrite ?app_nil_r; reflexivity.
Qed.

Lemma consume_run clock eps : forall l,
  Forall uncancelled eps ->
  exists c,
    consume clock eps l
    = (Ok tt,
       mk_loop (snd (consume_messages clock (handled eps) (world l))) c
               (actions l ++ List.concat (map turn_actions eps))).
Proof.
  unfold consume.
  induction eps as [|ep eps IH]; intros l H.
  - exists (consumer l). simpl. rewrite app_nil_r. destruct l; reflexivity.
  - apply Forall_cons_iff in H. destruct H as [Hep H].
    destruct (consume_turn_run clock ep l Hep) as (c1 & R1).
    simpl for_each. unfold bind. rewrite R1.
    destruct (IH (mk_loop (snd (consume_messages clock (handled [ep]) (world l))) c1
                    (actions l ++ turn_actions ep)) H) as (c2 & R2).
    rewrite R2. exists c2. simpl world. simpl actions.
    rewrite handled_cons, consume_messages_app. simpl List.concat.
    now rewrite <- app_assoc.
Qed.

Lemma turn_actions_balance ep :
  count_action is_constructed (turn_actions ep) = count_action is_stop_called (turn_actions ep) /\
  count_action is_slept (turn_actions ep) = (if failed ep then 1 else 0)%nat /\
  Forall (fun a => is_slept a = true -> a = Slept 5) (turn_actions ep).
Proof.
  unfold turn_actions, failed, count_action.
  destruct ep as [[|e1] [|e2] ms [|e3] [|e4]]; simpl;
    repeat split; repeat constructor; try discriminate; auto.
Qed.

Lemma count_action_app p a b :
  count_action p (a ++ b) = (count_action p a + count_action p b)%nat.
Proof. unfold count_action. now rewrite filter_app, length_app. Qed.

Lemma concat_turn_actions_balance eps :
  count_action is_constructed (List.concat (map turn_actions eps))
  = count_action is_stop_called (List.concat (map turn_actions eps)) /\
  count_action is_slept (List.concat (map turn_actions eps))
  = List.length (filter failed eps) /\
  Forall (fun a => is_slept a = true -> a = Slept 5) (List.concat (map turn_actions eps)).
Proof.
  induction eps as [|ep eps (I1 & I2 & I3)]; simpl.
  - repeat split; constructor.
  - destruct (turn_actions_balance ep) as (B1 & B2 & B3).
    rewrite !count_action_app, B1, I1, B2, I2. split; [reflexivity|]. split.
    + destruct (failed ep); reflexivity.
    + apply Forall_app. auto.
Qed.

(** X10.  As long as the task is not cancelled, [consume] keeps turning:
    it handles, in order, the messages of every episode whose consumer
    started, stops every consumer it constructed, and sleeps
    RETRY_DELAY_SECONDS once for each episode in which constructing,
    starting or iterating raised. *)
Theorem consume_outlives_connection_errors clock eps l :
  Forall uncancelled eps ->
  exists done,
    fst (consume clock eps l) = Ok tt /\
    world (snd (consume clock eps l)) = snd (consume_messages clock (handled eps) (world l)) /\
    actions (snd (consume clock eps l)) = actions l ++ done /\
    count_action is_constructed done = count_action is_stop_called done /\
    count_action is_slept done = List.length (filter failed eps) /\
    Forall (fun a => is_slept a = true -> a = Slept RETRY_DELAY_SECONDS) done.
Proof.
  intros H. destruct (consume_run clock eps l H) as (c & R). rewrite R. simpl.
  exists (List.concat (map turn_actions eps)).
  destruct (concat_turn_actions_balance eps) as (B1 & B2 & B3).
  split; [reflexivity|]. split; [reflexivity|]. split; [reflexivity|].
  split; [exact B1|]. split; [exact B2|exact B3].
Qed.

(** X11.  When the task is cancelled while the loop waits for a message,
    [consume] stops the consumer once, does not sleep, runs no further
    turn and lets [CancelledError] through; the messages delivered before
    are handled. *)
Theorem cancelled_consume_stops_its_consumer clock ep eps l :
  construct ep = Returns ->
  start ep = Returns ->
  stream_end ep = Raises CancelledError ->
  answers (stop ep) ->
  exists done,
    fst (consume clock (ep :: eps) l) = Raise CancelledError /\
    world (snd (consume clock (ep :: eps) l))
    = snd (consume_messages clock (delivered ep) (world l)) /\
    actions (snd (consume clock (ep :: eps) l)) = actions l ++ done /\
    count_action is_stop_called done = 1%nat /\
    count_action is_slept done = 0%nat.
Proof.
  intros H1 H2 H3 A4. destruct ep as [o1 o2 ms o3 o4]. simpl in *. subst o1 o2 o3.
  destruct l as [w c0 acts].
  unfold consume. simpl for_each.
  unfold bind at 1. unfold consume_turn, try_finally, try_except, bind, consumer_call.
  simpl. rewrite delivered_run. simpl.
  destruct o4 as [|e4]; simpl.
  - exists [Constructed; LoggedStarted; StopCalled]. rewrite <- !app_assoc. simpl.
    repeat split; reflexivity.
  - rewrite (A4 e4 eq_refl). simpl.
    exists [Constructed; LoggedStarted; StopCalled; LoggedStopError].
    rewrite <- !app_assoc. simpl. repeat split; reflexivity.
Qed.

Lemma answers_Returns : answers Returns.
Proof. intros e E. discriminate E. Defined.

Lemma answers_KafkaError : answers (Raises KafkaError).
Proof. intros e E. inversion E. reflexivity. Defined.

Lemma missing_required_key_raises_before_any_write_witness :
  first_missing order_required_keys order_without_amount = Some "total_amount" /\
  _handle_order_created sample_clock order_without_amount fresh_world
  = (Raise (KeyError "total_amount"), fresh_world).
Proof.
  assert (H : first_missing order_required_keys order_without_amount = Some "total_amount")
    by reflexivity.
  split; [exact H|].
  apply (missing_required_key_raises_before_any_write sample_clock order_without_amount
           fresh_world). exact H.
Defined.

Lemma order_with_malformed_item_is_lost_whole_witness :
  lacks_product_id (JDict [("quantity", JInt 2)]) = true /\
  exists e,
    fst (_handle_order_created sample_clock order_with_broken_item fresh_world) = Raise e /\
    db (snd (_handle_order_created sample_clock order_with_broken_item fresh_world))
    = db fresh_world.
Proof.
  split; [reflexivity|].
  apply (order_with_malformed_item_is_lost_whole sample_clock order_with_broken_item
           [JDict [("product_id", JInt 1); ("product_name", JStr "Rose")];
            JDict [("quantity", JInt 2)]]
           (JDict [("quantity", JInt 2)]) fresh_world).
  - reflexivity.
  - right. left. reflexivity.
  - reflexivity.
Defined.

Lemma view_without_optional_keys_uses_defaults_witness :
  rows_for 7 (db fresh_world) = [] /\
  popular_products (db (snd (_handle_product_view sample_clock bare_view fresh_world)))
  = [PopularProduct.mk 7 "Unknown" 1 0 (sample_clock 1)].
Proof.
  split; [reflexivity|].
  rewrite (view_without_optional_keys_uses_defaults sample_clock bare_view 7 fresh_world
             eq_refl eq_refl eq_refl eq_refl).
  reflexivity.
Defined.

Lemma order_without_optional_keys_uses_defaults_witness :
  decode_order bare_order
  = Some (mk_order_event (OrderMetric.mk 1 42 2500%float 0 "unknown") []) /\
  popular_products (db (snd (_handle_order_created sample_clock bare_order tulip_world)))
  = [tulip_row].
Proof.
  assert (D : decode_order bare_order
              = Some (mk_order_event (OrderMetric.mk 1 42 2500%float 0 "unknown") []))
    by reflexivity.
  split; [exact D|].
  destruct (order_without_optional_keys_uses_defaults sample_clock bare_order _ tulip_world
              D eq_refl eq_refl) as [R _].
  rewrite R. reflexivity.
Defined.

Lemma view_event_touches_only_its_row_witness :
  rows_for 1 (db tulip_world) = [tulip_row] /\
  exists w',
    _handle_product_view sample_clock (rose_view 7) tulip_world = (Ok tt, w') /\
    rows_for 1 (db w') = [PopularProduct.mk 1 "Tulip" 4 2 (sample_clock 1)].
Proof.
  assert (H : rows_for 1 (db tulip_world) = [tulip_row]) by reflexivity.
  split; [exact H|].
  destruct (view_event_touches_only_its_row sample_clock (rose_view 7)
              (mk_view_event 1 (Some 7) "Rose") tulip_world tulip_row eq_refl H)
    as (w' & R & F & _).
  exists w'. split; [exact R|exact F].
Defined.

Lemma product_rows_persist_witness :
  unique_product_id (db tulip_world) /\
  exists r',
    rows_for 1 (db (snd (consume_messages sample_clock sample_messages tulip_world))) = [r'] /\
    PopularProduct.product_name r' = "Tulip".
Proof.
  assert (U : unique_product_id (db tulip_world)).
  { repeat constructor. intros []. }
  split; [exact U|].
  destruct (product_rows_persist sample_clock sample_messages tulip_world 1 tulip_row
              U eq_refl) as (r' & F & N & _).
  exists r'. split; [exact F|exact N].
Defined.

Lemma view_count_matches_recorded_views_witness :
  (forall pid, view_count_of pid (db fresh_world) = views_of pid (db fresh_world)) /\
  view_count_of 1 (db (snd (consume_messages sample_clock sample_messages fresh_world)))
  = views_of 1 (db (snd (consume_messages sample_clock sample_messages fresh_world))).
Proof.
  assert (H : forall pid, view_count_of pid (db fresh_world) = views_of pid (db fresh_world))
    by (intros pid; reflexivity).
  split; [exact H|].
  apply (view_count_matches_recorded_views sample_clock sample_messages fresh_world H).
Defined.

Lemma consume_outlives_connection_errors_witness :
  Forall uncancelled [refused_connection; lost_connection] /\
  fst (consume sample_clock [refused_connection; lost_connection] idle_loop) = Ok tt.
Proof.
  assert (H : Forall uncancelled [refused_connection; lost_connection]).
  { repeat constructor; simpl; try apply answers_Returns; apply answers_KafkaError. }
  split; [exact H|].
  destruct (consume_outlives_connection_errors sample_clock _ idle_loop H) as (done & R & _).
  exact R.
Defined.

Lemma cancelled_consume_stops_its_consumer_witness :
  answers (stop cancelled_task) /\
  fst (consume sample_clock [cancelled_task; lost_connection] idle_loop)
  = Raise CancelledError.
Proof.
  split; [apply answers_Returns|].
  destruct (cancelled_consume_stops_its_consumer sample_clock cancelled_task
              [lost_connection] idle_loop eq_refl eq_refl eq_refl answers_Returns)
    as (done & R & _).
  exact R.
Defined.

Lemma at_most_ten_products_are_all_listed_witness :
  (List.length (popular_products (db tulip_world)) <= 10)%nat /\
  Permutation (get_popular_by_views (db tulip_world)) (all_products (db tulip_world)).
Proof.
  assert (L : (List.length (popular_products (db tulip_world)) <= 10)%nat) by (simpl; lia).
  split; [exact L|]. apply (at_most_ten_products_are_all_listed (db tulip_world) L).
Defined.

Lemma orders_today_counts_from_midnight_witness :
  (forall o, In o (order_metrics two_orders) -> 0 <= dt_usec (OrderMetric.created_at o)) /\
  DashboardMetrics.orders_today (get_dashboard round_ndigits 739000 two_orders) = 2.
Proof.
  assert (V : forall o, In o (order_metrics two_orders) ->
                        0 <= dt_usec (OrderMetric.created_at o)).
  { intros o [<-|[<-|[]]]; simpl; lia. }
  split; [exact V|].
  destruct (orders_today_counts_from_midnight round_ndigits 739000 two_orders V) as [E _].
  rewrite E. reflexivity.
Defined.

Lemma inverted_window_lists_nothing_witness :
  739000 < 739001 /\
  get_order_metrics (Some 739001) (Some 739000) late_order_store = [].
Proof.
  assert (H : 739000 < 739001) by lia.
  split; [exact H|]. apply (inverted_window_lists_nothing 739001 739000 late_order_store H).
Defined.

Lemma single_day_window_lists_that_day_witness :
  (forall o, In o (order_metrics late_order_store) ->
             valid_time (OrderMetric.created_at o)) /\
  In (OrderMetricResponse.model_validate (1, late_order))
     (get_order_metrics (Some 739000) (Some 739000) late_order_store).
Proof.
  assert (V : forall o, In o (order_metrics late_order_store) ->
                        valid_time (OrderMetric.created_at o)).
  { intros o [<-|[]]. unfold valid_time. vm_compute. split; discriminate. }
  split; [exact V|].
  apply (single_day_window_lists_that_day 739000 late_order_store V).
  split; [left; reflexivity|reflexivity].
Defined.

Lemma start_degrades_instead_of_failing_witness :
  answers (Raises KafkaError) /\
  Catalog.start (Raises KafkaError) degraded
  = (Ok tt, mk_emitter None [] [(WARNING, "Failed to connect to Kafka")]).
Proof.
  split; [apply answers_KafkaError|].
  destruct (start_degrades_instead_of_failing (Raises KafkaError) degraded
              answers_KafkaError) as [(R & _) _].
  reflexivity.
Defined.

Lemma degraded_emitter_publishes_nothing_witness :
  producer degraded = None /\
  broker (snd (send_events Orders.send_event sample_calls degraded)) = [].
Proof.
  split; [reflexivity|].
  destruct (degraded_emitter_publishes_nothing sample_calls degraded eq_refl)
    as [_ (_ & B & _)].
  exact B.
Defined.

Lemma connected_emitter_publishes_in_call_order_witness :
  Forall (fun c => answers (fst c)) sample_calls /\
  broker (snd (send_events Catalog.send_event sample_calls connected))
  = [("product_views", JDict (rose_view 7)); ("order_events", JDict rose_order)].
Proof.
  assert (H : Forall (fun c => answers (fst c)) sample_calls).
  { repeat constructor; simpl; try apply answers_Returns; apply answers_KafkaError. }
  split; [exact H|].
  destruct (connected_emitter_publishes_in_call_order sample_calls connected
              (Producer KAFKA_BOOTSTRAP_SERVERS) eq_refl H) as [(_ & B & _) _].
  rewrite B. reflexivity.
Defined.

Lemma stopped_emitter_publishes_nothing_witness :
  answers (Raises KafkaError) /\
  broker (snd (send_events Catalog.send_event sample_calls
                 (snd (Catalog.stop (Raises KafkaError) connected)))) = [].
Proof.
  split; [apply answers_KafkaError|].
  destruct (stopped_emitter_publishes_nothing (Raises KafkaError) sample_calls connected
              answers_KafkaError) as [(_ & B) _].
  exact B.
Defined.

Lemma catalog_stop_idempotent_never_raises_witness :
  (forall e, Raises KafkaError = Raises e -> is_Exception e = true) /\
  fst (Catalog.stop (Raises KafkaError) connected) = Ok tt.
Proof.
  split; [apply answers_KafkaError|].
  apply (catalog_stop_idempotent_never_raises (Raises KafkaError) Returns connected
           answers_KafkaError).
Defined.

Lemma get_product_answers_whatever_the_broker_does_witness :
  answers (Raises KafkaError) /\
  fst (get_product [rose] 1 "2024-05-01T10:00:00" (Raises KafkaError) connected)
  = Ok (HTTP_200 rose).
Proof.
  split; [apply answers_KafkaError|].
  destruct (get_product_answers_whatever_the_broker_does [rose] 1 "2024-05-01T10:00:00"
              (Raises KafkaError) connected answers_KafkaError) as [R _].
  rewrite R. reflexivity.
Defined.

Lemma published_view_is_counted_witness :
  (List.length (rows_for (Product.id rose) (db tulip_world)) <= 1)%nat /\
  exists w' row,
    process_message sample_clock
      (mk_message "product_views" (JDict (product_view_event rose "2024-05-01T10:00:00")))
      tulip_world = (Ok tt, w') /\
    rows_for 1 (db w') = [row] /\
    PopularProduct.view_count row = 4.
Proof.
  assert (L : (List.length (rows_for (Product.id rose) (db tulip_world)) <= 1)%nat)
    by (simpl; lia).
  split; [exact L|].
  destruct (published_view_is_counted sample_clock rose "2024-05-01T10:00:00" tulip_world L)
    as (w' & row & R & _ & F & V & _).
  exists w', row. split; [exact R|]. split; [exact F|]. rewrite V. reflexivity.
Defined.

Lemma order_service_events_are_never_aggregated_witness :
  Forall (order_service_message sample_str)
    [mk_message "order_events" (JDict (order_created_event sample_str sample_order));
     mk_message "order_events" (JDict (order_status_updated_event sample_str sample_order))] /\
  db (snd (consume_messages sample_clock
             [mk_message "order_events" (JDict (order_created_event sample_str sample_order));
              mk_message "order_events"
                (JDict (order_status_updated_event sample_str sample_order))]
             tulip_world)) = db tulip_world.
Proof.
  assert (H : Forall (order_service_message sample_str)
    [mk_message "order_events" (JDict (order_created_event sample_str sample_order));
     mk_message "order_events" (JDict (order_status_updated_event sample_str sample_order))]).
  { constructor; [exists sample_order; left; reflexivity|].
    constructor; [exists sample_order; right; reflexivity|constructor]. }
  split; [exact H|].
  destruct (order_service_events_are_never_aggregated sample_clock sample_str _ tulip_world H)
    as (_ & _ & E).
  exact E.
Defined.

Lemma non_object_payload_is_dropped_witness :
  (forall data, value (mk_message "product_views" (JList [])) <> JDict data) /\
  db (snd (process_message sample_clock (mk_message "product_views" (JList [])) tulip_world))
  = db tulip_world.
Proof.
  assert (H : forall data, value (mk_message "product_views" (JList [])) <> JDict data)
    by (intros data; discriminate).
  split; [exact H|].
  rewrite (non_object_payload_is_dropped sample_clock _ tulip_world H). reflexivity.
Defined.
